(** * resultmarketing-ai: spreadsheet ingestion and Malaysian phone numbers

    A shallow embedding of [utils/phone_formatter.py], of the column
    detection, cleaning, validation, de-duplication and conversion methods of
    [services/spreadsheet_service.py], and of the counters that
    [routers/spreadsheet.py] reports, followed by the properties of the
    specification that concern them.

    Conventions of the embedding.
    - A Python [str] is a [string]; the characters are the 7-bit ones.  A
      character above 127 is neither a digit, a letter nor white space here.
    - A cell of a pandas DataFrame is an [option string]: [None] is NaN/None
      ([pd.isna]), [Some s] is a value [v] with [str(v) = s].
    - A [dict] is an association list in insertion order.
    - Floating-point constants (confidences, the 0.6 threshold) are rationals.
    - [KeyError] is the exception of the lookups [df[col]]; it is a
      constructor of [Result].  [clean_data] raises the [ValueError] of
      pandas when its renaming gives two columns one name, and the code that
      runs it has an [Outcome] with both exceptions. *)

From Stdlib Require Import Bool Arith List Lia.
From Stdlib Require Import Ascii String.
From Stdlib Require Import ZArith QArith.
Import ListNotations.

Local Open Scope string_scope.
Local Open Scope bool_scope.
Local Open Scope nat_scope.

(** ** Python string primitives *)

Module PyStr.

Definition code (c : ascii) : nat := nat_of_ascii c.

Definition between (lo hi : nat) (c : ascii) : bool :=
  (lo <=? code c) && (code c <=? hi).

(** [c.isdigit()], also the class [\d] of [re]. *)
Definition is_digit (c : ascii) : bool := between 48 57 c.

Definition is_upper (c : ascii) : bool := between 65 90 c.

Definition is_lower (c : ascii) : bool := between 97 122 c.

Definition is_alpha (c : ascii) : bool := is_upper c || is_lower c.

(** [c.isspace()], also the class [\s] of [re]: tab, line feed, vertical
    tab, form feed, carriage return, the four separators 28..31, space. *)
Definition is_space (c : ascii) : bool :=
  between 9 13 c || between 28 31 c || (code c =? 32).

Definition to_lower (c : ascii) : ascii :=
  if is_upper c then ascii_of_nat (code c + 32) else c.

Definition to_upper (c : ascii) : ascii :=
  if is_lower c then ascii_of_nat (code c - 32) else c.

Fixpoint smap (f : ascii -> ascii) (s : string) : string :=
  match s with
  | EmptyString => EmptyString
  | String c r => String (f c) (smap f r)
  end.

Fixpoint sfilter (p : ascii -> bool) (s : string) : string :=
  match s with
  | EmptyString => EmptyString
  | String c r => if p c then String c (sfilter p r) else sfilter p r
  end.

Fixpoint sforall (p : ascii -> bool) (s : string) : bool :=
  match s with
  | EmptyString => true
  | String c r => p c && sforall p r
  end.

Fixpoint sexists (p : ascii -> bool) (s : string) : bool :=
  match s with
  | EmptyString => false
  | String c r => p c || sexists p r
  end.

(** [s.lower()] *)
Definition lower (s : string) : string := smap to_lower s.

(** [s.startswith(p)] *)
Definition startswith (s p : string) : bool := String.prefix p s.

(** [s[n:]] *)
Fixpoint drop (n : nat) (s : string) : string :=
  match n, s with
  | O, _ => s
  | S _, EmptyString => EmptyString
  | S m, String _ r => drop m r
  end.

(** [s[:n]] *)
Fixpoint take (n : nat) (s : string) : string :=
  match n, s with
  | O, _ => EmptyString
  | S _, EmptyString => EmptyString
  | S m, String c r => String c (take m r)
  end.

(** [s[a:b]] for [0 <= a <= b] *)
Definition slice (a b : nat) (s : string) : string := take (b - a) (drop a s).

(** [s.lstrip(chars)] with the set of characters given as a predicate *)
Fixpoint lstrip_by (p : ascii -> bool) (s : string) : string :=
  match s with
  | EmptyString => EmptyString
  | String c r => if p c then lstrip_by p r else s
  end.

Fixpoint rstrip_by (p : ascii -> bool) (s : string) : string :=
  match s with
  | EmptyString => EmptyString
  | String c r =>
      match rstrip_by p r with
      | EmptyString => if p c then EmptyString else String c EmptyString
      | r' => String c r'
      end
  end.

(** [s.strip()] *)
Definition strip (s : string) : string :=
  rstrip_by is_space (lstrip_by is_space s).

(** [s.lstrip("+")] *)
Definition lstrip_plus (s : string) : string :=
  lstrip_by (fun c => Ascii.eqb c "+") s.

(** [s.split()]: the maximal runs of characters that are not white space.
    [cur] is the word being read, reversed. *)
Fixpoint rev_string (acc s : string) : string :=
  match s with
  | EmptyString => acc
  | String c r => rev_string (String c acc) r
  end.

Definition flush (cur : string) : list string :=
  match cur with
  | EmptyString => []
  | _ => [rev_string EmptyString cur]
  end.

Fixpoint split_from (cur s : string) : list string :=
  match s with
  | EmptyString => flush cur
  | String c r =>
      if is_space c then flush cur ++ split_from EmptyString r
      else split_from (String c cur) r
  end.

Definition split (s : string) : list string := split_from EmptyString s.

(** [sep.join(ws)] *)
Definition join (sep : string) (ws : list string) : string :=
  String.concat sep ws.

(** [needle in hay] *)
Fixpoint contains (needle hay : string) : bool :=
  String.prefix needle hay
  || match hay with
     | EmptyString => false
     | String _ r => contains needle r
     end.

(** [s.isupper()]: some cased character, and no lower-case one. *)
Definition isupper (s : string) : bool :=
  sexists is_upper s && negb (sexists is_lower s).

(** [s.title()]: a cased character is upper-cased when the character
    before it is not cased and lower-cased when it is. *)
Fixpoint title_from (prev_cased : bool) (s : string) : string :=
  match s with
  | EmptyString => EmptyString
  | String c r =>
      if is_lower c then
        String (if prev_cased then c else to_upper c) (title_from true r)
      else if is_upper c then
        String (if prev_cased then to_lower c else c) (title_from true r)
      else String c (title_from false r)
  end.

Definition title (s : string) : string := title_from false s.

(** [bool(s)] *)
Definition truthy (s : string) : bool :=
  match s with EmptyString => false | _ => true end.

End PyStr.

Import PyStr.

(** ** utils/phone_formatter.py *)

Definition MOBILE_PREFIXES : list string :=
  ["10"; "11"; "12"; "13"; "14"; "16"; "17"; "18"; "19"].

Definition LANDLINE_PREFIXES : list string :=
  ["3"; "4"; "5"; "6"; "7"; "8"; "9"].

Definition COUNTRY_CODE : string := "60".

(** [any(s.startswith(p) for p in prefixes)] *)
Definition any_prefix (prefixes : list string) (s : string) : bool :=
  existsb (startswith s) prefixes.

Definition clean_phone_number (phone : string) : string :=
  if negb (truthy phone) then ""
  else
    let has_plus := startswith (strip phone) "+" in
    let cleaned := sfilter is_digit phone in
    if has_plus then "+" ++ cleaned else cleaned.

Definition is_malaysian_number (phone : string) : bool :=
  let cleaned := lstrip_plus (clean_phone_number phone) in
  if startswith cleaned "60" then true
  else if startswith cleaned "0"
          && (let remaining := drop 1 cleaned in
              any_prefix MOBILE_PREFIXES remaining
              || any_prefix LANDLINE_PREFIXES remaining)
       then true
  else any_prefix MOBILE_PREFIXES cleaned.

(** "Remove country code if present" and "Remove leading 0 if present", the
    two statements that [format_malaysian_phone] and
    [validate_malaysian_phone] both run on the cleaned digits. *)
Definition strip_country_code (cleaned : string) : string :=
  if startswith cleaned "60" then drop 2 cleaned else cleaned.

Definition strip_leading_zero (cleaned : string) : string :=
  if startswith cleaned "0" then drop 1 cleaned else cleaned.

Definition format_malaysian_phone
    (phone : string) (include_country_code : bool) : option string :=
  if negb (truthy phone) then None
  else
    let cleaned := lstrip_plus (clean_phone_number phone) in
    let cleaned := strip_country_code cleaned in
    let cleaned := strip_leading_zero cleaned in
    if (String.length cleaned <? 8) || (10 <? String.length cleaned) then None
    else
      let is_mobile := any_prefix MOBILE_PREFIXES cleaned in
      let is_landline := any_prefix LANDLINE_PREFIXES cleaned in
      if negb is_mobile && negb is_landline then None
      else if include_country_code then
        if is_mobile then
          if 9 <=? String.length cleaned then
            Some ("+60 " ++ take 2 cleaned ++ "-" ++ slice 2 5 cleaned
                         ++ " " ++ drop 5 cleaned)
          else Some ("+60 " ++ take 2 cleaned ++ "-" ++ drop 2 cleaned)
        else
          if 8 <=? String.length cleaned then
            Some ("+60 " ++ take 1 cleaned ++ "-" ++ slice 1 5 cleaned
                         ++ " " ++ drop 5 cleaned)
          else Some ("+60 " ++ take 1 cleaned ++ "-" ++ drop 1 cleaned)
      else
        if is_mobile then
          if 9 <=? String.length cleaned then
            Some ("0" ++ take 2 cleaned ++ "-" ++ slice 2 5 cleaned
                      ++ " " ++ drop 5 cleaned)
          else Some ("0" ++ take 2 cleaned ++ "-" ++ drop 2 cleaned)
        else
          if 8 <=? String.length cleaned then
            Some ("0" ++ take 1 cleaned ++ "-" ++ slice 1 5 cleaned
                      ++ " " ++ drop 5 cleaned)
          else Some ("0" ++ take 1 cleaned ++ "-" ++ drop 1 cleaned).

Definition msg_empty : string := "Phone number is empty".
Definition msg_too_short : string := "Phone number is too short".
Definition msg_too_long : string := "Phone number is too long".
Definition msg_valid : string := "Valid Malaysian phone number".
Definition msg_invalid_prefix : string :=
  "Invalid Malaysian phone prefix. Mobile should start with "
  ++ join ", " MOBILE_PREFIXES.

Definition validate_malaysian_phone (phone : string) : bool * string :=
  if negb (truthy phone) then (false, msg_empty)
  else
    let cleaned := lstrip_plus (clean_phone_number phone) in
    let cleaned := strip_country_code cleaned in
    let cleaned := strip_leading_zero cleaned in
    if String.length cleaned <? 8 then (false, msg_too_short)
    else if 10 <? String.length cleaned then (false, msg_too_long)
    else
      let is_mobile := any_prefix MOBILE_PREFIXES cleaned in
      let is_landline := any_prefix LANDLINE_PREFIXES cleaned in
      if negb is_mobile && negb is_landline then (false, msg_invalid_prefix)
      else (true, msg_valid).

Definition normalize_phone_for_comparison (phone : string) : string :=
  if negb (truthy phone) then ""
  else
    let cleaned := lstrip_plus (clean_phone_number phone) in
    if negb (startswith cleaned "60") then
      if startswith cleaned "0" then "60" ++ drop 1 cleaned
      else "60" ++ cleaned
    else cleaned.

(** ** The regular expressions of [re]

    The patterns of the service use character classes, concatenation,
    [?], [+], [{n,}] and the anchors [^] and [$] only.  [re.match] succeeds
    when some prefix of the subject is in the language of the pattern, and
    a back-tracking matcher finds such a prefix whenever there is one, so the
    test is decided here with Brzozowski derivatives. *)

Module Re.

Inductive regex : Type :=
| Void : regex
| Eps : regex
| Cls : (ascii -> bool) -> regex
| Cat : regex -> regex -> regex
| Alt : regex -> regex -> regex
| Star : regex -> regex.

Definition Chr (c : ascii) : regex := Cls (Ascii.eqb c).

(** [r+] *)
Definition Plus (r : regex) : regex := Cat r (Star r).

(** [r?] *)
Definition Opt (r : regex) : regex := Alt Eps r.

(** [r{n,}] *)
Fixpoint AtLeast (n : nat) (r : regex) : regex :=
  match n with
  | O => Star r
  | S m => Cat r (AtLeast m r)
  end.

Fixpoint nullable (r : regex) : bool :=
  match r with
  | Void => false
  | Eps => true
  | Cls _ => false
  | Cat a b => nullable a && nullable b
  | Alt a b => nullable a || nullable b
  | Star _ => true
  end.

Fixpoint deriv (c : ascii) (r : regex) : regex :=
  match r with
  | Void => Void
  | Eps => Void
  | Cls p => if p c then Eps else Void
  | Cat a b =>
      if nullable a then Alt (Cat (deriv c a) b) (deriv c b)
      else Cat (deriv c a) b
  | Alt a b => Alt (deriv c a) (deriv c b)
  | Star a => Cat (deriv c a) (Star a)
  end.

(** The whole subject is in the language. *)
Fixpoint fullmatch (r : regex) (s : string) : bool :=
  match s with
  | EmptyString => nullable r
  | String c t => fullmatch (deriv c r) t
  end.

(** [re.match(r, s)] for a pattern that does not end in [$]. *)
Fixpoint match_prefix (r : regex) (s : string) : bool :=
  nullable r
  || match s with
     | EmptyString => false
     | String c t => match_prefix (deriv c r) t
     end.

(** [re.match(r + "$", s)]: [$] holds at the end of the subject and
    before a line feed that ends it. *)
Definition at_end (s : string) : bool :=
  match s with
  | EmptyString => true
  | String c EmptyString => Ascii.eqb c "010"
  | _ => false
  end.

Fixpoint match_to_end (r : regex) (s : string) : bool :=
  (nullable r && at_end s)
  || match s with
     | EmptyString => false
     | String c t => match_to_end (deriv c r) t
     end.

(** The denotation of a pattern, against which the matcher is checked. *)
Inductive lang : regex -> string -> Prop :=
| L_eps : lang Eps ""
| L_cls : forall p c, p c = true -> lang (Cls p) (String c "")
| L_cat : forall a b s t, lang a s -> lang b t -> lang (Cat a b) (s ++ t)
| L_alt_l : forall a b s, lang a s -> lang (Alt a b) s
| L_alt_r : forall a b s, lang b s -> lang (Alt a b) s
| L_star_nil : forall a, lang (Star a) ""
| L_star_cons : forall a s t,
    lang a s -> lang (Star a) t -> lang (Star a) (s ++ t).

End Re.

Import Re.

(** The character classes of the patterns. *)
Definition one_of (chars : string) (c : ascii) : bool :=
  sexists (Ascii.eqb c) chars.

(** [[a-zA-Z0-9._%+-]] *)
Definition cls_local (c : ascii) : bool :=
  is_alpha c || is_digit c || one_of "._%+-" c.

(** [[a-zA-Z0-9.-]] *)
Definition cls_domain (c : ascii) : bool :=
  is_alpha c || is_digit c || one_of ".-" c.

(** [[a-zA-Z0-9._%+-]+@[a-zA-Z0-9.-]+\.[a-zA-Z]{2,}] *)
Definition email_pattern : regex :=
  Cat (Plus (Cls cls_local))
    (Cat (Chr "@")
       (Cat (Plus (Cls cls_domain))
          (Cat (Chr ".") (AtLeast 2 (Cls is_alpha))))).

(** [[\d\s\-]] *)
Definition cls_phone_body (c : ascii) : bool :=
  is_digit c || is_space c || one_of "-" c.

(** [^\+?60[\d\s\-]+$], [^0\d[\d\s\-]+$] and [^[\d\s\-\+\(\)]{8,}$], each
    without its final [$]. *)
Definition phone_patterns : list regex :=
  [ Cat (Opt (Chr "+"))
        (Cat (Chr "6") (Cat (Chr "0") (Plus (Cls cls_phone_body))));
    Cat (Chr "0") (Cat (Cls is_digit) (Plus (Cls cls_phone_body)));
    AtLeast 8 (Cls (fun c => is_digit c || is_space c || one_of "-+()" c)) ].

(** [^[a-zA-Z\s\.\'\-]+$] without its final [$] *)
Definition name_pattern : regex :=
  Plus (Cls (fun c => is_alpha c || is_space c || one_of ".'-" c)).

(** ** Exceptions, dictionaries, DataFrames *)

Inductive Result (A : Type) : Type :=
| Ok : A -> Result A
| KeyError : string -> Result A.

Arguments Ok {A} _.
Arguments KeyError {A} _.

Definition bind {A B : Type} (m : Result A) (f : A -> Result B) : Result B :=
  match m with
  | Ok a => f a
  | KeyError k => KeyError k
  end.

Notation "x <- m ;; f" := (bind m (fun x => f))
  (at level 61, m at next level, right associativity).

Module Dict.

Definition dict (V : Type) : Type := list (string * V).

(** [d.get(k)] *)
Fixpoint get {V : Type} (k : string) (d : dict V) : option V :=
  match d with
  | [] => None
  | (k', v) :: t => if String.eqb k k' then Some v else get k t
  end.

(** [d[k] = v]: the value of a present key is replaced where it stands, a
    new key is added at the end. *)
Fixpoint set {V : Type} (k : string) (v : V) (d : dict V) : dict V :=
  match d with
  | [] => [(k, v)]
  | (k', v') :: t =>
      if String.eqb k k' then (k', v) :: t else (k', v') :: set k v t
  end.

(** [del d[k]] *)
Definition remove {V : Type} (k : string) (d : dict V) : dict V :=
  filter (fun item => negb (String.eqb k (fst item))) d.

End Dict.

(** A cell: [None] is NaN, [Some s] a value printed [s] by [str]. *)
Definition Cell : Type := option string.

Definition notna (c : Cell) : bool :=
  match c with Some _ => true | None => false end.

Definition cell_eqb (a b : Cell) : bool :=
  match a, b with
  | Some x, Some y => String.eqb x y
  | None, None => true
  | _, _ => false
  end.

(** A row of a DataFrame: its index label and its cells by column name. *)
Record Row : Type := mkRow { label : nat; cells : Dict.dict Cell }.

Record DataFrame : Type := mkDF { columns : list string; rows : list Row }.

(** [len(df)] *)
Definition len (df : DataFrame) : nat := List.length (rows df).

(** [df.empty]: no column or no row. *)
Definition df_empty (df : DataFrame) : bool :=
  match columns df, rows df with
  | [], _ => true
  | _, [] => true
  | _, _ => false
  end.

(** [x in l] for a list of strings *)
Definition mem_string (x : string) (l : list string) : bool :=
  existsb (String.eqb x) l.

(** [col in df.columns] *)
Definition has_column (df : DataFrame) (col : string) : bool :=
  mem_string col (columns df).

(** [row.get(col)]: the cell, or [None] when the row has no such column. *)
Definition row_get (col : string) (r : Row) : Cell :=
  match Dict.get col (cells r) with
  | Some c => c
  | None => None
  end.

(** A Series: the cells of a column with the index labels of their rows. *)
Definition Series : Type := list (nat * Cell).

(** [df[col]] *)
Definition getitem (df : DataFrame) (col : string) : Result Series :=
  if has_column df col
  then Ok (map (fun r => (label r, row_get col r)) (rows df))
  else KeyError col.

(** [series.apply(f)], as the list of the new cells. *)
Definition apply (f : Cell -> Cell) (s : Series) : list Cell :=
  map (fun e => f (snd e)) s.

Fixpoint set_cells (col : string) (rs : list Row) (vals : list Cell)
  : list Row :=
  match rs, vals with
  | r :: rs', v :: vals' =>
      mkRow (label r) (Dict.set col v (cells r)) :: set_cells col rs' vals'
  | _, _ => rs
  end.

(** [df[col] = vals]: a present column is overwritten where it stands, a
    new one is added after the last. *)
Definition setitem (df : DataFrame) (col : string) (vals : list Cell)
  : DataFrame :=
  mkDF (if has_column df col then columns df else (columns df ++ [col])%list)
       (set_cells col (rows df) vals).

(** [df.drop(columns=[col])] *)
Definition drop_column (df : DataFrame) (col : string) : DataFrame :=
  mkDF (filter (fun c => negb (String.eqb col c)) (columns df))
       (map (fun r => mkRow (label r) (Dict.remove col (cells r))) (rows df)).

(** The DataFrame that [pd.read_csv] and [pd.read_excel] build from a
    header and the cells of the rows: the index is 0, 1, 2, ... *)
Fixpoint records_from (i : nat) (header : list string)
    (data : list (list Cell)) : list Row :=
  match data with
  | [] => []
  | d :: t => mkRow i (combine header d) :: records_from (S i) header t
  end.

Definition frame (header : list string) (data : list (list Cell))
  : DataFrame :=
  mkDF header (records_from 0 header data).

(** [{std: orig for orig, std in column_mappings.items() if std}], the
    dictionary that [validate_data] and [deduplicate] call [std_columns] and
    [to_contact_list] calls [std_to_orig]. *)
Definition mapped (std : option string) : option string :=
  match std with
  | Some s => if truthy s then Some s else None
  | None => None
  end.

Definition std_to_orig (column_mappings : Dict.dict (option string))
  : Dict.dict string :=
  fold_left
    (fun d item =>
       match mapped (snd item) with
       | Some std => Dict.set std (fst item) d
       | None => d
       end)
    column_mappings [].

(** ** config.py *)

Definition COLUMN_MAPPINGS : Dict.dict (list string) :=
  [ ("name", ["name"; "full name"; "contact name"; "client name"; "nama";
              "customer name"; "prospect name"]);
    ("phone", ["phone"; "mobile"; "tel"; "telephone"; "handphone"; "hp";
               "contact number"; "phone number"; "no tel"; "no telefon"]);
    ("email", ["email"; "e-mail"; "email address"; "emel"]);
    ("company", ["company"; "organization"; "organisation"; "syarikat";
                 "business"; "firm"; "company name"]);
    ("title", ["title"; "position"; "designation"; "role"; "job title";
               "jawatan"]);
    ("industry", ["industry"; "sector"; "industri"; "business type"]);
    ("address", ["address"; "alamat"; "location"; "office address"]);
    ("notes", ["notes"; "remarks"; "comments"; "catatan"; "description"]);
    ("source", ["source"; "lead source"; "referral"; "sumber"]);
    ("status", ["status"; "lead status"; "stage"; "pipeline stage"]) ].

(** ** services/spreadsheet_service.py: column detection *)

Record ColumnMapping : Type := mkMapping {
  original_name : string;
  mapped_to : option string;
  confidence : Q;
  sample_values : list string
}.

(** The inner loop of [detect_columns] over the keywords of one field: the
    confidence set by the first keyword that contains the header or is
    contained in it. *)
Fixpoint match_keywords (col_lower : string) (keywords : list string)
  : option Q :=
  match keywords with
  | [] => None
  | keyword :: rest =>
      if contains keyword col_lower || contains col_lower keyword then
        Some (if String.eqb col_lower keyword then 0.95%Q else 0.8%Q)
      else match_keywords col_lower rest
  end.

(** The outer loop over the fields of the table, left at the first field
    that was mapped. *)
Fixpoint match_by_name (col_lower : string)
    (table : Dict.dict (list string)) : option (string * Q) :=
  match table with
  | [] => None
  | (field_name, keywords) :: rest =>
      match match_keywords col_lower keywords with
      | Some conf => Some (field_name, conf)
      | None => match_by_name col_lower rest
      end
  end.

(** [count >= n * 0.6] *)
Definition at_least_60_percent (count n : nat) : bool :=
  Qle_bool (inject_Z (Z.of_nat n) * 0.6) (inject_Z (Z.of_nat count)).

(** [sum(1 for s in l if p(s))] *)
Definition count_if {A : Type} (p : A -> bool) (l : list A) : nat :=
  List.length (filter p l).

Definition email_shaped (s : string) : bool := match_prefix email_pattern s.

Definition phone_shaped (s : string) : bool :=
  existsb (fun pattern => match_to_end pattern (strip s)) phone_patterns.

Definition name_shaped (s : string) : bool :=
  (2 <=? List.length (split s)) && (List.length (split s) <=? 5)
  && match_to_end name_pattern s.

Definition with_field (mapping : ColumnMapping) (field : string) (conf : Q)
  : ColumnMapping :=
  mkMapping (original_name mapping) (Some field) conf (sample_values mapping).

Definition _detect_by_content (mapping : ColumnMapping)
    (sample_values : list string) : ColumnMapping :=
  let sample_strings := sample_values in
  match sample_strings with
  | [] => mapping
  | _ =>
      let email_count := count_if email_shaped sample_strings in
      if at_least_60_percent email_count (List.length sample_strings) then
        with_field mapping "email" 0.9%Q
      else
        let phone_count := count_if phone_shaped sample_strings in
        if at_least_60_percent phone_count (List.length sample_strings) then
          with_field mapping "phone" 0.85%Q
        else
          let name_count := count_if name_shaped sample_strings in
          if at_least_60_percent name_count (List.length sample_strings) then
            with_field mapping "name" 0.7%Q
          else mapping
  end.

(** [series.dropna().head(5).tolist()], each value printed by [str]. *)
Fixpoint dropna (l : list Cell) : list string :=
  match l with
  | [] => []
  | Some v :: t => v :: dropna t
  | None :: t => dropna t
  end.

Definition samples (column : list Cell) : list string :=
  firstn 5 (dropna column).

(** The body of the loop of [detect_columns] for the column [col] whose
    cells are [column]. *)
Definition detect_column (col : string) (column : list Cell) : ColumnMapping :=
  let col_lower := strip (lower col) in
  let sample_values := samples column in
  let mapping := mkMapping col None 0.0%Q sample_values in
  let mapping :=
    match match_by_name col_lower COLUMN_MAPPINGS with
    | Some (field_name, conf) => with_field mapping field_name conf
    | None => mapping
    end in
  match mapped_to mapping, sample_values with
  | None, _ :: _ => _detect_by_content mapping sample_values
  | _, _ => mapping
  end.

(** [df[col]] for a column of the DataFrame, as the list of its cells. *)
Definition column_cells (df : DataFrame) (col : string) : list Cell :=
  map (row_get col) (rows df).

Definition detect_columns (df : DataFrame) : list ColumnMapping :=
  map (fun col => detect_column col (column_cells df col)) (columns df).

(** ** services/spreadsheet_service.py: cleaning *)

Definition _clean_phone (phone : Cell) : Cell :=
  match phone with
  | None => None
  | Some v =>
      let phone_str := strip v in
      match format_malaysian_phone phone_str true with
      | Some formatted => Some formatted
      | None =>
          let cleaned :=
            sfilter (fun c => is_digit c || Ascii.eqb c "+") phone_str in
          if 8 <=? String.length cleaned then Some cleaned else None
      end
  end.

Definition _clean_email (email : Cell) : Cell :=
  match email with
  | None => None
  | Some v =>
      let email_str := lower (strip v) in
      if match_to_end email_pattern email_str then Some email_str else None
  end.

Definition honorifics : list string :=
  ["dr"; "dr."; "dato'"; "datuk"; "tan sri"; "tun"; "datin"; "mr"; "mrs";
   "ms"; "prof"].

(** The body of the loop of [_clean_name] over the words. *)
Definition clean_word (word : string) : string :=
  let word_lower := lower word in
  if mem_string word_lower honorifics || isupper word then word
  else title word.

Definition _clean_name (name : Cell) : Cell :=
  match name with
  | None => None
  | Some v =>
      let name_str := strip v in
      let words := split name_str in
      let cleaned_words := map clean_word words in
      match cleaned_words with
      | [] => None
      | _ => Some (join " " cleaned_words)
      end
  end.

(** [{orig: std for orig, std in column_mappings.items() if std}] *)
Definition rename_map (column_mappings : Dict.dict (option string))
  : Dict.dict string :=
  fold_left
    (fun d item =>
       match mapped (snd item) with
       | Some std => Dict.set (fst item) std d
       | None => d
       end)
    column_mappings [].

(** [df.rename(columns=rename_map)] *)
Definition renamed (names : Dict.dict string) (c : string) : string :=
  match Dict.get c names with Some n => n | None => c end.

Definition rename (df : DataFrame) (names : Dict.dict string) : DataFrame :=
  mkDF (map (renamed names) (columns df))
       (map (fun r =>
               mkRow (label r)
                     (map (fun item => (renamed names (fst item), snd item))
                          (cells r)))
            (rows df)).

(** [df[col] = df[col].apply(f)] under the guard [col in df.columns]. *)
Definition apply_if_present (df : DataFrame) (col : string)
    (f : Cell -> Cell) : DataFrame :=
  match getitem df col with
  | Ok s => setitem df col (apply f s)
  | KeyError _ => df
  end.

(** [str(x).strip() if pd.notna(x) else None] *)
Definition strip_cell (x : Cell) : Cell :=
  match x with
  | Some v => Some (strip v)
  | None => None
  end.

(** The statements of [clean_data], for a renaming that leaves every column
    a name of its own.  The last loop runs over the columns of dtype
    [object]; the other columns hold numbers, which [str] prints without
    white space around them, so that on printed values it strips every
    cell. *)
Definition cleaned_frame (df : DataFrame)
    (column_mappings : Dict.dict (option string)) (clean_phones : bool)
  : DataFrame :=
  let cleaned_df := rename df (rename_map column_mappings) in
  let cleaned_df :=
    if clean_phones then apply_if_present cleaned_df "phone" _clean_phone
    else cleaned_df in
  let cleaned_df := apply_if_present cleaned_df "email" _clean_email in
  let cleaned_df := apply_if_present cleaned_df "name" _clean_name in
  mkDF (columns cleaned_df)
       (map (fun r =>
               mkRow (label r)
                     (map (fun item => (fst item, strip_cell (snd item)))
                          (cells r)))
            (rows cleaned_df)).

(** What code returns or raises when it can raise the [ValueError] of
    pandas as well as [KeyError]. *)
Inductive Outcome (A : Type) : Type :=
| Returned (a : A)
| RaisedKeyError (key : string)
| RaisedValueError.

Arguments Returned {A} a.
Arguments RaisedKeyError {A} key.
Arguments RaisedValueError {A}.

(** Some name stands twice in the list. *)
Fixpoint repeated (names : list string) : bool :=
  match names with
  | [] => false
  | name :: rest => mem_string name rest || repeated rest
  end.

(** [clean_data].  When the renaming gives two columns one name [col],
    [cleaned_df[col]] is a DataFrame of both, and its [apply] hands the
    function a whole column: [pd.isna] and [pd.notna] answer with a Series,
    whose truth value raises [ValueError].  That is so in the statements
    for phone, email and name, and in the last loop for every column of
    dtype [object], the dtype of a column that holds text; columns that
    share a name are taken to hold text.  On a DataFrame without rows
    [apply] calls the function on an empty column only to probe it and
    drops what it raises. *)
Definition clean_data (df : DataFrame)
    (column_mappings : Dict.dict (option string)) (clean_phones : bool)
  : Outcome DataFrame :=
  let cleaned_df := rename df (rename_map column_mappings) in
  if repeated (columns cleaned_df) && negb (len cleaned_df =? 0)
  then RaisedValueError
  else Returned (cleaned_frame df column_mappings clean_phones).

(** ** services/spreadsheet_service.py: validation *)

Record Issue : Type := mkIssue {
  row_number : nat;
  column : string;
  issue_type : string;
  description : string;
  suggested_fix : string
}.

(** The report of [validate_data] without its [quality_score], a rounded
    float that no statement below speaks of. *)
Record Report : Type := mkReport {
  total_rows : nat;
  valid_rows : Z;
  issues_count : nat;
  issues : list Issue;
  missing_phone_count : nat;
  missing_name_count : nat;
  invalid_phone_count : nat;
  invalid_email_count : nat
}.

Definition isna (c : Cell) : bool := negb (notna c).

(** The issues for missing names: one per index label of
    [df[df[name_col].isna()]]. *)
Fixpoint missing_name_issues (name_col : string) (s : Series) : list Issue :=
  match s with
  | [] => []
  | (idx, c) :: t =>
      if isna c then
        mkIssue (idx + 2) name_col "missing" "Missing contact name"
                "Add contact name or remove row"
        :: missing_name_issues name_col t
      else missing_name_issues name_col t
  end.

(** The loop over [df.iterrows()] for the phone column. *)
Fixpoint invalid_phone_issues (phone_col : string) (s : Series) : list Issue :=
  match s with
  | [] => []
  | (idx, phone) :: t =>
      match phone with
      | Some v =>
          let (is_valid, msg) := validate_malaysian_phone v in
          if negb is_valid then
            mkIssue (idx + 2) phone_col "invalid" ("Invalid phone: " ++ msg)
                    "Format as Malaysian number (+60 XX-XXX XXXX)"
            :: invalid_phone_issues phone_col t
          else invalid_phone_issues phone_col t
      | None => invalid_phone_issues phone_col t
      end
  end.

(** The loop over [df.iterrows()] for the email column. *)
Fixpoint invalid_email_issues (email_col : string) (s : Series) : list Issue :=
  match s with
  | [] => []
  | (idx, email) :: t =>
      match email with
      | Some v =>
          if negb (match_to_end email_pattern (strip v)) then
            mkIssue (idx + 2) email_col "invalid" "Invalid email format"
                    "Check email address format"
            :: invalid_email_issues email_col t
          else invalid_email_issues email_col t
      | None => invalid_email_issues email_col t
      end
  end.

Definition count_na (s : Series) : nat := count_if (fun e => isna (snd e)) s.

Definition validate_data (df : DataFrame)
    (column_mappings : Dict.dict (option string)) : Result Report :=
  let total_rows := len df in
  let std_columns := std_to_orig column_mappings in
  name_part <-
    match Dict.get "name" std_columns with
    | Some name_col =>
        s <- getitem df name_col ;;
        Ok (count_na s, missing_name_issues name_col s)
    | None => Ok (0, [])
    end ;;
  phone_part <-
    match Dict.get "phone" std_columns with
    | Some phone_col =>
        s <- getitem df phone_col ;;
        Ok (count_na s, invalid_phone_issues phone_col s)
    | None => Ok (0, [])
    end ;;
  email_issues <-
    match Dict.get "email" std_columns with
    | Some email_col =>
        s <- getitem df email_col ;;
        Ok (invalid_email_issues email_col s)
    | None => Ok []
    end ;;
  let missing_names := fst name_part in
  let missing_phones := fst phone_part in
  let invalid_phones := List.length (snd phone_part) in
  let invalid_emails := List.length email_issues in
  let issues := (snd name_part ++ snd phone_part ++ email_issues)%list in
  Ok (mkReport total_rows
        (Z.of_nat total_rows - Z.of_nat missing_names)
        (List.length issues)
        (firstn 100 issues)
        missing_phones missing_names invalid_phones invalid_emails).

(** ** services/spreadsheet_service.py: de-duplication *)

Record DuplicateGroup : Type := mkGroup {
  key : string;
  value : string;
  count : nat;
  row_numbers : list nat
}.

(** [s.replace(old, new)] for a non-empty [old]; [skip] counts the
    characters of an occurrence that are still to be passed over. *)
Fixpoint replace_from (skip : nat) (old new s : string) : string :=
  match s with
  | EmptyString => EmptyString
  | String c r =>
      match skip with
      | S k => replace_from k old new r
      | O =>
          if String.prefix old s then
            new ++ replace_from (String.length old - 1) old new r
          else String c (replace_from 0 old new r)
      end
  end.

Definition replace (old new s : string) : string := replace_from 0 old new s.

(** [x if pd.notna(x) else ""] after [f(str(x))] *)
Definition normalized (f : string -> string) (x : Cell) : Cell :=
  match x with
  | Some v => Some (f v)
  | None => Some ""
  end.

(** One of the three blocks that add a key column:
    [df[new_col] = df[src_col].apply(...)]. *)
Definition add_key_column (df : DataFrame) (src_col new_col : string)
    (f : string -> string) : Result DataFrame :=
  s <- getitem df src_col ;;
  Ok (setitem df new_col (apply (normalized f) s)).

(** The keys of [groupby]: the distinct values in increasing order. *)
Fixpoint insert_key (k : string) (ks : list string) : list string :=
  match ks with
  | [] => [k]
  | h :: t =>
      match String.compare k h with
      | Lt => k :: ks
      | Eq => ks
      | Gt => h :: insert_key k t
      end
  end.

Definition sorted_keys (l : list string) : list string :=
  fold_right insert_key [] l.

(** [df.duplicated(subset=[col], keep=False)] on the cells of the column *)
Definition occurrences (c : Cell) (s : Series) : nat :=
  count_if (fun e => cell_eqb (snd e) c) s.

Definition duplicated_any (s : Series) (e : nat * Cell) : bool :=
  2 <=? occurrences (snd e) s.

(** [df[col] != ""] *)
Definition not_blank (c : Cell) : bool := negb (cell_eqb c (Some "")).

(** The rows of one group of [groupby(col)], in row order. *)
Definition group_of (v : string) (s : Series) : Series :=
  filter (fun e => cell_eqb (snd e) (Some v)) s.

(** The body of the loop [for col in dedup_columns] of [deduplicate], on the
    Series [df[col]]. *)
Definition groups_of_series (col : string) (s : Series)
  : list DuplicateGroup :=
  let duplicates :=
    filter (fun e => duplicated_any s e && not_blank (snd e)) s in
  let keys := sorted_keys (dropna (map snd duplicates)) in
  flat_map
    (fun v =>
       let group := group_of v duplicates in
       if (1 <? List.length group) && truthy v then
         [mkGroup (replace "_" "" (replace "_normalized" "" col)) v
                  (List.length group)
                  (map (fun e => fst e + 2) group)]
       else [])
    keys.

Definition groups_of_column (df : DataFrame) (col : string)
  : Result (list DuplicateGroup) :=
  s <- getitem df col ;;
  Ok (groups_of_series col s).

Fixpoint groups_of_columns (df : DataFrame) (cols : list string)
  : Result (list DuplicateGroup) :=
  match cols with
  | [] => Ok []
  | col :: rest =>
      g <- groups_of_column df col ;;
      gs <- groups_of_columns df rest ;;
      Ok (g ++ gs)%list
  end.

Fixpoint tuple_eqb (a b : list Cell) : bool :=
  match a, b with
  | [], [] => true
  | x :: a', y :: b' => cell_eqb x y && tuple_eqb a' b'
  | _, _ => false
  end.

(** The cells of a row under the columns [subset]. *)
Definition key_tuple (subset : list string) (r : Row) : list Cell :=
  map (fun c => row_get c r) subset.

(** Keeping the first row of each key: a row goes when a row that was kept
    before it has the same key. *)
Fixpoint keep_first (key : Row -> list Cell) (seen : list (list Cell))
    (rs : list Row) : list Row :=
  match rs with
  | [] => []
  | r :: t =>
      if existsb (tuple_eqb (key r)) seen then keep_first key seen t
      else r :: keep_first key (key r :: seen) t
  end.

(** [df.drop_duplicates(subset=subset, keep="first")] *)
Definition drop_duplicates (df : DataFrame) (subset : list string)
  : DataFrame :=
  mkDF (columns df) (keep_first (key_tuple subset) [] (rows df)).

Definition temp_columns : list string :=
  ["_phone_normalized"; "_email_normalized"; "_name_normalized"].

(** The loop that cleans the temporary columns up, and its body. *)
Definition drop_if_present (df : DataFrame) (col : string) : DataFrame :=
  if has_column df col then drop_column df col else df.

Definition drop_temp_columns (df : DataFrame) : DataFrame :=
  fold_left drop_if_present temp_columns df.

(** One of the three blocks that build the key: when [field] is mapped,
    [df[new_col] = df[std_columns[field]].apply(...)] and
    [dedup_columns.append(new_col)].  The state is [df] with
    [dedup_columns]. *)
Definition key_block (std_columns : Dict.dict string) (field new_col : string)
    (f : string -> string) (st : DataFrame * list string)
  : Result (DataFrame * list string) :=
  match Dict.get field std_columns with
  | Some col =>
      df' <- add_key_column (fst st) col new_col f ;;
      Ok (df', (snd st ++ [new_col])%list)
  | None => Ok st
  end.

(** [lambda x: str(x).lower().strip()] *)
Definition lower_strip (x : string) : string := strip (lower x).

(** The part of [deduplicate] under "Build dedup key based on available
    columns": phone, then email, then name when [dedup_columns] is still
    empty. *)
Definition build_dedup_key (df : DataFrame) (std_columns : Dict.dict string)
  : Result (DataFrame * list string) :=
  st <- key_block std_columns "phone" "_phone_normalized"
          normalize_phone_for_comparison (df, []) ;;
  st <- key_block std_columns "email" "_email_normalized" lower_strip st ;;
  match snd st with
  | [] => key_block std_columns "name" "_name_normalized" lower_strip st
  | _ :: _ => Ok st
  end.

Definition deduplicate (df : DataFrame)
    (column_mappings : Dict.dict (option string))
  : Result (DataFrame * Z * list DuplicateGroup) :=
  if df_empty df then Ok (df, 0%Z, [])
  else
    let std_columns := std_to_orig column_mappings in
    st <- build_dedup_key df std_columns ;;
    let df := fst st in
    let dedup_columns := snd st in
    match dedup_columns with
    | [] => Ok (df, 0%Z, [])
    | _ :: _ =>
        let original_count := len df in
        duplicate_groups <- groups_of_columns df dedup_columns ;;
        let deduped_df := drop_duplicates df dedup_columns in
        let deduped_df := drop_temp_columns deduped_df in
        let duplicate_count :=
          (Z.of_nat original_count - Z.of_nat (len deduped_df))%Z in
        Ok (deduped_df, duplicate_count, firstn 50 duplicate_groups)
    end.

(** ** services/spreadsheet_service.py: conversion to contacts *)

(** A contact: canonical field to cleaned string or [None]. *)
Definition Contact : Type := Dict.dict (option string).

(** [contact.get(field)] is truthy. *)
Definition has_field (contact : Contact) (field : string) : bool :=
  match Dict.get field contact with
  | Some (Some v) => truthy v
  | _ => false
  end.

(** The inner loop of [to_contact_list] for one row. *)
Definition contact_of_row (std_to_orig : Dict.dict string) (row : Row)
  : Contact :=
  fold_left
    (fun contact item =>
       let value := row_get (snd item) row in
       Dict.set (fst item) value contact)
    std_to_orig [].

Definition to_contact_list (df : DataFrame)
    (column_mappings : Dict.dict (option string)) : list Contact :=
  let std_to_orig := std_to_orig column_mappings in
  filter (fun contact => has_field contact "name" || has_field contact "phone")
         (map (contact_of_row std_to_orig) (rows df)).

(** ** routers/spreadsheet.py: the counters of [process_spreadsheet] *)

Record ProcessSummary : Type := mkSummary {
  total_processed : nat;
  successful : nat;
  failed : Z;
  duplicates_removed : Z
}.

(** [process_spreadsheet] from the DataFrame that was read to its answer;
    the route turns what is raised into the status 500.  The
    categorization by the language model, which comes between the
    conversion and the summary, assigns fields of the contacts and leaves
    their number alone; it is not modelled. *)
Definition process_spreadsheet (df : DataFrame)
    (mappings : Dict.dict (option string))
    (clean_phones remove_duplicates : bool)
  : Outcome (ProcessSummary * list Contact * list DuplicateGroup) :=
  match clean_data df mappings clean_phones with
  | RaisedValueError => RaisedValueError
  | RaisedKeyError key => RaisedKeyError key
  | Returned cleaned_df =>
      match (if remove_duplicates then deduplicate cleaned_df mappings
             else Ok (cleaned_df, 0%Z, [])) with
      | KeyError key => RaisedKeyError key
      | Ok (cleaned_df, duplicates_removed, duplicate_groups) =>
          let contacts := to_contact_list cleaned_df mappings in
          Returned
            (mkSummary (len df) (List.length contacts)
               (Z.of_nat (len df) - Z.of_nat (List.length contacts))%Z
               duplicates_removed,
             contacts, duplicate_groups)
      end
  end.

(** ** routers/spreadsheet.py: [analyze_spreadsheet] *)

(** [{m["original_name"]: m["mapped_to"] for m in column_mappings}] *)
Definition mapping_dict (column_mappings : list ColumnMapping)
  : Dict.dict (option string) :=
  fold_left
    (fun d m => Dict.set (original_name m) (mapped_to m) d)
    column_mappings [].

(** The answer of a route: the data, [HTTPException(status_code=400)] with
    its detail, or the status 500 that the route makes of any other
    exception, here the [KeyError] with the key it names. *)
Inductive Response (A : Type) : Type :=
| Success (data : A)
| BadRequest (detail : string)
| InternalError (key_error : string).

Arguments Success {A} data.
Arguments BadRequest {A} detail.
Arguments InternalError {A} key_error.

(** [analyze_spreadsheet] from the DataFrame that was read to the column
    mappings and the quality report of its answer.  The preview and the
    optional insights of the language model are not modelled. *)
Definition analyze_spreadsheet (df : DataFrame)
  : Response (list ColumnMapping * Report) :=
  if df_empty df then BadRequest "Spreadsheet is empty"
  else
    let column_mappings := detect_columns df in
    let mapping_dict := mapping_dict column_mappings in
    match validate_data df mapping_dict with
    | Ok quality_report_data => Success (column_mappings, quality_report_data)
    | KeyError k => InternalError k
    end.

(** ** utils/phone_formatter.py: [extract_phone_numbers] *)

(** The fragment of the patterns of [re] that [extract_phone_numbers] is
    written in: a literal character, the class [\d], the class [[\s\-]],
    the concatenation and the greedy option [a?].  A counted repetition
    [a{m,n}] is [m] copies of [a] followed by [n - m] nested options,
    [(a(a(a)?)?)?] for three. *)
Inductive atom : Type :=
| Char (c : ascii)
| Digit
| Separator.

Inductive pattern : Type :=
| Empty
| Atom (a : atom)
| Seq (a b : pattern)
| Maybe (a : pattern).

Definition accepts (a : atom) (c : ascii) : bool :=
  match a with
  | Char x => Ascii.eqb c x
  | Digit => is_digit c
  | Separator => is_space c || Ascii.eqb c "-"
  end.

Fixpoint exactly (n : nat) (a : pattern) : pattern :=
  match n with
  | 0 => Empty
  | S n' => Seq a (exactly n' a)
  end.

Fixpoint at_most (n : nat) (a : pattern) : pattern :=
  match n with
  | 0 => Empty
  | S n' => Maybe (Seq a (at_most n' a))
  end.

(** [a{lo,hi}] *)
Definition counted (lo hi : nat) (a : pattern) : pattern :=
  Seq (exactly lo a) (at_most (hi - lo) a).

(** The backtracking search of [re] from the start of [s]: [k] is what
    remains to be matched after [p]; an option tries its pattern first and
    the empty text when the rest fails after it. *)
Fixpoint search {A : Type} (p : pattern) (s : string)
    (k : string -> option A) : option A :=
  match p with
  | Empty => k s
  | Atom a =>
      match s with
      | String c t => if accepts a c then k t else None
      | EmptyString => None
      end
  | Seq a b => search a s (fun s' => search b s' k)
  | Maybe a =>
      match search a s k with
      | Some x => Some x
      | None => k s
      end
  end.

(** The match of [p] at the start of [s], as the text after it. *)
Definition match_at (p : pattern) (s : string) : option string :=
  search p s Some.

(** [re.findall(p, text)] for a pattern without groups that matches no
    empty text: the matches from left to right, the search resuming where
    the last match ended.  [skip] counts the characters of the last match
    that are still to be passed. *)
Fixpoint findall_from (p : pattern) (skip : nat) (s : string) : list string :=
  match s with
  | EmptyString => []
  | String _ t =>
      match skip with
      | S n => findall_from p n t
      | 0 =>
          match match_at p s with
          | Some rest =>
              let n := String.length s - String.length rest in
              take n s :: findall_from p (n - 1) t
          | None => findall_from p 0 t
          end
      end
  end.

Definition findall (p : pattern) (text : string) : list string :=
  findall_from p 0 text.

Definition optional_separator : pattern := Maybe (Atom Separator).

(** The three patterns of [extract_phone_numbers]. *)
Definition patterns : list pattern :=
  [ Seq (Atom (Char "+")) (Seq (Atom (Char "6")) (Seq (Atom (Char "0"))
      (Seq optional_separator (Seq (counted 1 2 (Atom Digit))
      (Seq optional_separator (Seq (counted 3 4 (Atom Digit))
      (Seq optional_separator (counted 4 4 (Atom Digit)))))))));
    Seq (Atom (Char "0")) (Seq (counted 1 2 (Atom Digit))
      (Seq optional_separator (Seq (counted 3 4 (Atom Digit))
      (Seq optional_separator (counted 4 4 (Atom Digit))))));
    counted 9 12 (Atom Digit) ].

(** The body of the inner loop of [extract_phone_numbers]. *)
Definition add_match (phone_numbers : list string) (m : string)
  : list string :=
  let cleaned := clean_phone_number m in
  if is_malaysian_number cleaned && negb (mem_string cleaned phone_numbers)
  then (phone_numbers ++ [cleaned])%list
  else phone_numbers.

Definition extract_phone_numbers (text : string) : list string :=
  if negb (truthy text) then []
  else
    fold_left
      (fun phone_numbers pattern =>
         fold_left add_match (findall pattern text) phone_numbers)
      patterns [].

(** The texts that a pattern matches. *)
Inductive matches : pattern -> string -> Prop :=
| matches_empty : matches Empty ""
| matches_atom (a : atom) (c : ascii) :
    accepts a c = true -> matches (Atom a) (String c "")
| matches_seq (a b : pattern) (s1 s2 : string) :
    matches a s1 -> matches b s2 -> matches (Seq a b) (s1 ++ s2)
| matches_some (a : pattern) (s : string) :
    matches a s -> matches (Maybe a) s
| matches_none (a : pattern) : matches (Maybe a) "".

(** The least and the greatest number of digits in a text that the pattern
    matches. *)
Fixpoint least_digits (p : pattern) : nat :=
  match p with
  | Empty => 0
  | Atom Digit => 1
  | Atom (Char c) => if is_digit c then 1 else 0
  | Atom Separator => 0
  | Seq a b => least_digits a + least_digits b
  | Maybe _ => 0
  end.

Fixpoint most_digits (p : pattern) : nat :=
  match p with
  | Empty => 0
  | Atom Digit => 1
  | Atom (Char c) => if is_digit c then 1 else 0
  | Atom Separator => 0
  | Seq a b => most_digits a + most_digits b
  | Maybe a => most_digits a
  end.

(** ** Notions the statements below are phrased with *)

(** The digits that remain "after stripping country code and leading zero":
    the value of [cleaned] that [validate_malaysian_phone] and
    [format_malaysian_phone] measure. *)
Definition national_digits (phone : string) : string :=
  strip_leading_zero
    (strip_country_code (lstrip_plus (clean_phone_number phone))).

(** The reason of a verdict names the given defect. *)
Definition reason_mentions (verdict : bool * string) (defect : string) : bool :=
  contains defect (snd verdict).

(** [isMalaysian] as the specification words it: strip the leading [+], the
    country code and the leading zero, then look for a mobile or a landline
    prefix. *)
Definition is_malaysian_as_specified (raw : string) : bool :=
  let remainder := national_digits raw in
  any_prefix MOBILE_PREFIXES remainder
  || any_prefix LANDLINE_PREFIXES remainder.

(** A valid Malaysian mobile number: accepted by [validate_malaysian_phone],
    with a mobile prefix. *)
Definition valid_mobile (n : string) : bool :=
  fst (validate_malaysian_phone n)
  && any_prefix MOBILE_PREFIXES (national_digits n).

(** The number is written without a trunk zero after the country code:
    its digits do not start with 600. *)
Definition no_trunk_zero (n : string) : Prop :=
  startswith (lstrip_plus (clean_phone_number n)) "600" = false.

(** [normalize_phone_for_comparison(format_malaysian_phone(n))] *)
Definition normalize_formatted (n : string) : option string :=
  match format_malaysian_phone n true with
  | Some f => Some (normalize_phone_for_comparison f)
  | None => None
  end.




(** The confidences of a mapped column. *)
Definition mapped_confidences : list Q :=
  [0.7%Q; 0.8%Q; 0.85%Q; 0.9%Q; 0.95%Q].

(** The row with the key column [new_col] computed from its column
    [src_col]. *)
Definition add_key (new_col src_col : string) (f : string -> string)
    (r : Row) : Row :=
  mkRow (label r)
        (Dict.set new_col (normalized f (row_get src_col r)) (cells r)).

(** A key of the de-duplication: the temporary column, the column of the
    dataset it is computed from, and the normalization. *)
Record KeySpec : Type := mkKey {
  key_column : string;
  source_column : string;
  normalizer : string -> string
}.

Definition key_of (std_columns : Dict.dict string) (field new_col : string)
    (f : string -> string) : list KeySpec :=
  match Dict.get field std_columns with
  | Some col => [mkKey new_col col f]
  | None => []
  end.

(** The keys that a mapping selects: phone and email when they are mapped,
    name when neither is. *)
Definition selected_keys (column_mappings : Dict.dict (option string))
  : list KeySpec :=
  let std := std_to_orig column_mappings in
  match (key_of std "phone" "_phone_normalized" normalize_phone_for_comparison
         ++ key_of std "email" "_email_normalized" lower_strip)%list with
  | [] => key_of std "name" "_name_normalized" lower_strip
  | ks => ks
  end.

(** The normalized key of a row of the dataset, one cell per selected key. *)
Definition dedup_key (column_mappings : Dict.dict (option string)) (r : Row)
  : list Cell :=
  map (fun k => normalized (normalizer k) (row_get (source_column k) r))
      (selected_keys column_mappings).

(** The rows that no earlier row agrees with on the key; [before] holds the
    rows that come earlier. *)
Fixpoint first_occurrences (key : Row -> list Cell) (before rs : list Row)
  : list Row :=
  match rs with
  | [] => []
  | r :: t =>
      if existsb (fun r' => tuple_eqb (key r) (key r')) before
      then first_occurrences key (before ++ [r]) t
      else r :: first_occurrences key (before ++ [r]) t
  end.

(** The rows that de-duplication under a mapping leaves. *)
Definition deduplicated_rows (column_mappings : Dict.dict (option string))
    (rs : list Row) : list Row :=
  match selected_keys column_mappings with
  | [] => rs
  | _ :: _ => first_occurrences (dedup_key column_mappings) [] rs
  end.

(** The row and the dataset with the key columns of [ks] added in turn. *)
Definition augment (ks : list KeySpec) (r : Row) : Row :=
  fold_left
    (fun r k => add_key (key_column k) (source_column k) (normalizer k) r)
    ks r.

Definition with_keys (df : DataFrame) (ks : list KeySpec) : DataFrame :=
  mkDF (columns df ++ map key_column ks)%list (map (augment ks) (rows df)).

(** A column name that is none of the three temporary names. *)
Definition not_temp (c : string) : Prop :=
  forall t, In t temp_columns -> t <> c.

(** A row without its cell for [t]. *)
Definition without (t : string) (r : Row) : Row :=
  mkRow (label r) (Dict.remove t (cells r)).

(** The dataset has none of the three temporary names among its columns,
    and its rows have cells for its columns only. *)
Definition no_temp_columns (df : DataFrame) : Prop :=
  forall t, In t temp_columns ->
    has_column df t = false
    /\ forall r, In r (rows df) -> Dict.get t (cells r) = None.

(** The dataset has none of the three temporary names among its columns. *)
Definition no_temp_names (df : DataFrame) : Prop :=
  forall t, In t temp_columns -> has_column df t = false.

(** A state of the key building that comes from the dataset [d0]: the
    columns are those of [d0] followed by temporary ones, the labels are
    those of [d0], and nothing has changed while no key column was added. *)
Definition extends (d0 : DataFrame) (st : DataFrame * list string) : Prop :=
  (exists extra, columns (fst st) = (columns d0 ++ extra)%list
                 /\ incl extra temp_columns)
  /\ map label (rows (fst st)) = map label (rows d0)
  /\ (snd st = [] -> fst st = d0).

(** The contact of the row is kept by [to_contact_list]: its name or its
    phone is neither null nor empty. *)
Definition retained (column_mappings : Dict.dict (option string)) (r : Row)
  : bool :=
  let contact := contact_of_row (std_to_orig column_mappings) r in
  has_field contact "name" || has_field contact "phone".

(** The field of the contact is not null, as the specification words it. *)
Definition non_null (contact : Contact) (field : string) : bool :=
  match Dict.get field contact with
  | Some (Some _) => true
  | _ => false
  end.

(** The defect that an issue reports is a defect of the row [r]: its cell in
    the column of the issue is missing, or holds a phone number that does
    not validate or an email address that does not match. *)
Definition issue_concerns (i : Issue) (r : Row) : Prop :=
  (issue_type i = "missing" /\ row_get (column i) r = None)
  \/ (issue_type i = "invalid"
      /\ exists v, row_get (column i) r = Some v
                   /\ (fst (validate_malaysian_phone v) = false
                       \/ match_to_end email_pattern (strip v) = false)).

(** The columns that the mapping gives to phone, email and name are columns
    of the dataset. *)
Definition key_columns_present (df : DataFrame)
    (column_mappings : Dict.dict (option string)) : Prop :=
  forall field col,
    In field ["phone"; "email"; "name"] ->
    Dict.get field (std_to_orig column_mappings) = Some col ->
    has_column df col = true.

(** A lookup found something. *)
Definition found {V : Type} (o : option V) : bool :=
  match o with Some _ => true | None => false end.

(** The two conditions above as tests. *)
Definition no_temp_columnsb (df : DataFrame) : bool :=
  forallb
    (fun t =>
       negb (has_column df t)
       && forallb (fun r => negb (found (Dict.get t (cells r)))) (rows df))
    temp_columns.

Definition key_columns_presentb (df : DataFrame)
    (column_mappings : Dict.dict (option string)) : bool :=
  forallb
    (fun field =>
       match Dict.get field (std_to_orig column_mappings) with
       | Some col => has_column df col
       | None => true
       end)
    ["phone"; "email"; "name"].

(** De-duplication as the specification words it when a phone column is
    mapped: by the normalized phone alone. *)
Definition phone_key (phone_col : string) (r : Row) : list Cell :=
  [normalized normalize_phone_for_comparison (row_get phone_col r)].

Definition dedup_by_phone_alone (phone_col : string) (rs : list Row)
  : list Row :=
  first_occurrences (phone_key phone_col) [] rs.

(** The index that reading a file gives: the label of a row is its
    position. *)
Definition range_index (df : DataFrame) : Prop :=
  map label (rows df) = seq 0 (len df).

(** The mapping result invariant of [detect_columns]. *)
Definition mapping_invariant (m : ColumnMapping) : Prop :=
  (mapped_to m = None <-> (confidence m == 0)%Q)
  /\ (mapped_to m <> None ->
      In (confidence m) mapped_confidences
      /\ (0 <= confidence m)%Q /\ (confidence m <= 1)%Q).

(** *** Notions for the further properties *)

(** The display form that [format_malaysian_phone] builds from the digits
    [d] that remain after the country code and the leading zero: the lead,
    then the groups of a mobile or of a landline number. *)
Definition display (include_country_code : bool) (d : string) : string :=
  (if include_country_code then "+60 " else "0")
  ++ (if any_prefix MOBILE_PREFIXES d then
        if 9 <=? String.length d
        then take 2 d ++ "-" ++ slice 2 5 d ++ " " ++ drop 5 d
        else take 2 d ++ "-" ++ drop 2 d
      else
        if 8 <=? String.length d
        then take 1 d ++ "-" ++ slice 1 5 d ++ " " ++ drop 5 d
        else take 1 d ++ "-" ++ drop 1 d).

(** The digits pass the length and prefix checks that
    [format_malaysian_phone] and [validate_malaysian_phone] share. *)
Definition acceptable_digits (d : string) : bool :=
  negb ((String.length d <? 8) || (10 <? String.length d))
  && (any_prefix MOBILE_PREFIXES d || any_prefix LANDLINE_PREFIXES d).

(** Digits, with at most one [+], in front. *)
Definition digits_with_optional_plus (s : string) : bool :=
  match s with
  | String c r => (is_digit c || Ascii.eqb c "+") && sforall is_digit r
  | EmptyString => true
  end.

(** [keyword in col_lower or col_lower in keyword] *)
Definition related (col_lower keyword : string) : bool :=
  contains keyword col_lower || contains col_lower keyword.

(** The keywords of a table with their fields, in the order in which the
    two loops of [detect_columns] come to them. *)
Definition keyword_pairs (table : Dict.dict (list string))
  : list (string * string) :=
  flat_map (fun entry => map (pair (fst entry)) (snd entry)) table.

(** The row has no value in any of the columns that the selected keys are
    computed from. *)
Definition key_missing (column_mappings : Dict.dict (option string))
    (r : Row) : bool :=
  forallb (fun k => isna (row_get (source_column k) r))
          (selected_keys column_mappings).

(** The cells of every row are cells of columns of the DataFrame. *)
Definition rows_within_columns (df : DataFrame) : Prop :=
  forall r k, In r (rows df) -> In k (map fst (cells r)) -> In k (columns df).

(** The character is not white space. *)
Definition no_space (c : ascii) : bool := negb (is_space c).

(** A word: not empty, and without white space. *)
Definition is_word (w : string) : Prop :=
  w <> "" /\ sforall no_space w = true.


Definition df_temp_name_taken : DataFrame :=
  frame ["phone"; "_phone_normalized"]
        [ [Some "012-345 6789"; Some "checked"];
          [Some "019-999 0000"; Some "pending"] ].

Definition df_three_phones : DataFrame :=
  frame ["phone"]
        [ [Some "012-345 6789"]; [Some "+6012-3456789"];
          [Some "019-999 0000"] ].

Definition phone_only : Dict.dict (option string) := [("phone", Some "phone")].

Definition df_quality : DataFrame :=
  frame ["Name"; "Contact No"; "Email"]
        [ [Some "Ali bin Abu"; Some "012-345 6789"; Some "ali@example.com"];
          [None; Some "123"; Some "siti@example"];
          [Some "Tan Ah Kow"; None; None] ].

Definition quality_mapping : Dict.dict (option string) :=
  [("Name", Some "name"); ("Contact No", Some "phone");
   ("Email", Some "email")].

Definition df_same_phone_two_emails : DataFrame :=
  frame ["phone"; "email"]
        [ [Some "012-345 6789"; Some "ali@example.com"];
          [Some "+6012-3456789"; Some "ali@work.example.com"] ].

Definition phone_and_email : Dict.dict (option string) :=
  [("phone", Some "phone"); ("email", Some "email")].

Definition df_headers_in_capitals : DataFrame :=
  frame ["Name"; "Phone"]
        [ [Some "ali bin abu"; Some "012-345 6789"];
          [Some "siti"; Some "019-999 0000"] ].

Definition capitals_mapping : Dict.dict (option string) :=
  [("Name", Some "name"); ("Phone", Some "phone")].

Definition df_name_and_company_name : DataFrame :=
  frame ["Name"; "Company Name"]
        [ [Some "Ali bin Abu"; Some "Syarikat Maju"] ].

Definition df_two_missing_phones : DataFrame :=
  frame ["phone"] [ [None]; [Some "012-345 6789"]; [None] ].

Definition df_blank_phone : DataFrame :=
  frame ["name"; "phone"] [ [None; Some " "] ].

Definition name_and_phone : Dict.dict (option string) :=
  [("name", Some "name"); ("phone", Some "phone")].

(** * Properties *)

(** ** The matcher decides the language of a pattern *)

Lemma append_nil_r (s : string) : s ++ "" = s.
Proof. induction s as [| c s IH]; simpl; [| rewrite IH]; reflexivity. Qed.

Lemma append_eq_nil (s t : string) : s ++ t = "" -> s = "" /\ t = "".
Proof. destruct s; simpl; [tauto | discriminate]. Qed.

Lemma append_eq_cons (s t u : string) (c : ascii) :
  s ++ t = String c u ->
  (s = "" /\ t = String c u) \/ (exists s', s = String c s' /\ u = s' ++ t).
Proof.
  destruct s as [| a s']; simpl; intros H.
  - left. split; [reflexivity | exact H].
  - right. injection H as -> <-. exists s'. split; reflexivity.
Qed.

Lemma nullable_lang (r : regex) : nullable r = true <-> lang r "".
Proof.
  split.
  - induction r as [| | p | a IHa b IHb | a IHa b IHb | a IHa]; simpl;
      intros H; try discriminate.
    + constructor.
    + apply andb_true_iff in H. destruct H as [Ha Hb].
      exact (L_cat a b "" "" (IHa Ha) (IHb Hb)).
    + apply orb_true_iff in H. destruct H as [H | H];
        [apply L_alt_l; exact (IHa H) | apply L_alt_r; exact (IHb H)].
    + constructor.
  - intros H. remember "" as w eqn:Hw.
    induction H as [| p c Hp | a b s t Ha IHa Hb IHb | a b s Ha IHa
                    | a b s Hb IHb | a | a s t Ha IHa Hs IHs]; simpl;
      try reflexivity.
    + discriminate Hw.
    + destruct (append_eq_nil s t Hw) as [-> ->].
      rewrite (IHa eq_refl), (IHb eq_refl). reflexivity.
    + rewrite (IHa Hw). reflexivity.
    + rewrite (IHb Hw). apply orb_true_r.
Qed.

Lemma deriv_sound (c : ascii) (r : regex) :
  forall s, lang (deriv c r) s -> lang r (String c s).
Proof.
  induction r as [| | p | a IHa b IHb | a IHa b IHb | a IHa]; simpl;
    intros s H.
  - inversion H.
  - inversion H.
  - destruct (p c) eqn:Hp; inversion H; subst. constructor. exact Hp.
  - destruct (nullable a) eqn:Hn.
    + inversion H as [| | | a0 b0 s0 Hl | a0 b0 s0 Hr | |]; subst.
      * inversion Hl as [| | a1 b1 s1 t1 H1 H2 | | | |]; subst.
        exact (L_cat a b (String c s1) t1 (IHa s1 H1) H2).
      * apply nullable_lang in Hn.
        exact (L_cat a b "" (String c s) Hn (IHb s Hr)).
    + inversion H as [| | a1 b1 s1 t1 H1 H2 | | | |]; subst.
      exact (L_cat a b (String c s1) t1 (IHa s1 H1) H2).
  - inversion H; subst; [apply L_alt_l; apply IHa | apply L_alt_r; apply IHb];
      assumption.
  - inversion H as [| | a1 b1 s1 t1 H1 H2 | | | |]; subst.
    exact (L_star_cons a (String c s1) t1 (IHa s1 H1) H2).
Qed.

Lemma deriv_complete (c : ascii) (r : regex) (w : string) :
  lang r w -> forall s, w = String c s -> lang (deriv c r) s.
Proof.
  intros H.
  induction H as [| p c0 Hp | a b s1 t Ha IHa Hb IHb | a b s1 Ha IHa
                  | a b s1 Hb IHb | a | a s1 t Ha IHa Hs IHs];
    intros s Hw; simpl.
  - discriminate Hw.
  - injection Hw as -> <-. rewrite Hp. constructor.
  - destruct (append_eq_cons s1 t s c Hw) as [[-> ->] | [s' [-> ->]]].
    + assert (Hn : nullable a = true) by (apply nullable_lang; exact Ha).
      rewrite Hn. apply L_alt_r. apply IHb. reflexivity.
    + destruct (nullable a).
      * apply L_alt_l. apply L_cat; [apply IHa; reflexivity | exact Hb].
      * apply L_cat; [apply IHa; reflexivity | exact Hb].
  - apply L_alt_l. apply IHa. exact Hw.
  - apply L_alt_r. apply IHb. exact Hw.
  - discriminate Hw.
  - destruct (append_eq_cons s1 t s c Hw) as [[-> ->] | [s' [-> ->]]].
    + exact (IHs s eq_refl).
    + apply L_cat; [apply IHa; reflexivity | exact Hs].
Qed.

Lemma deriv_lang (c : ascii) (r : regex) (s : string) :
  lang (deriv c r) s <-> lang r (String c s).
Proof.
  split; [apply deriv_sound |].
  intros H. exact (deriv_complete c r (String c s) H s eq_refl).
Qed.

(** The whole subject matches exactly when it is in the language. *)
Lemma fullmatch_lang (s : string) :
  forall r, fullmatch r s = true <-> lang r s.
Proof.
  induction s as [| c t IH]; intros r; simpl.
  - apply nullable_lang.
  - rewrite IH. apply deriv_lang.
Qed.

Lemma match_prefix_unfold (r : regex) (s : string) :
  match_prefix r s
  = nullable r
    || match s with
       | EmptyString => false
       | String c t => match_prefix (deriv c r) t
       end.
Proof. destruct s; reflexivity. Qed.

(** [re.match] without [$] succeeds exactly when a prefix of the subject
    is in the language. *)
Lemma match_prefix_lang (s : string) :
  forall r,
    match_prefix r s = true <-> exists p t, s = p ++ t /\ lang r p.
Proof.
  induction s as [| c u IH]; intros r; rewrite match_prefix_unfold.
  - rewrite orb_false_r, nullable_lang. split.
    + intros H. exists "", "". split; [reflexivity | exact H].
    + intros [p [t [Hs Hl]]]. symmetry in Hs.
      destruct (append_eq_nil p t Hs) as [-> _]. exact Hl.
  - rewrite orb_true_iff, nullable_lang, IH. split.
    + intros [H | [p [t [-> Hl]]]].
      * exists "", (String c u). split; [reflexivity | exact H].
      * exists (String c p), t. split; [reflexivity |].
        apply deriv_lang. exact Hl.
    + intros [p [t [Hs Hl]]]. symmetry in Hs.
      destruct (append_eq_cons p t u c Hs) as [[-> _] | [p' [-> ->]]].
      * left. exact Hl.
      * right. exists p', t. split; [reflexivity |].
        apply deriv_lang. exact Hl.
Qed.

Lemma match_to_end_unfold (r : regex) (s : string) :
  match_to_end r s
  = (nullable r && at_end s)
    || match s with
       | EmptyString => false
       | String c t => match_to_end (deriv c r) t
       end.
Proof. destruct s; reflexivity. Qed.

(** [re.match] with a final [$] succeeds exactly when the subject, or the
    subject without the line feed that ends it, is in the language. *)
Lemma match_to_end_lang (s : string) :
  forall r,
    match_to_end r s = true
    <-> lang r s \/ exists s', s = s' ++ String "010" "" /\ lang r s'.
Proof.
  induction s as [| c u IH]; intros r; rewrite match_to_end_unfold.
  - cbn [at_end]. rewrite andb_true_r, orb_false_r, nullable_lang. split.
    + intros H. left. exact H.
    + intros [H | [s' [Hs _]]]; [exact H |].
      symmetry in Hs. apply append_eq_nil in Hs. destruct Hs as [_ Hs].
      discriminate Hs.
  - rewrite orb_true_iff, andb_true_iff, nullable_lang, IH. split.
    + intros [[Hn He] | [H | [s' [-> H]]]].
      * right. exists "". destruct u as [| a u']; [| discriminate He].
        cbn [at_end] in He. apply Ascii.eqb_eq in He. subst c.
        split; [reflexivity | exact Hn].
      * left. apply deriv_lang. exact H.
      * right. exists (String c s'). split; [reflexivity |].
        apply deriv_lang. exact H.
    + intros [H | [s' [Hs H]]].
      * right. left. apply deriv_lang. exact H.
      * symmetry in Hs.
        destruct (append_eq_cons s' _ u c Hs) as [[-> Hnl] | [p' [-> ->]]].
        -- left. injection Hnl as <- <-. split; [exact H | reflexivity].
        -- right. right. exists p'. split; [reflexivity |].
           apply deriv_lang. exact H.
Qed.

(** ** Phone numbers *)

Lemma truthy_nonempty (s : string) : s <> "" -> truthy s = true.
Proof. destruct s; [congruence | reflexivity]. Qed.

Lemma validate_unfold (raw : string) :
  raw <> "" ->
  validate_malaysian_phone raw =
    let cleaned := national_digits raw in
    if String.length cleaned <? 8 then (false, msg_too_short)
    else if 10 <? String.length cleaned then (false, msg_too_long)
    else if negb (any_prefix MOBILE_PREFIXES cleaned)
            && negb (any_prefix LANDLINE_PREFIXES cleaned)
         then (false, msg_invalid_prefix)
    else (true, msg_valid).
Proof.
  intros Hne. unfold validate_malaysian_phone, national_digits.
  rewrite (truthy_nonempty raw Hne). reflexivity.
Qed.

(** C5, as stated, fails on the empty input: no digit remains, fewer than
    eight, yet the reason is that the number is empty, not that it is too
    short. *)
Lemma C5_empty_input_counterexample :
  String.length (national_digits "") < 8
  /\ validate_malaysian_phone "" = (false, "Phone number is empty")
  /\ reason_mentions (validate_malaysian_phone "") "too short" = false.
Proof. repeat split; vm_compute; lia. Qed.

(** C5, amended: for every non-empty input, [validate] answers false with
    the reason "Phone number is too short" when fewer than 8 digits remain
    after the country code and the leading zero are stripped, and false with
    "Phone number is too long" when more than 10 remain; so it does on "123"
    and on "+60123456789012". *)
Theorem C5_validate_length_reasons :
  (forall raw : string,
      raw <> "" ->
      (String.length (national_digits raw) < 8 ->
       validate_malaysian_phone raw = (false, "Phone number is too short"))
      /\ (10 < String.length (national_digits raw) ->
          validate_malaysian_phone raw = (false, "Phone number is too long")))
  /\ validate_malaysian_phone "123" = (false, "Phone number is too short")
  /\ validate_malaysian_phone "+60123456789012"
     = (false, "Phone number is too long").
Proof.
  split; [| split; reflexivity].
  intros raw Hne. rewrite (validate_unfold raw Hne). cbv zeta.
  split; intros Hlen.
  - apply Nat.ltb_lt in Hlen. rewrite Hlen. reflexivity.
  - assert (H8 : (String.length (national_digits raw) <? 8) = false)
      by (apply Nat.ltb_ge; lia).
    apply Nat.ltb_lt in Hlen. rewrite H8, Hlen. reflexivity.
Qed.

Lemma C5_validate_length_reasons_witness :
  validate_malaysian_phone "0123" = (false, "Phone number is too short")
  /\ validate_malaysian_phone "+60 12 3456 7890 12"
     = (false, "Phone number is too long").
Proof.
  split.
  - apply (proj1 C5_validate_length_reasons "0123");
      [discriminate | vm_compute; lia].
  - apply (proj1 C5_validate_length_reasons "+60 12 3456 7890 12");
      [discriminate | vm_compute; lia].
Defined.

Lemma startswith_cons (s p : string) (c : ascii) :
  startswith s (String c p) = true ->
  exists t, s = String c t /\ startswith t p = true.
Proof.
  unfold startswith. destruct s as [| a t]; simpl; [discriminate |].
  destruct (ascii_dec c a) as [-> | Hne]; [| discriminate].
  intros H. exists t. split; [reflexivity | exact H].
Qed.

Lemma no_mobile_prefix_after_zero (t : string) :
  any_prefix MOBILE_PREFIXES (String "0" t) = false.
Proof. reflexivity. Qed.

(** C3, as stated, fails in both directions.  The bare country code "60" is
    accepted although nothing remains after it; and "312345678", which has
    neither [+], [0] nor [60] in front and starts with the landline prefix 3,
    is refused. *)
Lemma C3_iff_counterexample :
  (is_malaysian_number "60" = true
   /\ is_malaysian_as_specified "60" = false)
  /\ (is_malaysian_number "312345678" = false
      /\ is_malaysian_as_specified "312345678" = true).
Proof. repeat split; reflexivity. Qed.

(** C3, amended: with [c] the cleaned digits of the input without their
    leading [+], [is_malaysian_number] is true whenever [c] starts with
    the country code 60, whatever follows; when [c] starts with 0 it is true
    exactly when what follows that 0 starts with a mobile or a landline
    prefix; when [c] starts with neither and starts with a mobile prefix it
    is true; and when [c] starts with none of 60, 0, a mobile prefix or a
    landline prefix it is false. *)
Theorem C3_is_malaysian_by_cases (raw : string) :
  let c := lstrip_plus (clean_phone_number raw) in
  (startswith c "60" = true -> is_malaysian_number raw = true)
  /\ (startswith c "0" = true ->
      is_malaysian_number raw
      = any_prefix MOBILE_PREFIXES (drop 1 c)
        || any_prefix LANDLINE_PREFIXES (drop 1 c))
  /\ (startswith c "60" = false -> startswith c "0" = false ->
      any_prefix MOBILE_PREFIXES c = true -> is_malaysian_number raw = true)
  /\ (startswith c "60" = false -> startswith c "0" = false ->
      any_prefix MOBILE_PREFIXES c = false ->
      any_prefix LANDLINE_PREFIXES c = false ->
      is_malaysian_number raw = false).
Proof.
  intros c. unfold is_malaysian_number. fold c.
  repeat split.
  - intros ->. reflexivity.
  - intros H0. destruct (startswith_cons _ _ _ H0) as [t [Ht _]].
    rewrite H0, Ht. rewrite no_mobile_prefix_after_zero.
    cbn [drop andb].
    destruct (startswith (String "0" t) "60") eqn:E60; [discriminate E60 |].
    destruct (any_prefix MOBILE_PREFIXES t || any_prefix LANDLINE_PREFIXES t);
      reflexivity.
  - intros -> -> ->. reflexivity.
  - intros -> -> -> _. reflexivity.
Qed.

Lemma C3_is_malaysian_by_cases_witness :
  is_malaysian_number "+60 12-345 6789" = true
  /\ is_malaysian_number "03-1234 5678" = true
  /\ is_malaysian_number "12-345 6789" = true
  /\ is_malaysian_number "+20 2 2345 6789" = false.
Proof.
  split; [| split; [| split]].
  - apply (proj1 (C3_is_malaysian_by_cases "+60 12-345 6789")). reflexivity.
  - rewrite (proj1 (proj2 (C3_is_malaysian_by_cases "03-1234 5678")));
      reflexivity.
  - apply (proj1 (proj2 (proj2 (C3_is_malaysian_by_cases "12-345 6789"))));
      reflexivity.
  - apply (proj2 (proj2 (proj2 (C3_is_malaysian_by_cases "+20 2 2345 6789"))));
      reflexivity.
Defined.

(** C4 at the input "+60 012-345 6789", a mobile number written with the
    trunk zero after the country code.  It is valid and it formats, with or
    without cleaning first; but the formatted number normalizes to
    "60123456789" while the number itself normalizes to "600123456789":
    [normalize_phone_for_comparison] keeps the zero that
    [format_malaysian_phone] and [validate_malaysian_phone] remove. *)
Theorem C4_round_trip_breaks_on_trunk_zero :
  let n := "+60 012-345 6789" in
  valid_mobile n = true
  /\ format_malaysian_phone (clean_phone_number n) true
     = Some "+60 12-345 6789"
  /\ normalize_formatted n = Some "60123456789"
  /\ normalize_phone_for_comparison n = "600123456789".
Proof. repeat split; reflexivity. Qed.

(** *** The round trip away from the trunk zero *)

Lemma sfilter_app (p : ascii -> bool) (a b : string) :
  sfilter p (a ++ b) = sfilter p a ++ sfilter p b.
Proof.
  induction a as [| c a IH]; simpl; [reflexivity |].
  destruct (p c); simpl; rewrite IH; reflexivity.
Qed.

Lemma sforall_sfilter (p : ascii -> bool) (s : string) :
  sforall p (sfilter p s) = true.
Proof.
  induction s as [| c s IH]; simpl; [reflexivity |].
  destruct (p c) eqn:E; simpl; [rewrite E |]; exact IH.
Qed.

Lemma sfilter_all (p : ascii -> bool) (s : string) :
  sforall p s = true -> sfilter p s = s.
Proof.
  induction s as [| c s IH]; simpl; [reflexivity |].
  intros H. apply andb_true_iff in H. destruct H as [Hc Hs].
  rewrite Hc, (IH Hs). reflexivity.
Qed.

Lemma sforall_drop (p : ascii -> bool) (k : nat) :
  forall s, sforall p s = true -> sforall p (drop k s) = true.
Proof.
  induction k as [| k IH]; intros [| c s]; simpl; try tauto.
  intros H. apply andb_true_iff in H. apply IH. tauto.
Qed.

Lemma sforall_take (p : ascii -> bool) (k : nat) :
  forall s, sforall p s = true -> sforall p (take k s) = true.
Proof.
  induction k as [| k IH]; intros [| c s]; simpl; try tauto.
  intros H. apply andb_true_iff in H. destruct H as [Hc Hs].
  rewrite Hc. apply IH. exact Hs.
Qed.

Lemma take_drop (k : nat) : forall s, take k s ++ drop k s = s.
Proof.
  induction k as [| k IH]; intros [| c s]; simpl; try reflexivity.
  rewrite IH. reflexivity.
Qed.

Lemma drop_drop (j k : nat) : forall s, drop j (drop k s) = drop (k + j) s.
Proof.
  induction k as [| k IH]; intros s; simpl; [reflexivity |].
  destruct s as [| c s]; [destruct j; reflexivity | apply IH].
Qed.

Lemma startswith_split (s p : string) :
  startswith s p = true -> p ++ drop (String.length p) s = s.
Proof.
  unfold startswith. revert s.
  induction p as [| c p IH]; intros [| a s]; simpl; try reflexivity;
    try discriminate.
  destruct (ascii_dec c a) as [-> | _]; [| discriminate].
  intros H. rewrite (IH s H). reflexivity.
Qed.

Lemma startswith_append (p s : string) : startswith (p ++ s) p = true.
Proof.
  unfold startswith. induction p as [| c p IH]; simpl.
  - destruct s; reflexivity.
  - destruct (ascii_dec c c) as [_ | Hne]; [exact IH | congruence].
Qed.

Lemma lstrip_plus_digits (s : string) :
  lstrip_plus (sfilter is_digit s) = sfilter is_digit s.
Proof.
  pose proof (sforall_sfilter is_digit s) as H.
  destruct (sfilter is_digit s) as [| c t]; [reflexivity |].
  unfold lstrip_plus. simpl in *. apply andb_true_iff in H.
  destruct H as [Hc _].
  destruct (Ascii.eqb c "+") eqn:E; [| reflexivity].
  apply Ascii.eqb_eq in E. subst c. discriminate Hc.
Qed.

(** The cleaned digits of a non-empty input, without the leading [+]. *)
Lemma cleaned_digits (n : string) :
  n <> "" -> lstrip_plus (clean_phone_number n) = sfilter is_digit n.
Proof.
  intros Hne. unfold clean_phone_number. rewrite (truthy_nonempty n Hne).
  cbn [negb]. destruct (startswith (strip n) "+").
  - change (lstrip_plus ("+" ++ sfilter is_digit n))
      with (lstrip_plus (sfilter is_digit n)).
    apply lstrip_plus_digits.
  - apply lstrip_plus_digits.
Qed.

Lemma national_digits_are_digits (n : string) :
  n <> "" -> sforall is_digit (national_digits n) = true.
Proof.
  intros Hne. unfold national_digits, strip_leading_zero, strip_country_code.
  rewrite (cleaned_digits n Hne).
  pose proof (sforall_sfilter is_digit n) as H.
  repeat match goal with
         | |- context [if ?b then _ else _] => destruct b
         end;
    repeat apply sforall_drop; exact H.
Qed.

Lemma valid_mobile_facts (n : string) :
  valid_mobile n = true ->
  n <> ""
  /\ 8 <= String.length (national_digits n) <= 10
  /\ any_prefix MOBILE_PREFIXES (national_digits n) = true.
Proof.
  unfold valid_mobile. intros H. apply andb_true_iff in H.
  destruct H as [Hv Hm].
  assert (Hne : n <> "") by (intros ->; discriminate Hv).
  split; [exact Hne |]. split; [| exact Hm].
  rewrite (validate_unfold n Hne) in Hv. cbv zeta in Hv.
  destruct (String.length (national_digits n) <? 8) eqn:E8;
    [discriminate Hv |].
  destruct (10 <? String.length (national_digits n)) eqn:E10;
    [discriminate Hv |].
  apply Nat.ltb_ge in E8. apply Nat.ltb_ge in E10. lia.
Qed.

(** The formatted form of a valid mobile number. *)
Lemma format_valid_mobile (n : string) :
  valid_mobile n = true ->
  let d := national_digits n in
  format_malaysian_phone n true
  = Some (if 9 <=? String.length d then
            "+60 " ++ take 2 d ++ "-" ++ slice 2 5 d ++ " " ++ drop 5 d
          else "+60 " ++ take 2 d ++ "-" ++ drop 2 d).
Proof.
  intros Hv. destruct (valid_mobile_facts n Hv) as [Hne [[H8 H10] Hm]].
  cbv zeta. unfold format_malaysian_phone.
  rewrite (truthy_nonempty n Hne). cbn [negb]. cbv zeta.
  fold (national_digits n).
  assert (E8 : (String.length (national_digits n) <? 8) = false)
    by (apply Nat.ltb_ge; lia).
  assert (E10 : (10 <? String.length (national_digits n)) = false)
    by (apply Nat.ltb_ge; lia).
  rewrite E8, E10, Hm. cbn [orb negb andb].
  destruct (9 <=? String.length (national_digits n)); reflexivity.
Qed.

Lemma digits_of_formatted (d : string) :
  sforall is_digit d = true ->
  sfilter is_digit
    (if 9 <=? String.length d then
       "+60 " ++ take 2 d ++ "-" ++ slice 2 5 d ++ " " ++ drop 5 d
     else "+60 " ++ take 2 d ++ "-" ++ drop 2 d)
  = "60" ++ d.
Proof.
  intros Hd.
  assert (Ht : forall k, sfilter is_digit (take k d) = take k d)
    by (intros k; apply sfilter_all, sforall_take, Hd).
  assert (Hdr : forall k, sfilter is_digit (drop k d) = drop k d)
    by (intros k; apply sfilter_all, sforall_drop, Hd).
  destruct (9 <=? String.length d).
  - rewrite !sfilter_app, Ht, Hdr.
    unfold slice. rewrite (sfilter_all is_digit (take (5 - 2) (drop 2 d)))
      by (apply sforall_take, sforall_drop, Hd).
    change (sfilter is_digit "+60 ") with "60".
    change (sfilter is_digit "-") with "".
    change (sfilter is_digit " ") with "".
    cbn [String.append].
    replace (drop 5 d) with (drop (5 - 2) (drop 2 d))
      by (rewrite drop_drop; reflexivity).
    rewrite take_drop, take_drop. reflexivity.
  - rewrite !sfilter_app, Ht, Hdr.
    change (sfilter is_digit "+60 ") with "60".
    change (sfilter is_digit "-") with "".
    cbn [String.append]. rewrite take_drop. reflexivity.
Qed.

(** A valid mobile number formats, and the formatted number normalizes to
    the country code followed by the national digits. *)
Lemma normalize_formatted_valid_mobile (n : string) :
  valid_mobile n = true ->
  normalize_formatted n = Some ("60" ++ national_digits n).
Proof.
  intros Hv. unfold normalize_formatted.
  rewrite (format_valid_mobile n Hv). cbv zeta. f_equal.
  destruct (valid_mobile_facts n Hv) as [Hne _].
  pose proof (national_digits_are_digits n Hne) as Hd.
  pose proof (digits_of_formatted (national_digits n) Hd) as Hdig.
  set (F := if 9 <=? String.length (national_digits n) then _ else _) in *.
  assert (HF : exists t, F = String "+" t)
    by (subst F; destruct (9 <=? String.length (national_digits n));
        eexists; reflexivity).
  destruct HF as [t HF].
  unfold normalize_phone_for_comparison, clean_phone_number.
  assert (Htruthy : truthy F = true) by (rewrite HF; reflexivity).
  rewrite Htruthy. cbn [negb].
  assert (Hplus : startswith (strip F) "+" = true).
  { rewrite HF. unfold strip. cbn [lstrip_by is_space].
    change (is_space "+") with false. cbn iota.
    cbn [rstrip_by]. change (is_space "+") with false.
    destruct (rstrip_by is_space t); reflexivity. }
  rewrite Hplus, Hdig.
  change (lstrip_plus ("+" ++ "60" ++ national_digits n))
    with ("60" ++ national_digits n).
  rewrite (startswith_append "60" (national_digits n)). reflexivity.
Qed.

(** The number itself normalizes to the same, unless it has the trunk zero
    after the country code. *)
Lemma normalize_without_trunk_zero (n : string) :
  n <> "" -> no_trunk_zero n ->
  normalize_phone_for_comparison n = "60" ++ national_digits n.
Proof.
  intros Hne Hno. unfold no_trunk_zero in Hno.
  unfold normalize_phone_for_comparison, national_digits,
    strip_leading_zero, strip_country_code.
  rewrite (truthy_nonempty n Hne). cbn [negb]. cbv zeta.
  set (c := lstrip_plus (clean_phone_number n)) in *.
  destruct (startswith c "60") eqn:E60; cbn [negb].
  - pose proof (startswith_split c "60" E60) as Hsplit.
    cbn [String.length] in Hsplit.
    destruct (startswith (drop 2 c) "0") eqn:E0.
    + exfalso. destruct (startswith_cons _ _ _ E0) as [t [Ht _]].
      rewrite <- Hsplit, Ht in Hno.
      change ("60" ++ String "0" t) with ("600" ++ t) in Hno.
      rewrite startswith_append in Hno. discriminate Hno.
    + symmetry. exact Hsplit.
  - destruct (startswith c "0"); reflexivity.
Qed.

Lemma sfilter_idempotent (p : ascii -> bool) (s : string) :
  sfilter p (sfilter p s) = sfilter p s.
Proof. apply sfilter_all, sforall_sfilter. Qed.

Lemma format_depends_on_digits (a b : string) (icc : bool) :
  a <> "" -> b <> "" ->
  lstrip_plus (clean_phone_number a) = lstrip_plus (clean_phone_number b) ->
  format_malaysian_phone a icc = format_malaysian_phone b icc.
Proof.
  intros Ha Hb H. unfold format_malaysian_phone.
  rewrite (truthy_nonempty a Ha), (truthy_nonempty b Hb), H. reflexivity.
Qed.

(** Cleaning first changes nothing for a valid number. *)
Lemma format_clean_valid (n : string) (icc : bool) :
  valid_mobile n = true ->
  format_malaysian_phone (clean_phone_number n) icc
  = format_malaysian_phone n icc.
Proof.
  intros Hv. destruct (valid_mobile_facts n Hv) as [Hne [[H8 _] _]].
  assert (Hdigits : sfilter is_digit n <> "").
  { intros Habs. unfold national_digits in H8.
    rewrite (cleaned_digits n Hne), Habs in H8. simpl in H8. lia. }
  assert (Hc : clean_phone_number n <> "").
  { unfold clean_phone_number. rewrite (truthy_nonempty n Hne). cbn [negb].
    destruct (startswith (strip n) "+"); [discriminate | exact Hdigits]. }
  apply format_depends_on_digits; [exact Hc | exact Hne |].
  rewrite (cleaned_digits _ Hc), (cleaned_digits n Hne).
  unfold clean_phone_number. rewrite (truthy_nonempty n Hne). cbn [negb].
  destruct (startswith (strip n) "+").
  - rewrite sfilter_app. change (sfilter is_digit "+") with "".
    apply sfilter_idempotent.
  - apply sfilter_idempotent.
Qed.

(** The first half of C4 holds for every valid mobile number: it formats,
    cleaned first or not. *)
Lemma format_clean_non_null (n : string) :
  valid_mobile n = true ->
  exists f, format_malaysian_phone (clean_phone_number n) true = Some f.
Proof.
  intros Hv. eexists. rewrite (format_clean_valid n true Hv).
  apply (format_valid_mobile n Hv).
Qed.

(** The round trip of C4 holds for every valid mobile number that is
    written without the trunk zero after the country code. *)
Lemma round_trip_without_trunk_zero (n : string) :
  valid_mobile n = true -> no_trunk_zero n ->
  normalize_formatted n = Some (normalize_phone_for_comparison n).
Proof.
  intros Hv Hno. destruct (valid_mobile_facts n Hv) as [Hne _].
  rewrite (normalize_formatted_valid_mobile n Hv).
  rewrite (normalize_without_trunk_zero n Hne Hno). reflexivity.
Qed.

(** ** Names *)

(** C2, as stated, fails: the honorific goes through unchanged, so the
    result starts with the lower-case d that was typed. *)
Lemma C2_honorific_not_capitalised :
  _clean_name (Some "dato' AHMAD bin abdullah")
  <> Some "Dato' AHMAD Bin Abdullah".
Proof. vm_compute. discriminate. Qed.

(** C2, amended: the name cleaner applied to "dato' AHMAD bin abdullah"
    returns exactly "dato' AHMAD Bin Abdullah"; the honorific and the
    all-upper-case token are kept as typed, the other words are
    title-cased. *)
Theorem C2_clean_name_example :
  _clean_name (Some "dato' AHMAD bin abdullah")
  = Some "dato' AHMAD Bin Abdullah"
  /\ map clean_word ["dato'"; "AHMAD"; "bin"; "abdullah"]
     = ["dato'"; "AHMAD"; "Bin"; "Abdullah"].
Proof. split; reflexivity. Qed.

(** Words that [_clean_name] keeps as they are. *)
Lemma clean_word_preserves (word : string) :
  mem_string (lower word) honorifics = true \/ isupper word = true ->
  clean_word word = word.
Proof.
  unfold clean_word. intros [H | H]; rewrite H; [reflexivity |].
  rewrite orb_true_r. reflexivity.
Qed.

(** ** Column detection *)









Lemma detect_by_content_original_name (m : ColumnMapping) (s : list string) :
  original_name (_detect_by_content m s) = original_name m.
Proof.
  unfold _detect_by_content. destruct s as [| x t]; [reflexivity |].
  cbv zeta.
  repeat match goal with
         | |- context [if ?b then _ else _] => destruct b
         end; reflexivity.
Qed.



Lemma match_keywords_confidence (col_lower : string) (keywords : list string)
    (q : Q) :
  match_keywords col_lower keywords = Some q -> q = 0.95%Q \/ q = 0.8%Q.
Proof.
  induction keywords as [| k ks IH]; simpl; [discriminate |].
  destruct (contains k col_lower || contains col_lower k); [| exact IH].
  intros H. injection H as <-.
  destruct (String.eqb col_lower k); [left | right]; reflexivity.
Qed.

Lemma match_by_name_confidence (col_lower : string)
    (table : Dict.dict (list string)) (f : string) (q : Q) :
  match_by_name col_lower table = Some (f, q) -> q = 0.95%Q \/ q = 0.8%Q.
Proof.
  induction table as [| [field keywords] rest IH]; simpl; [discriminate |].
  destruct (match_keywords col_lower keywords) as [conf |] eqn:E; [| exact IH].
  intros H. injection H as _ <-.
  exact (match_keywords_confidence col_lower keywords conf E).
Qed.

Lemma invariant_unmapped (col : string) (s : list string) :
  mapping_invariant (mkMapping col None 0.0%Q s).
Proof.
  split; cbn [mapped_to confidence].
  - split; intros _; reflexivity.
  - intros H. congruence.
Qed.

Lemma invariant_mapped (m : ColumnMapping) (f : string) (q : Q) :
  In q mapped_confidences -> mapping_invariant (with_field m f q).
Proof.
  intros Hq. split; cbn [with_field mapped_to confidence].
  - split; [discriminate |].
    intros H0. exfalso.
    unfold mapped_confidences in Hq. simpl in Hq.
    decompose [or] Hq; subst; try contradiction; discriminate H0.
  - intros _. split; [exact Hq |].
    unfold mapped_confidences in Hq. simpl in Hq.
    decompose [or] Hq; subst; try contradiction;
      split; unfold Qle; simpl; lia.
Qed.

Lemma detect_by_content_invariant (col : string) (s : list string) :
  mapping_invariant (_detect_by_content (mkMapping col None 0.0%Q s) s).
Proof.
  unfold _detect_by_content. destruct s as [| x t];
    [apply invariant_unmapped |].
  cbv zeta.
  repeat match goal with
         | |- context [if ?b then _ else _] => destruct b
         end;
    try apply invariant_unmapped;
    apply invariant_mapped; unfold mapped_confidences; simpl; tauto.
Qed.

Lemma detect_column_invariant (col : string) (column : list Cell) :
  original_name (detect_column col column) = col
  /\ mapping_invariant (detect_column col column).
Proof.
  unfold detect_column. cbv zeta.
  destruct (match_by_name (strip (lower col)) COLUMN_MAPPINGS)
    as [[f q] |] eqn:E.
  - cbn [with_field mapped_to]. split.
    + destruct (samples column); reflexivity.
    + assert (Hq : In q mapped_confidences).
      { destruct (match_by_name_confidence _ _ f q E) as [-> | ->];
          unfold mapped_confidences; simpl; tauto. }
      destruct (samples column); apply invariant_mapped; exact Hq.
  - cbn [mapped_to]. destruct (samples column) as [| x t] eqn:Hs.
    + split; [reflexivity | apply invariant_unmapped].
    + split; [apply detect_by_content_original_name |].
      apply detect_by_content_invariant.
Qed.

(** C9: [detect_columns] returns one mapping result per column, in the
    order of the columns; in each the field is null exactly when the
    confidence is 0.0, and a mapped column has one of the confidences 0.7,
    0.8, 0.85, 0.9 and 0.95, which lies between 0 and 1. *)
Theorem C9_detect_columns_invariants (df : DataFrame) :
  map original_name (detect_columns df) = columns df
  /\ List.length (detect_columns df) = List.length (columns df)
  /\ Forall mapping_invariant (detect_columns df).
Proof.
  assert (Hnames : map original_name (detect_columns df) = columns df).
  { unfold detect_columns. rewrite map_map.
    rewrite <- (map_id (columns df)) at 2.
    apply map_ext. intros c.
    apply (proj1 (detect_column_invariant c (column_cells df c))). }
  split; [exact Hnames | split].
  - rewrite <- Hnames. rewrite length_map. reflexivity.
  - unfold detect_columns. apply Forall_forall. intros m Hin.
    apply in_map_iff in Hin. destruct Hin as [c [<- _]].
    apply (proj2 (detect_column_invariant c (column_cells df c))).
Qed.

(** ** Dictionaries and frames *)

Lemma get_set_same {V : Type} (k : string) (v : V) (d : Dict.dict V) :
  Dict.get k (Dict.set k v d) = Some v.
Proof.
  induction d as [| [k' v'] t IH]; simpl.
  - rewrite String.eqb_refl. reflexivity.
  - destruct (String.eqb k k') eqn:E; simpl; rewrite E;
      [reflexivity | exact IH].
Qed.

Lemma get_set_other {V : Type} (k k' : string) (v : V) (d : Dict.dict V) :
  k <> k' -> Dict.get k' (Dict.set k v d) = Dict.get k' d.
Proof.
  intros Hne. induction d as [| [k0 v0] t IH]; simpl.
  - destruct (String.eqb k' k) eqn:E; [| reflexivity].
    apply String.eqb_eq in E. congruence.
  - destruct (String.eqb k k0) eqn:E; simpl.
    + apply String.eqb_eq in E. subst k0.
      destruct (String.eqb k' k) eqn:E'; [| reflexivity].
      apply String.eqb_eq in E'. congruence.
    + rewrite IH. reflexivity.
Qed.

Lemma remove_absent {V : Type} (k : string) (d : Dict.dict V) :
  Dict.get k d = None -> Dict.remove k d = d.
Proof.
  unfold Dict.remove. induction d as [| [k0 v0] t IH]; simpl; [reflexivity |].
  destruct (String.eqb k k0); [discriminate |].
  intros H. simpl. rewrite (IH H). reflexivity.
Qed.

Lemma remove_set_same {V : Type} (k : string) (v : V) (d : Dict.dict V) :
  Dict.get k d = None -> Dict.remove k (Dict.set k v d) = d.
Proof.
  unfold Dict.remove. induction d as [| [k0 v0] t IH]; simpl.
  - rewrite String.eqb_refl. reflexivity.
  - destruct (String.eqb k k0) eqn:E; [discriminate |].
    intros H. simpl. rewrite E. simpl. rewrite (IH H). reflexivity.
Qed.

Lemma remove_set_other {V : Type} (k k' : string) (v : V) (d : Dict.dict V) :
  k <> k' ->
  Dict.remove k' (Dict.set k v d) = Dict.set k v (Dict.remove k' d).
Proof.
  intros Hne. unfold Dict.remove.
  assert (Hk : String.eqb k' k = false) by (apply String.eqb_neq; congruence).
  induction d as [| [k0 v0] t IH]; simpl.
  - rewrite Hk. reflexivity.
  - destruct (String.eqb k k0) eqn:E; simpl.
    + apply String.eqb_eq in E. subst k0. rewrite Hk. simpl.
      rewrite String.eqb_refl. reflexivity.
    + destruct (String.eqb k' k0); simpl; [exact IH |].
      rewrite E, IH. reflexivity.
Qed.

Lemma mem_string_app (x : string) (l1 l2 : list string) :
  mem_string x (l1 ++ l2) = mem_string x l1 || mem_string x l2.
Proof. unfold mem_string. apply existsb_app. Qed.

Lemma mem_string_In (x : string) (l : list string) :
  mem_string x l = true <-> In x l.
Proof.
  unfold mem_string. rewrite existsb_exists. split.
  - intros [y [Hy E]]. apply String.eqb_eq in E. subst y. exact Hy.
  - intros H. exists x. split; [exact H | apply String.eqb_refl].
Qed.

Lemma filter_absent (col : string) (cols : list string) :
  mem_string col cols = false ->
  filter (fun c => negb (String.eqb col c)) cols = cols.
Proof.
  unfold mem_string. induction cols as [| c t IH]; simpl; [reflexivity |].
  destruct (String.eqb col c); simpl; [discriminate |].
  intros H. rewrite (IH H). reflexivity.
Qed.

Lemma set_cells_apply (col src : string) (g : Cell -> Cell) (rs : list Row) :
  set_cells col rs (apply g (map (fun r => (label r, row_get src r)) rs))
  = map (fun r => mkRow (label r) (Dict.set col (g (row_get src r)) (cells r)))
        rs.
Proof.
  unfold apply. induction rs as [| r t IH]; simpl; [reflexivity |].
  rewrite IH. reflexivity.
Qed.

Lemma add_key_column_ok (df : DataFrame) (src new_col : string)
    (f : string -> string) :
  has_column df src = true ->
  add_key_column df src new_col f
  = Ok (mkDF (if has_column df new_col then columns df
              else (columns df ++ [new_col])%list)
             (map (add_key new_col src f) (rows df))).
Proof.
  intros Hsrc. unfold add_key_column, getitem. rewrite Hsrc. simpl.
  unfold setitem. rewrite set_cells_apply. reflexivity.
Qed.

Lemma add_key_column_missing (df : DataFrame) (src new_col : string)
    (f : string -> string) :
  has_column df src = false ->
  add_key_column df src new_col f = KeyError src.
Proof.
  intros Hsrc. unfold add_key_column, getitem. rewrite Hsrc. reflexivity.
Qed.

Lemma firstn_incl {A : Type} (n : nat) (l : list A) (x : A) :
  In x (firstn n l) -> In x l.
Proof.
  intros H. rewrite <- (firstn_skipn n l). apply in_or_app. left. exact H.
Qed.

Lemma frame_eta (d : DataFrame) : mkDF (columns d) (rows d) = d.
Proof. destruct d; reflexivity. Qed.

Lemma with_keys_nil (d : DataFrame) : with_keys d [] = d.
Proof.
  unfold with_keys. cbn [map]. rewrite app_nil_r.
  change (map (augment []) (rows d)) with (map (fun r : Row => r) (rows d)).
  rewrite map_id. apply frame_eta.
Qed.

(** A dataset as it is read has the index 0, 1, 2, ..., and no cell outside
    its header. *)
Lemma records_from_labels (header : list string) (data : list (list Cell)) :
  forall i,
    map label (records_from i header data) = seq i (List.length data).
Proof.
  induction data as [| d t IH]; intros i; simpl; [reflexivity |].
  rewrite IH. reflexivity.
Qed.

Lemma records_from_length (header : list string) (data : list (list Cell)) :
  forall i, List.length (records_from i header data) = List.length data.
Proof.
  induction data as [| d t IH]; intros i; simpl; [reflexivity |].
  rewrite IH. reflexivity.
Qed.

Lemma frame_range_index (header : list string) (data : list (list Cell)) :
  range_index (frame header data).
Proof.
  unfold range_index, frame, len. cbn [rows].
  rewrite records_from_labels, records_from_length. reflexivity.
Qed.

Lemma get_combine_absent (t : string) (header : list string) :
  mem_string t header = false ->
  forall d : list Cell, Dict.get t (combine header d) = None.
Proof.
  unfold mem_string.
  induction header as [| h hs IH]; intros Hno d; [reflexivity |].
  simpl in Hno. apply orb_false_iff in Hno. destruct Hno as [Hh Hhs].
  destruct d as [| c d]; simpl; [reflexivity |].
  rewrite Hh. apply IH. exact Hhs.
Qed.

Lemma frame_no_temp_columns (header : list string)
    (data : list (list Cell)) :
  (forall t, In t temp_columns -> mem_string t header = false) ->
  no_temp_columns (frame header data).
Proof.
  intros Hno t Ht. split; [exact (Hno t Ht) |].
  unfold frame. cbn [rows]. generalize 0.
  induction data as [| d ds IH]; intros i r; simpl; [tauto |].
  intros [<- | Hr]; [| exact (IH _ _ Hr)].
  cbn [cells]. apply get_combine_absent. exact (Hno t Ht).
Qed.

(** ** Building the key of the de-duplication *)

Section BuildKey.

Variable df : DataFrame.
Variable column_mappings : Dict.dict (option string).

Hypothesis Htemp : no_temp_columns df.
Hypothesis Hpresent : key_columns_present df column_mappings.

Let std := std_to_orig column_mappings.

Lemma temp_absent (t : string) :
  In t temp_columns -> mem_string t (columns df) = false.
Proof. intros Ht. exact (proj1 (Htemp t Ht)). Qed.

Lemma source_present (field col : string) :
  In field ["phone"; "email"; "name"] ->
  Dict.get field std = Some col -> mem_string col (columns df) = true.
Proof. intros Hf Hg. exact (Hpresent field col Hf Hg). Qed.

Lemma source_not_temp (field col t : string) :
  In field ["phone"; "email"; "name"] ->
  Dict.get field std = Some col -> In t temp_columns -> t <> col.
Proof.
  intros Hf Hg Ht Heq. subst t.
  pose proof (temp_absent col Ht) as Ha.
  pose proof (source_present field col Hf Hg) as Hp.
  congruence.
Qed.

Ltac source_is_column :=
  first [ apply (source_present "phone"); simpl; tauto
        | apply (source_present "email"); simpl; tauto
        | apply (source_present "name"); simpl; tauto ].

Lemma build_dedup_key_ok :
  build_dedup_key df std
  = Ok (with_keys df (selected_keys column_mappings),
        map key_column (selected_keys column_mappings)).
Proof.
  unfold build_dedup_key, selected_keys, key_block, key_of. fold std.
  pose proof (temp_absent "_phone_normalized") as Tp.
  pose proof (temp_absent "_email_normalized") as Te.
  pose proof (temp_absent "_name_normalized") as Tn.
  unfold temp_columns in Tp, Te, Tn. simpl in Tp, Te, Tn.
  specialize (Tp ltac:(tauto)). specialize (Te ltac:(tauto)).
  specialize (Tn ltac:(tauto)).
  destruct (Dict.get "phone" std) as [pc |] eqn:Ep;
    destruct (Dict.get "email" std) as [ec |] eqn:Ee;
    destruct (Dict.get "name" std) as [nc |] eqn:En;
    cbn [fst snd bind app];
    repeat
      (rewrite add_key_column_ok;
       [ cbn [fst snd bind app columns rows]; unfold has_column;
         cbn [columns rows];
         rewrite ?mem_string_app, ?Tp, ?Te, ?Tn;
         cbn [mem_string existsb orb String.eqb Ascii.eqb Bool.eqb andb]
       | unfold has_column; cbn [columns rows];
         rewrite ?mem_string_app, ?orb_true_iff;
         first [ source_is_column | left; source_is_column ] ]);
    unfold with_keys; cbn [map key_column app fst snd bind];
    rewrite ?map_map, <- ?app_assoc; cbn [app]; try reflexivity.
  rewrite app_nil_r.
  change (map (augment []) (rows df))
    with (map (fun r : Row => r) (rows df)).
  rewrite map_id, frame_eta. reflexivity.
Qed.

(** The five shapes of the selected keys. *)
Lemma selected_keys_shape :
  let ks := selected_keys column_mappings in
  ks = []
  \/ (exists c f, ks = [mkKey "_phone_normalized" c f] /\ not_temp c)
  \/ (exists c f, ks = [mkKey "_email_normalized" c f] /\ not_temp c)
  \/ (exists c f, ks = [mkKey "_name_normalized" c f] /\ not_temp c)
  \/ (exists c f c' f',
        ks = [mkKey "_phone_normalized" c f; mkKey "_email_normalized" c' f']
        /\ not_temp c /\ not_temp c').
Proof.
  unfold selected_keys, key_of. fold std.
  assert (Np : forall c, Dict.get "phone" std = Some c -> not_temp c)
    by (intros c Hc t Ht; apply (source_not_temp "phone" c t);
        [simpl; tauto | exact Hc | exact Ht]).
  assert (Ne : forall c, Dict.get "email" std = Some c -> not_temp c)
    by (intros c Hc t Ht; apply (source_not_temp "email" c t);
        [simpl; tauto | exact Hc | exact Ht]).
  assert (Nn : forall c, Dict.get "name" std = Some c -> not_temp c)
    by (intros c Hc t Ht; apply (source_not_temp "name" c t);
        [simpl; tauto | exact Hc | exact Ht]).
  destruct (Dict.get "phone" std) as [pc |];
    destruct (Dict.get "email" std) as [ec |];
    destruct (Dict.get "name" std) as [nc |]; cbn [app].
  - right; right; right; right. eauto 10.
  - right; right; right; right. eauto 10.
  - right; left. eauto.
  - right; left. eauto.
  - right; right; left. eauto.
  - right; right; left. eauto.
  - right; right; right; left. eauto.
  - left. reflexivity.
Qed.

End BuildKey.

(** ** Rows with key columns *)

Lemma row_get_add_key_same (k src : string) (f : string -> string) (r : Row) :
  row_get k (add_key k src f r) = normalized f (row_get src r).
Proof.
  unfold row_get at 1. unfold add_key. cbn [cells].
  rewrite get_set_same. reflexivity.
Qed.

Lemma row_get_add_key_other (k src c : string) (f : string -> string)
    (r : Row) :
  k <> c -> row_get c (add_key k src f r) = row_get c r.
Proof.
  intros Hne. unfold row_get, add_key. cbn [cells].
  rewrite (get_set_other k c _ _ Hne). reflexivity.
Qed.

Lemma without_add_key_same (k src : string) (f : string -> string) (r : Row) :
  Dict.get k (cells r) = None -> without k (add_key k src f r) = r.
Proof.
  intros H. unfold without, add_key. cbn [label cells].
  rewrite (remove_set_same k _ _ H). destruct r; reflexivity.
Qed.

Lemma without_add_key_other (k t src : string) (f : string -> string)
    (r : Row) :
  k <> t -> not_temp src ->
  In t temp_columns ->
  without t (add_key k src f r) = add_key k src f (without t r).
Proof.
  intros Hne Hsrc Ht. unfold without, add_key. cbn [label cells].
  rewrite (remove_set_other k t _ _ Hne). f_equal. f_equal. f_equal.
  unfold row_get. cbn [cells]. unfold Dict.remove.
  assert (Hts : t <> src) by (apply Hsrc; exact Ht).
  induction (cells r) as [| [k0 v0] d IH]; simpl; [reflexivity |].
  destruct (String.eqb t k0) eqn:E; simpl.
  - apply String.eqb_eq in E. subst k0.
    destruct (String.eqb src t) eqn:E'; [| exact IH].
    apply String.eqb_eq in E'. congruence.
  - destruct (String.eqb src k0); [reflexivity | exact IH].
Qed.

Lemma without_absent (t : string) (r : Row) :
  Dict.get t (cells r) = None -> without t r = r.
Proof.
  intros H. unfold without. rewrite (remove_absent t _ H).
  destruct r; reflexivity.
Qed.

Lemma keep_first_incl (key : Row -> list Cell) (rs : list Row) :
  forall seen r, In r (keep_first key seen rs) -> In r rs.
Proof.
  induction rs as [| x t IH]; intros seen r; simpl; [tauto |].
  destruct (existsb (tuple_eqb (key x)) seen).
  - intros H. right. exact (IH _ _ H).
  - intros [H | H]; [left; exact H | right; exact (IH _ _ H)].
Qed.

Lemma keep_first_map (key key' : Row -> list Cell) (g : Row -> Row)
    (rs : list Row) :
  (forall r, In r rs -> key (g r) = key' r) ->
  forall seen,
    keep_first key seen (map g rs) = map g (keep_first key' seen rs).
Proof.
  induction rs as [| x t IH]; intros Hk seen; simpl; [reflexivity |].
  rewrite (Hk x (or_introl eq_refl)).
  assert (Ht : forall r, In r t -> key (g r) = key' r)
    by (intros r Hr; apply Hk; right; exact Hr).
  destruct (existsb (tuple_eqb (key' x)) seen).
  - apply IH. exact Ht.
  - simpl. f_equal. apply IH. exact Ht.
Qed.

Lemma keep_first_length (key : Row -> list Cell) (rs : list Row) :
  forall seen, List.length (keep_first key seen rs) <= List.length rs.
Proof.
  induction rs as [| x t IH]; intros seen; simpl; [lia |].
  destruct (existsb (tuple_eqb (key x)) seen).
  - specialize (IH seen). lia.
  - simpl. specialize (IH (key x :: seen)). lia.
Qed.

Lemma cell_eqb_eq (a b : Cell) : cell_eqb a b = true <-> a = b.
Proof.
  destruct a as [x |], b as [y |]; simpl; split; try congruence;
    try reflexivity.
  - intros H. apply String.eqb_eq in H. congruence.
  - intros H. injection H as ->. apply String.eqb_refl.
Qed.

Lemma tuple_eqb_eq (a b : list Cell) : tuple_eqb a b = true <-> a = b.
Proof.
  revert b. induction a as [| x a IH]; intros [| y b]; simpl;
    split; try congruence; try reflexivity.
  - intros H. apply andb_true_iff in H. destruct H as [Hx Ha].
    apply cell_eqb_eq in Hx. apply IH in Ha. congruence.
  - intros H. injection H as -> ->. apply andb_true_iff. split.
    + apply cell_eqb_eq. reflexivity.
    + apply IH. reflexivity.
Qed.

(** Keeping the first row of each key keeps the rows that no earlier row
    agrees with. *)
Lemma keep_first_first_occurrences (key : Row -> list Cell) (rs : list Row) :
  forall seen before,
    (forall k, existsb (tuple_eqb k) seen
               = existsb (fun r' => tuple_eqb k (key r')) before) ->
    keep_first key seen rs = first_occurrences key before rs.
Proof.
  induction rs as [| r t IH]; intros seen before Hinv; simpl; [reflexivity |].
  rewrite <- (Hinv (key r)).
  destruct (existsb (tuple_eqb (key r)) seen) eqn:E.
  - apply IH. intros k. rewrite existsb_app. simpl. rewrite orb_false_r.
    rewrite <- Hinv.
    destruct (tuple_eqb k (key r)) eqn:Ek.
    + apply tuple_eqb_eq in Ek. subst k. rewrite E. reflexivity.
    + rewrite orb_false_r. reflexivity.
  - f_equal. apply IH. intros k. rewrite existsb_app. simpl.
    rewrite orb_false_r. rewrite <- Hinv. apply orb_comm.
Qed.

Lemma drop_duplicates_first_occurrences (key : Row -> list Cell)
    (rs : list Row) :
  keep_first key [] rs = first_occurrences key [] rs.
Proof. apply keep_first_first_occurrences. intros k. reflexivity. Qed.

Lemma first_occurrences_incl (key : Row -> list Cell) (rs : list Row) :
  forall before r, In r (first_occurrences key before rs) -> In r rs.
Proof.
  induction rs as [| x t IH]; intros before r; simpl; [tauto |].
  destruct (existsb (fun r' => tuple_eqb (key x) (key r')) before).
  - intros H. right. exact (IH _ _ H).
  - intros [H | H]; [left; exact H | right; exact (IH _ _ H)].
Qed.

(** ** Duplicate groups *)

Lemma groups_of_series_rows (col : string) (s : Series) (g : DuplicateGroup)
    (rn : nat) :
  In g (groups_of_series col s) -> In rn (row_numbers g) ->
  exists idx, rn = idx + 2 /\ In (idx, Some (value g)) s.
Proof.
  unfold groups_of_series. cbv zeta. intros Hg Hrn.
  apply in_flat_map in Hg. destruct Hg as [v [_ Hg]].
  destruct ((1 <? List.length _) && truthy v); [| contradiction].
  destruct Hg as [<- | []]. cbn [row_numbers value] in *.
  apply in_map_iff in Hrn. destruct Hrn as [[idx c] [<- He]].
  unfold group_of in He. apply filter_In in He. destruct He as [He Hc].
  apply filter_In in He. destruct He as [He _].
  cbn [fst snd] in *. apply cell_eqb_eq in Hc. subst c.
  exists idx. split; [reflexivity | exact He].
Qed.

Lemma groups_of_columns_ok (d : DataFrame) (cols : list string) :
  (forall c, In c cols -> has_column d c = true) ->
  exists gs,
    groups_of_columns d cols = Ok gs
    /\ forall g rn, In g gs -> In rn (row_numbers g) ->
         exists c r, In c cols /\ In r (rows d)
                     /\ rn = label r + 2 /\ row_get c r = Some (value g).
Proof.
  induction cols as [| col rest IH]; intros Hcols.
  - exists []. split; [reflexivity | intros g rn []].
  - destruct IH as [gs' [Hgs' Hprop']];
      [intros c Hc; apply Hcols; right; exact Hc |].
    cbn [groups_of_columns]. unfold groups_of_column, getitem.
    rewrite (Hcols col (or_introl eq_refl)). cbn [bind]. rewrite Hgs'.
    cbn [bind]. eexists. split; [reflexivity |].
    intros g rn Hg Hrn. apply in_app_or in Hg. destruct Hg as [Hg | Hg].
    + destruct (groups_of_series_rows _ _ g rn Hg Hrn) as [idx [-> Hin]].
      apply in_map_iff in Hin. destruct Hin as [r [Hr Hin]].
      injection Hr as <- Hv. exists col, r.
      repeat split; [left; reflexivity | exact Hin | exact Hv].
    + destruct (Hprop' g rn Hg Hrn) as [c [r [Hc [Hr [-> Hv]]]]].
      exists c, r. repeat split; [right; exact Hc | exact Hr | exact Hv].
Qed.

(** ** De-duplication *)

Section Deduplicate.

Variable df : DataFrame.
Variable column_mappings : Dict.dict (option string).

Hypothesis Htemp : no_temp_columns df.
Hypothesis Hpresent : key_columns_present df column_mappings.

Let ks := selected_keys column_mappings.

Lemma no_temp_cell (t : string) (r : Row) :
  In t temp_columns -> In r (rows df) -> Dict.get t (cells r) = None.
Proof. intros Ht Hr. exact (proj2 (Htemp t Ht) r Hr). Qed.

Ltac temp_name := unfold temp_columns; simpl; tauto.

Lemma key_tuple_augment (r : Row) :
  key_tuple (map key_column ks) (augment ks r) = dedup_key column_mappings r.
Proof.
  unfold dedup_key. fold ks.
  destruct (selected_keys_shape df column_mappings Htemp Hpresent)
    as [H | [[c [f [H Hc]]] | [[c [f [H Hc]]] | [[c [f [H Hc]]]
       | [c [f [c' [f' [H [Hc Hc']]]]]]]]]];
    fold ks in H; rewrite H; unfold key_tuple, augment;
    cbn [map fold_left key_column source_column normalizer];
    rewrite ?row_get_add_key_same; try reflexivity.
  rewrite (row_get_add_key_other "_email_normalized" c' "_phone_normalized")
    by discriminate.
  rewrite row_get_add_key_same.
  rewrite (row_get_add_key_other "_phone_normalized" c c')
    by (apply Hc'; temp_name).
  reflexivity.
Qed.

Lemma label_augment (r : Row) : label (augment ks r) = label r.
Proof.
  unfold augment. generalize r. induction ks as [| k t IH]; intros r0;
    simpl; [reflexivity |].
  rewrite IH. reflexivity.
Qed.

Lemma drop_if_present_app (base news : list string) (rs : list Row)
    (t : string) :
  mem_string t base = false ->
  drop_if_present (mkDF (base ++ news) rs) t
  = mkDF (base ++ filter (fun c => negb (String.eqb t c)) news)
         (if mem_string t news then map (without t) rs else rs).
Proof.
  intros Hb. unfold drop_if_present, has_column, drop_column.
  cbn [columns rows]. rewrite mem_string_app, Hb. cbn [orb].
  destruct (mem_string t news) eqn:E.
  - rewrite filter_app, (filter_absent _ _ Hb). reflexivity.
  - rewrite (filter_absent _ _ E). reflexivity.
Qed.

Lemma drop_temp_with_keys (rs : list Row) :
  incl rs (rows df) ->
  drop_temp_columns
    (mkDF (columns df ++ map key_column ks) (map (augment ks) rs))
  = mkDF (columns df) rs.
Proof.
  intros Hrs.
  pose proof (proj1 (Htemp "_phone_normalized" ltac:(temp_name))) as Tp.
  pose proof (proj1 (Htemp "_email_normalized" ltac:(temp_name))) as Te.
  pose proof (proj1 (Htemp "_name_normalized" ltac:(temp_name))) as Tn.
  unfold has_column in Tp, Te, Tn.
  unfold drop_temp_columns, temp_columns.
  destruct (selected_keys_shape df column_mappings Htemp Hpresent)
    as [H | [[c [f [H Hc]]] | [[c [f [H Hc]]] | [[c [f [H Hc]]]
       | [c [f [c' [f' [H [Hc Hc']]]]]]]]]];
    fold ks in H; rewrite H;
    cbn [fold_left map key_column];
    rewrite (drop_if_present_app _ _ _ _ Tp);
    cbn [filter mem_string existsb negb String.eqb Ascii.eqb Bool.eqb
         orb andb];
    rewrite (drop_if_present_app _ _ _ _ Te);
    cbn [filter mem_string existsb negb String.eqb Ascii.eqb Bool.eqb
         orb andb];
    rewrite (drop_if_present_app _ _ _ _ Tn);
    cbn [filter mem_string existsb negb String.eqb Ascii.eqb Bool.eqb
         orb andb];
    rewrite ?app_nil_r, ?map_map; f_equal;
    rewrite <- (map_id rs) at 2; apply map_ext_in; intros r Hr;
    apply Hrs in Hr; unfold augment;
    cbn [fold_left key_column source_column normalizer].
  - reflexivity.
  - apply (without_add_key_same "_phone_normalized").
    apply no_temp_cell; [temp_name | exact Hr].
  - apply (without_add_key_same "_email_normalized").
    apply no_temp_cell; [temp_name | exact Hr].
  - apply (without_add_key_same "_name_normalized").
    apply no_temp_cell; [temp_name | exact Hr].
  - rewrite (without_add_key_other "_email_normalized" "_phone_normalized")
      by (try discriminate; try exact Hc'; temp_name).
    rewrite (without_add_key_same "_phone_normalized")
      by (apply no_temp_cell; [temp_name | exact Hr]).
    apply (without_add_key_same "_email_normalized").
    apply no_temp_cell; [temp_name | exact Hr].
Qed.

Lemma no_columns_no_keys : columns df = [] -> ks = [].
Proof.
  intros Hcols. subst ks. unfold selected_keys, key_of.
  assert (Hno : forall field c,
             In field ["phone"; "email"; "name"] ->
             Dict.get field (std_to_orig column_mappings) <> Some c).
  { intros field c Hf Hg. pose proof (Hpresent field c Hf Hg) as Hp.
    unfold has_column in Hp. rewrite Hcols in Hp. discriminate Hp. }
  destruct (Dict.get "phone" _) as [pc |] eqn:Ep;
    [exfalso; apply (Hno "phone" pc); [simpl; tauto | exact Ep] |].
  destruct (Dict.get "email" _) as [ec |] eqn:Ee;
    [exfalso; apply (Hno "email" ec); [simpl; tauto | exact Ee] |].
  destruct (Dict.get "name" _) as [nc |] eqn:En;
    [exfalso; apply (Hno "name" nc); [simpl; tauto | exact En] |].
  reflexivity.
Qed.

(** What [deduplicate] returns on a dataset without temporary column
    names and with the mapped key columns. *)
Lemma deduplicate_ok :
  exists gs,
    deduplicate df column_mappings
    = Ok (mkDF (columns df) (deduplicated_rows column_mappings (rows df)),
          (Z.of_nat (len df)
           - Z.of_nat (List.length
                         (deduplicated_rows column_mappings (rows df))))%Z,
          gs)
    /\ forall g rn, In g gs -> In rn (row_numbers g) ->
         exists r, In r (rows df) /\ rn = label r + 2
                   /\ In (Some (value g)) (dedup_key column_mappings r).
Proof.
  unfold deduplicate, deduplicated_rows. fold ks.
  destruct (df_empty df) eqn:Hempty.
  - exists []. split; [| intros g rn []].
    unfold df_empty in Hempty. unfold len.
    destruct (columns df) as [| c cols] eqn:Hcols.
    + rewrite (no_columns_no_keys Hcols). rewrite <- Hcols, frame_eta.
      rewrite Z.sub_diag. reflexivity.
    + destruct (rows df) as [| r rs] eqn:Hrows; [| discriminate Hempty].
      rewrite <- Hcols.
      replace (match ks with
               | [] => []
               | _ :: _ => first_occurrences (dedup_key column_mappings) [] []
               end) with (@nil Row) by (destruct ks; reflexivity).
      change (Z.of_nat (@List.length Row [])
              - Z.of_nat (@List.length Row []))%Z with 0%Z.
      rewrite <- Hrows, frame_eta. reflexivity.
  - rewrite (build_dedup_key_ok df column_mappings Htemp Hpresent).
    fold ks. cbn [bind fst snd].
    destruct ks as [| k t] eqn:Hks.
    + exists []. split; [| intros g rn []].
      cbn [map]. rewrite with_keys_nil, frame_eta.
      unfold len. rewrite Z.sub_diag. reflexivity.
    + rewrite <- Hks.
      assert (Hcons : forall (A : Type) (a b : A),
                 match map key_column ks with [] => a | _ :: _ => b end = b)
        by (intros A a b; rewrite Hks; reflexivity).
      destruct (groups_of_columns_ok (with_keys df ks) (map key_column ks))
        as [gs [Hgs Hprop]].
      { intros c Hc. unfold has_column, with_keys. cbn [columns].
        rewrite mem_string_app. apply orb_true_iff. right.
        apply mem_string_In. exact Hc. }
      exists (firstn 50 gs). split.
      * rewrite Hcons, Hgs. cbn [bind].
        unfold drop_duplicates, with_keys. cbn [columns rows].
        rewrite (keep_first_map (key_tuple (map key_column ks))
                   (dedup_key column_mappings) (augment ks) (rows df)
                   (fun r _ => key_tuple_augment r)).
        rewrite drop_temp_with_keys
          by (intros r Hr; exact (keep_first_incl _ _ _ _ Hr)).
        unfold len, with_keys. cbn [rows]. rewrite length_map.
        rewrite drop_duplicates_first_occurrences. reflexivity.
      * intros g rn Hg Hrn. apply firstn_incl in Hg.
        destruct (Hprop g rn Hg Hrn) as [c [r' [Hc [Hr' [-> Hv]]]]].
        unfold with_keys in Hr'. cbn [rows] in Hr'.
        apply in_map_iff in Hr'. destruct Hr' as [r [<- Hr]].
        exists r. split; [exact Hr |]. split;
          [rewrite label_augment; reflexivity |].
        rewrite <- key_tuple_augment. unfold key_tuple.
        rewrite <- Hv. apply (in_map (fun c0 => row_get c0 (augment ks r))).
        exact Hc.
Qed.

End Deduplicate.

(** ** Columns and labels through [deduplicate] *)

Lemma set_cells_labels (col : string) (rs : list Row) :
  forall vals, map label (set_cells col rs vals) = map label rs.
Proof.
  induction rs as [| r t IH]; intros [| v vals]; simpl; try reflexivity.
  rewrite IH. reflexivity.
Qed.

Lemma key_block_extends (d0 : DataFrame) (std : Dict.dict string)
    (field new_col : string) (f : string -> string)
    (st st' : DataFrame * list string) :
  In new_col temp_columns ->
  extends d0 st ->
  key_block std field new_col f st = Ok st' ->
  extends d0 st'.
Proof.
  intros Hnew [[extra [Hcols Hextra]] [Hlab Hnil]]. unfold key_block.
  destruct (Dict.get field std) as [col |].
  - unfold add_key_column, getitem.
    destruct (has_column (fst st) col); [| discriminate].
    cbn [bind]. intros H. injection H as <-. cbn [fst snd].
    split; [| split].
    + unfold setitem. cbn [fst columns].
      destruct (has_column (fst st) new_col).
      * exists extra. split; assumption.
      * exists (extra ++ [new_col])%list. split.
        -- rewrite Hcols, app_assoc. reflexivity.
        -- intros c Hc. apply in_app_or in Hc.
           destruct Hc as [Hc | [<- | []]];
             [apply Hextra; exact Hc | exact Hnew].
    + unfold setitem. cbn [fst rows]. rewrite set_cells_labels. exact Hlab.
    + cbn [snd]. intros Habs. destruct (snd st); discriminate Habs.
  - intros H. injection H as <-. repeat split; try assumption.
    exists extra. split; assumption.
Qed.

Lemma build_dedup_key_extends (df : DataFrame) (std : Dict.dict string)
    (st : DataFrame * list string) :
  build_dedup_key df std = Ok st -> extends df st.
Proof.
  unfold build_dedup_key.
  assert (H0 : extends df (df, [])).
  { split; [| split]; try reflexivity.
    exists []. split; [symmetry; apply app_nil_r | intros c []]. }
  destruct (key_block std "phone" "_phone_normalized"
              normalize_phone_for_comparison (df, [])) as [st1 |] eqn:E1;
    [| discriminate].
  cbn [bind].
  assert (H1 : extends df st1).
  { refine (key_block_extends df std _ _ _ _ _ _ H0 E1); simpl; tauto. }
  destruct (key_block std "email" "_email_normalized" lower_strip st1)
    as [st2 |] eqn:E2; [| discriminate].
  cbn [bind].
  assert (H2 : extends df st2).
  { refine (key_block_extends df std _ _ _ _ _ _ H1 E2); simpl; tauto. }
  destruct (snd st2).
  - intros E3.
    refine (key_block_extends df std _ _ _ _ _ _ H2 E3); simpl; tauto.
  - intros H. injection H as <-. exact H2.
Qed.

Lemma drop_if_present_columns (d : DataFrame) (t : string) :
  columns (drop_if_present d t)
  = filter (fun c => negb (String.eqb t c)) (columns d).
Proof.
  unfold drop_if_present. destruct (has_column d t) eqn:E.
  - reflexivity.
  - symmetry. apply filter_absent. exact E.
Qed.

Lemma drop_temp_columns_columns (d : DataFrame) :
  columns (drop_temp_columns d)
  = filter (fun c => negb (mem_string c temp_columns)) (columns d).
Proof.
  unfold drop_temp_columns, temp_columns. cbn [fold_left].
  rewrite !drop_if_present_columns.
  induction (columns d) as [| c t IH]; [reflexivity |].
  cbn [filter mem_string existsb].
  rewrite (String.eqb_sym c "_phone_normalized"),
    (String.eqb_sym c "_email_normalized"),
    (String.eqb_sym c "_name_normalized").
  destruct (String.eqb "_phone_normalized" c); cbn [negb orb filter];
    [exact IH |].
  destruct (String.eqb "_email_normalized" c); cbn [negb orb filter];
    [exact IH |].
  destruct (String.eqb "_name_normalized" c); cbn [negb orb filter];
    [exact IH |].
  rewrite IH. reflexivity.
Qed.

Lemma filter_keeps_all {A : Type} (p : A -> bool) (l : list A) :
  (forall x, In x l -> p x = true) -> filter p l = l.
Proof.
  induction l as [| x t IH]; intros H; simpl; [reflexivity |].
  rewrite (H x (or_introl eq_refl)). f_equal. apply IH.
  intros y Hy. apply H. right. exact Hy.
Qed.

Lemma filter_drops_all {A : Type} (p : A -> bool) (l : list A) :
  (forall x, In x l -> p x = false) -> filter p l = [].
Proof.
  induction l as [| x t IH]; intros H; simpl; [reflexivity |].
  rewrite (H x (or_introl eq_refl)). apply IH.
  intros y Hy. apply H. right. exact Hy.
Qed.

(** C10, as stated, fails on a dataset that has a column with one of the
    temporary names: the column is overwritten by the key and dropped with
    it, so the returned dataset has lost a column of the input. *)
Lemma C10_temp_name_counterexample :
  exists df' n gs,
    deduplicate df_temp_name_taken phone_only = Ok (df', n, gs)
    /\ columns df_temp_name_taken = ["phone"; "_phone_normalized"]
    /\ columns df' = ["phone"].
Proof.
  do 3 eexists. split; [vm_compute; reflexivity | split; reflexivity].
Qed.

(** C10, amended: for every dataset that has no column named
    _phone_normalized, _email_normalized or _name_normalized and every
    mapping, the dataset that the Deduplicator returns has exactly the
    columns of the input, in their order, and so none of the temporary
    columns. *)
Theorem C10_columns_preserved (df : DataFrame)
    (column_mappings : Dict.dict (option string))
    (df' : DataFrame) (n : Z) (gs : list DuplicateGroup) :
  no_temp_names df ->
  deduplicate df column_mappings = Ok (df', n, gs) ->
  columns df' = columns df /\ no_temp_names df'.
Proof.
  intros Hno Hrun.
  assert (Hcols : columns df' = columns df).
  { unfold deduplicate in Hrun. destruct (df_empty df).
    - injection Hrun as <- _ _. reflexivity.
    - destruct (build_dedup_key df (std_to_orig column_mappings))
        as [st |] eqn:Hbuild; [| discriminate Hrun].
      cbn [bind] in Hrun.
      destruct (build_dedup_key_extends _ _ _ Hbuild)
        as [[extra [Hext Htmp]] [_ Hnil]].
      destruct (snd st) as [| c cols] eqn:Hsnd.
      + injection Hrun as <- _ _. rewrite (Hnil eq_refl). reflexivity.
      + destruct (groups_of_columns (fst st) (c :: cols)) as [g |];
          [| discriminate Hrun].
        cbn [bind] in Hrun. injection Hrun as <- _ _.
        rewrite drop_temp_columns_columns. unfold drop_duplicates.
        cbn [columns]. rewrite Hext, filter_app.
        rewrite (filter_keeps_all _ (columns df)).
        * rewrite (filter_drops_all _ extra); [apply app_nil_r |].
          intros x Hx. apply negb_false_iff. apply mem_string_In.
          apply Htmp. exact Hx.
        * intros x Hx. apply negb_true_iff.
          destruct (mem_string x temp_columns) eqn:E; [| reflexivity].
          apply mem_string_In in E. specialize (Hno x E).
          unfold has_column in Hno. apply mem_string_In in Hx. congruence. }
  split; [exact Hcols |].
  intros t Ht. unfold has_column. rewrite Hcols. exact (Hno t Ht).
Qed.

Lemma C10_columns_preserved_witness :
  exists df' n gs,
    deduplicate df_three_phones phone_only = Ok (df', n, gs)
    /\ columns df' = ["phone"].
Proof.
  exists (mkDF ["phone"]
            [ mkRow 0 [("phone", Some "012-345 6789")];
              mkRow 2 [("phone", Some "019-999 0000")] ]),
    1%Z,
    [mkGroup "phone" "60123456789" 2 [2; 3]].
  assert (Hrun : deduplicate df_three_phones phone_only
                 = Ok (mkDF ["phone"]
                         [ mkRow 0 [("phone", Some "012-345 6789")];
                           mkRow 2 [("phone", Some "019-999 0000")] ],
                       1%Z, [mkGroup "phone" "60123456789" 2 [2; 3]]))
    by (vm_compute; reflexivity).
  split; [exact Hrun |].
  refine (proj1 (C10_columns_preserved df_three_phones phone_only _ _ _ _
                   Hrun)).
  intros t Ht. unfold temp_columns in Ht. simpl in Ht.
  decompose [or] Ht; subst; try contradiction; reflexivity.
Defined.

(** ** Row numbers *)

Lemma range_index_nth (df : DataFrame) (r : Row) :
  range_index df -> In r (rows df) ->
  exists i, nth_error (rows df) i = Some r /\ label r = i.
Proof.
  unfold range_index, len. intros Hidx Hin.
  apply In_nth_error in Hin. destruct Hin as [i Hi].
  exists i. split; [exact Hi |].
  assert (Hlt : i < List.length (rows df))
    by (apply nth_error_Some; congruence).
  pose proof (map_nth_error label i (rows df) Hi) as Hl.
  rewrite Hidx in Hl. rewrite nth_error_seq in Hl.
  apply Nat.ltb_lt in Hlt. rewrite Hlt in Hl. injection Hl as Hl.
  simpl in Hl. congruence.
Qed.

Lemma getitem_In (df : DataFrame) (col : string) (s : Series) (idx : nat)
    (c : Cell) :
  getitem df col = Ok s -> In (idx, c) s ->
  exists r, In r (rows df) /\ label r = idx /\ row_get col r = c.
Proof.
  unfold getitem. destruct (has_column df col); [| discriminate].
  intros H. injection H as <-. intros Hin.
  apply in_map_iff in Hin. destruct Hin as [r [Hr Hin]].
  injection Hr as Hl Hc. exists r. repeat split; assumption.
Qed.

Lemma missing_name_issues_In (col : string) (s : Series) (i : Issue) :
  In i (missing_name_issues col s) ->
  exists idx, In (idx, None) s /\ row_number i = idx + 2
              /\ column i = col /\ issue_type i = "missing".
Proof.
  induction s as [| [idx c] t IH]; simpl; [tauto |].
  destruct c as [v |]; simpl.
  - intros H. destruct (IH H) as [j [Hj Hrest]]. exists j.
    split; [right; exact Hj | exact Hrest].
  - intros [<- | H].
    + exists idx. repeat split. left. reflexivity.
    + destruct (IH H) as [j [Hj Hrest]]. exists j.
      split; [right; exact Hj | exact Hrest].
Qed.

Lemma invalid_phone_issues_In (col : string) (s : Series) (i : Issue) :
  In i (invalid_phone_issues col s) ->
  exists idx v, In (idx, Some v) s /\ row_number i = idx + 2
                /\ column i = col /\ issue_type i = "invalid"
                /\ fst (validate_malaysian_phone v) = false.
Proof.
  induction s as [| [idx c] t IH]; simpl; [tauto |].
  assert (Hrec : In i (invalid_phone_issues col t) ->
                 exists idx0 v, In (idx0, Some v) ((idx, c) :: t)
                   /\ row_number i = idx0 + 2 /\ column i = col
                   /\ issue_type i = "invalid"
                   /\ fst (validate_malaysian_phone v) = false).
  { intros H. destruct (IH H) as [j [v [Hj Hrest]]]. exists j, v.
    split; [right; exact Hj | exact Hrest]. }
  destruct c as [v |]; [| exact Hrec].
  destruct (validate_malaysian_phone v) as [is_valid msg] eqn:Ev.
  destruct is_valid; simpl; [exact Hrec |].
  intros [<- | H]; [| exact (Hrec H)].
  exists idx, v. rewrite Ev. repeat split. left. reflexivity.
Qed.

Lemma invalid_email_issues_In (col : string) (s : Series) (i : Issue) :
  In i (invalid_email_issues col s) ->
  exists idx v, In (idx, Some v) s /\ row_number i = idx + 2
                /\ column i = col /\ issue_type i = "invalid"
                /\ match_to_end email_pattern (strip v) = false.
Proof.
  induction s as [| [idx c] t IH]; simpl; [tauto |].
  assert (Hrec : In i (invalid_email_issues col t) ->
                 exists idx0 v, In (idx0, Some v) ((idx, c) :: t)
                   /\ row_number i = idx0 + 2 /\ column i = col
                   /\ issue_type i = "invalid"
                   /\ match_to_end email_pattern (strip v) = false).
  { intros H. destruct (IH H) as [j [v [Hj Hrest]]]. exists j, v.
    split; [right; exact Hj | exact Hrest]. }
  destruct c as [v |]; [| exact Hrec].
  destruct (match_to_end email_pattern (strip v)) eqn:Ev; simpl;
    [exact Hrec |].
  intros [<- | H]; [| exact (Hrec H)].
  exists idx, v. repeat split; [left; reflexivity | exact Ev].
Qed.

(** Every issue of the report is about a row of the dataset and carries the
    label of that row plus 2. *)
Lemma validate_data_issue_rows (df : DataFrame)
    (column_mappings : Dict.dict (option string)) (rep : Report) (i : Issue) :
  validate_data df column_mappings = Ok rep -> In i (issues rep) ->
  exists r, In r (rows df) /\ row_number i = label r + 2
            /\ issue_concerns i r.
Proof.
  unfold validate_data. cbv zeta.
  set (std := std_to_orig column_mappings).
  set (name_part := match Dict.get "name" std with
                    | Some name_col => _ | None => _ end).
  set (phone_part := match Dict.get "phone" std with
                     | Some phone_col => _ | None => _ end).
  set (email_part := match Dict.get "email" std with
                     | Some email_col => _ | None => _ end).
  assert (Hname : forall p, name_part = Ok p -> In i (snd p) ->
            exists r, In r (rows df) /\ row_number i = label r + 2
                      /\ issue_concerns i r).
  { subst name_part. destruct (Dict.get "name" std) as [col |].
    - destruct (getitem df col) as [s |] eqn:Es; [| discriminate].
      cbn [bind]. intros p Hp Hin. injection Hp as <-. cbn [snd] in Hin.
      destruct (missing_name_issues_In _ _ _ Hin) as [idx [Hs [Hn [Hc Ht]]]].
      destruct (getitem_In _ _ _ _ _ Es Hs) as [r [Hr [Hl Hv]]].
      exists r. split; [exact Hr |]. split; [congruence |].
      left. split; [exact Ht | rewrite Hc; exact Hv].
    - intros p Hp Hin. injection Hp as <-. destruct Hin. }
  assert (Hphone : forall p, phone_part = Ok p -> In i (snd p) ->
            exists r, In r (rows df) /\ row_number i = label r + 2
                      /\ issue_concerns i r).
  { subst phone_part. destruct (Dict.get "phone" std) as [col |].
    - destruct (getitem df col) as [s |] eqn:Es; [| discriminate].
      cbn [bind]. intros p Hp Hin. injection Hp as <-. cbn [snd] in Hin.
      destruct (invalid_phone_issues_In _ _ _ Hin)
        as [idx [v [Hs [Hn [Hc [Ht Hbad]]]]]].
      destruct (getitem_In _ _ _ _ _ Es Hs) as [r [Hr [Hl Hv]]].
      exists r. split; [exact Hr |]. split; [congruence |].
      right. split; [exact Ht |]. exists v.
      split; [rewrite Hc; exact Hv | left; exact Hbad].
    - intros p Hp Hin. injection Hp as <-. destruct Hin. }
  assert (Hemail : forall l, email_part = Ok l -> In i l ->
            exists r, In r (rows df) /\ row_number i = label r + 2
                      /\ issue_concerns i r).
  { subst email_part. destruct (Dict.get "email" std) as [col |].
    - destruct (getitem df col) as [s |] eqn:Es; [| discriminate].
      cbn [bind]. intros l Hl Hin. injection Hl as <-.
      destruct (invalid_email_issues_In _ _ _ Hin)
        as [idx [v [Hs [Hn [Hc [Ht Hbad]]]]]].
      destruct (getitem_In _ _ _ _ _ Es Hs) as [r [Hr [Hl Hv]]].
      exists r. split; [exact Hr |]. split; [congruence |].
      right. split; [exact Ht |]. exists v.
      split; [rewrite Hc; exact Hv | right; exact Hbad].
    - intros l Hl Hin. injection Hl as <-. destruct Hin. }
  destruct name_part as [np |]; [| discriminate].
  destruct phone_part as [pp |]; [| discriminate].
  destruct email_part as [el |]; [| discriminate].
  cbn [bind]. intros Hrep Hin. injection Hrep as <-.
  change (In i (firstn 100 (snd np ++ snd pp ++ el)%list)) in Hin.
  apply firstn_incl in Hin.
  apply in_app_or in Hin. destruct Hin as [Hin | Hin];
    [exact (Hname np eq_refl Hin) |].
  apply in_app_or in Hin. destruct Hin as [Hin | Hin];
    [exact (Hphone pp eq_refl Hin) | exact (Hemail el eq_refl Hin)].
Qed.

Lemma groups_of_columns_rows (d : DataFrame) (cols : list string) :
  forall gs,
    groups_of_columns d cols = Ok gs ->
    forall g rn, In g gs -> In rn (row_numbers g) ->
      exists r, In r (rows d) /\ rn = label r + 2.
Proof.
  induction cols as [| col rest IH]; intros gs; cbn [groups_of_columns].
  - intros H. injection H as <-. intros g rn [].
  - unfold groups_of_column.
    destruct (getitem d col) as [s |] eqn:Es; [| discriminate].
    cbn [bind].
    destruct (groups_of_columns d rest) as [gs' |]; [| discriminate].
    cbn [bind]. intros H. injection H as <-. intros g rn Hg Hrn.
    apply in_app_or in Hg. destruct Hg as [Hg | Hg].
    + destruct (groups_of_series_rows _ _ g rn Hg Hrn) as [idx [-> Hin]].
      destruct (getitem_In _ _ _ _ _ Es Hin) as [r [Hr [Hl _]]].
      exists r. split; [exact Hr | congruence].
    + exact (IH gs' eq_refl g rn Hg Hrn).
Qed.

(** Every row number of a duplicate group is the label of a row of the
    dataset plus 2. *)
Lemma deduplicate_group_rows (df : DataFrame)
    (column_mappings : Dict.dict (option string))
    (df' : DataFrame) (n : Z) (gs : list DuplicateGroup) :
  deduplicate df column_mappings = Ok (df', n, gs) ->
  forall g rn, In g gs -> In rn (row_numbers g) ->
    exists r, In r (rows df) /\ rn = label r + 2.
Proof.
  unfold deduplicate. destruct (df_empty df).
  - intros H. injection H as _ _ <-. intros g rn [].
  - destruct (build_dedup_key df (std_to_orig column_mappings))
      as [st |] eqn:Hbuild; [| discriminate].
    cbn [bind].
    destruct (build_dedup_key_extends _ _ _ Hbuild) as [_ [Hlab _]].
    destruct (snd st) as [| c cols].
    + intros H. injection H as _ _ <-. intros g rn [].
    + destruct (groups_of_columns (fst st) (c :: cols)) as [all |] eqn:Hall;
        [| discriminate].
      cbn [bind]. intros H. injection H as _ _ <-. intros g rn Hg Hrn.
      change (In g (firstn 50 all)) in Hg.
      apply firstn_incl in Hg.
      destruct (groups_of_columns_rows _ _ _ Hall g rn Hg Hrn)
        as [r' [Hr' ->]].
      assert (Hl : In (label r') (map label (rows df)))
        by (rewrite <- Hlab; apply in_map; exact Hr').
      apply in_map_iff in Hl. destruct Hl as [r [Hl Hr]].
      exists r. split; [exact Hr | congruence].
Qed.

(** C6: on a dataset as it is read, whose index is 0, 1, 2, ..., every row
    number of a data-quality issue and every row number of a duplicate
    group is the zero-based index of a row of the dataset plus 2.  The row
    of an issue is the one with the defect reported; and when the dataset
    has no temporary column name and the key columns are columns of it, the
    row of a group member has the value of the group as one of its
    normalized keys. *)
Theorem C6_row_numbers_are_index_plus_2 (df : DataFrame)
    (column_mappings : Dict.dict (option string)) :
  range_index df ->
  (forall rep i,
      validate_data df column_mappings = Ok rep -> In i (issues rep) ->
      exists idx r, nth_error (rows df) idx = Some r
                    /\ row_number i = idx + 2 /\ issue_concerns i r)
  /\ (forall df' n gs g rn,
         deduplicate df column_mappings = Ok (df', n, gs) ->
         In g gs -> In rn (row_numbers g) ->
         exists idx r, nth_error (rows df) idx = Some r /\ rn = idx + 2)
  /\ (no_temp_columns df -> key_columns_present df column_mappings ->
      exists df' n gs,
        deduplicate df column_mappings = Ok (df', n, gs)
        /\ forall g rn, In g gs -> In rn (row_numbers g) ->
             exists idx r, nth_error (rows df) idx = Some r /\ rn = idx + 2
                           /\ In (Some (value g))
                                 (dedup_key column_mappings r)).
Proof.
  intros Hidx. split; [| split].
  - intros rep i Hrep Hin.
    destruct (validate_data_issue_rows _ _ _ _ Hrep Hin) as [r [Hr [Hn Hc]]].
    destruct (range_index_nth df r Hidx Hr) as [idx [Hnth Hl]].
    exists idx, r. split; [exact Hnth |]. split; [congruence | exact Hc].
  - intros df' n gs g rn Hrun Hg Hrn.
    destruct (deduplicate_group_rows _ _ _ _ _ Hrun g rn Hg Hrn)
      as [r [Hr Hn]].
    destruct (range_index_nth df r Hidx Hr) as [idx [Hnth Hl]].
    exists idx, r. split; [exact Hnth | congruence].
  - intros Htemp Hpresent.
    destruct (deduplicate_ok df column_mappings Htemp Hpresent)
      as [gs [Hrun Hprop]].
    do 3 eexists. split; [exact Hrun |].
    intros g rn Hg Hrn. destruct (Hprop g rn Hg Hrn) as [r [Hr [Hn Hk]]].
    destruct (range_index_nth df r Hidx Hr) as [idx [Hnth Hl]].
    exists idx, r. split; [exact Hnth |]. split; [congruence | exact Hk].
Qed.

Lemma C6_row_numbers_are_index_plus_2_witness :
  (exists rep,
      validate_data df_quality quality_mapping = Ok rep
      /\ map row_number (issues rep) = [3; 3; 3]
      /\ forall i, In i (issues rep) ->
           exists idx r, nth_error (rows df_quality) idx = Some r
                         /\ row_number i = idx + 2 /\ issue_concerns i r)
  /\ (exists df' n gs,
         deduplicate df_three_phones phone_only = Ok (df', n, gs)
         /\ map row_numbers gs = [[2; 3]]
         /\ forall g rn, In g gs -> In rn (row_numbers g) ->
              exists idx r, nth_error (rows df_three_phones) idx = Some r
                            /\ rn = idx + 2).
Proof.
  split.
  - eexists. split; [vm_compute; reflexivity |].
    split; [vm_compute; reflexivity |].
    intros i Hi.
    refine (proj1 (C6_row_numbers_are_index_plus_2 df_quality quality_mapping
                     _) _ i _ Hi); vm_compute; reflexivity.
  - do 3 eexists. split; [vm_compute; reflexivity |].
    split; [vm_compute; reflexivity |].
    intros g rn Hg Hrn.
    refine (proj1 (proj2 (C6_row_numbers_are_index_plus_2 df_three_phones
                            phone_only _)) _ _ _ g rn _ Hg Hrn);
      vm_compute; reflexivity.
Defined.

(** ** The key of the de-duplication *)

Lemma no_temp_columnsb_sound (df : DataFrame) :
  no_temp_columnsb df = true -> no_temp_columns df.
Proof.
  unfold no_temp_columnsb, no_temp_columns. intros H t Ht.
  rewrite forallb_forall in H. specialize (H t Ht).
  apply andb_true_iff in H. destruct H as [Hc Hr]. split.
  - apply negb_true_iff. exact Hc.
  - intros r Hin. rewrite forallb_forall in Hr. specialize (Hr r Hin).
    destruct (Dict.get t (cells r)); [discriminate Hr | reflexivity].
Qed.

Lemma key_columns_presentb_sound (df : DataFrame)
    (column_mappings : Dict.dict (option string)) :
  key_columns_presentb df column_mappings = true ->
  key_columns_present df column_mappings.
Proof.
  unfold key_columns_presentb, key_columns_present. intros H field col Hf Hg.
  rewrite forallb_forall in H. specialize (H field Hf).
  rewrite Hg in H. exact H.
Qed.

(** C1, as stated, fails when phone and email are both mapped: two rows
    with the same normalized phone and different emails are both kept and
    nothing is counted as removed, where de-duplication by the phone alone
    keeps the first of them only. *)
Lemma C1_phone_alone_counterexample :
  exists gs,
    deduplicate df_same_phone_two_emails phone_and_email
    = Ok (df_same_phone_two_emails, 0%Z, gs)
    /\ List.length (rows df_same_phone_two_emails) = 2
    /\ List.length
         (dedup_by_phone_alone "phone" (rows df_same_phone_two_emails)) = 1.
Proof.
  eexists. split; [vm_compute; reflexivity | split; reflexivity].
Qed.

(** The key that a mapping selects, by the fields it maps. *)
Lemma dedup_key_by_fields (column_mappings : Dict.dict (option string)) :
  let std := std_to_orig column_mappings in
  (forall pc, Dict.get "phone" std = Some pc -> Dict.get "email" std = None ->
     forall r, dedup_key column_mappings r = phone_key pc r)
  /\ (forall pc ec,
        Dict.get "phone" std = Some pc -> Dict.get "email" std = Some ec ->
        forall r,
          dedup_key column_mappings r
          = [normalized normalize_phone_for_comparison (row_get pc r);
             normalized lower_strip (row_get ec r)])
  /\ (forall ec,
        Dict.get "phone" std = None -> Dict.get "email" std = Some ec ->
        forall r,
          dedup_key column_mappings r
          = [normalized lower_strip (row_get ec r)])
  /\ (forall nc,
        Dict.get "phone" std = None -> Dict.get "email" std = None ->
        Dict.get "name" std = Some nc ->
        forall r,
          dedup_key column_mappings r
          = [normalized lower_strip (row_get nc r)])
  /\ (Dict.get "phone" std = None -> Dict.get "email" std = None ->
      Dict.get "name" std = None ->
      forall rs, deduplicated_rows column_mappings rs = rs).
Proof.
  intros std. unfold deduplicated_rows, dedup_key, selected_keys, key_of.
  fold std.
  repeat split.
  - intros pc Hp He r. rewrite Hp, He. reflexivity.
  - intros pc ec Hp He r. rewrite Hp, He. reflexivity.
  - intros ec Hp He r. rewrite Hp, He. reflexivity.
  - intros nc Hp He Hn r. rewrite Hp, He, Hn. reflexivity.
  - intros Hp He Hn rs. rewrite Hp, He, Hn. reflexivity.
Qed.

(** C1, amended: on a dataset without temporary column names, under a
    mapping whose phone, email and name columns are columns of the dataset,
    the Deduplicator returns the rows that no earlier row agrees with on
    the selected key.  The key is the normalized phone alone when phone is
    mapped and email is not, the normalized phone together with the
    normalized email when both are mapped, the normalized email when email
    is mapped and phone is not, and the normalized name when name is mapped
    and neither phone nor email is; name is never combined with another
    key, and without any of the three the dataset is returned as it is. *)
Theorem C1_dedup_key_selection (df : DataFrame)
    (column_mappings : Dict.dict (option string)) :
  no_temp_columns df ->
  key_columns_present df column_mappings ->
  (exists gs,
      deduplicate df column_mappings
      = Ok (mkDF (columns df) (deduplicated_rows column_mappings (rows df)),
            (Z.of_nat (len df)
             - Z.of_nat (List.length
                           (deduplicated_rows column_mappings (rows df))))%Z,
            gs))
  /\ let std := std_to_orig column_mappings in
     (forall pc,
         Dict.get "phone" std = Some pc -> Dict.get "email" std = None ->
         deduplicated_rows column_mappings (rows df)
         = dedup_by_phone_alone pc (rows df))
     /\ (forall pc ec,
           Dict.get "phone" std = Some pc -> Dict.get "email" std = Some ec ->
           deduplicated_rows column_mappings (rows df)
           = first_occurrences
               (fun r =>
                  [normalized normalize_phone_for_comparison (row_get pc r);
                   normalized lower_strip (row_get ec r)])
               [] (rows df))
     /\ (forall ec,
           Dict.get "phone" std = None -> Dict.get "email" std = Some ec ->
           deduplicated_rows column_mappings (rows df)
           = first_occurrences
               (fun r => [normalized lower_strip (row_get ec r)])
               [] (rows df))
     /\ (forall nc,
           Dict.get "phone" std = None -> Dict.get "email" std = None ->
           Dict.get "name" std = Some nc ->
           deduplicated_rows column_mappings (rows df)
           = first_occurrences
               (fun r => [normalized lower_strip (row_get nc r)])
               [] (rows df))
     /\ (Dict.get "phone" std = None -> Dict.get "email" std = None ->
         Dict.get "name" std = None ->
         deduplicated_rows column_mappings (rows df) = rows df).
Proof.
  intros Htemp Hpresent. split.
  - destruct (deduplicate_ok df column_mappings Htemp Hpresent)
      as [gs [Hrun _]].
    exists gs. exact Hrun.
  - intros std.
    unfold deduplicated_rows, dedup_by_phone_alone, phone_key, dedup_key,
      selected_keys, key_of.
    fold std.
    repeat split.
    + intros pc Hp He. rewrite Hp, He. reflexivity.
    + intros pc ec Hp He. rewrite Hp, He. reflexivity.
    + intros ec Hp He. rewrite Hp, He. reflexivity.
    + intros nc Hp He Hn. rewrite Hp, He, Hn. reflexivity.
    + intros Hp He Hn. rewrite Hp, He, Hn. reflexivity.
Qed.

Lemma C1_dedup_key_selection_witness :
  (exists gs,
      deduplicate df_three_phones phone_only
      = Ok (mkDF (columns df_three_phones)
                 (deduplicated_rows phone_only (rows df_three_phones)),
            1%Z, gs))
  /\ deduplicated_rows phone_only (rows df_three_phones)
     = dedup_by_phone_alone "phone" (rows df_three_phones)
  /\ (exists gs,
         deduplicate df_same_phone_two_emails phone_and_email
         = Ok (mkDF (columns df_same_phone_two_emails)
                    (deduplicated_rows phone_and_email
                       (rows df_same_phone_two_emails)),
               0%Z, gs))
  /\ deduplicated_rows phone_and_email (rows df_same_phone_two_emails)
     = rows df_same_phone_two_emails.
Proof.
  pose proof (C1_dedup_key_selection df_three_phones phone_only
                (no_temp_columnsb_sound df_three_phones eq_refl)
                (key_columns_presentb_sound df_three_phones phone_only
                   eq_refl)) as [H1 [H2 _]].
  pose proof (C1_dedup_key_selection df_same_phone_two_emails phone_and_email
                (no_temp_columnsb_sound df_same_phone_two_emails eq_refl)
                (key_columns_presentb_sound df_same_phone_two_emails
                   phone_and_email eq_refl)) as [H3 [_ [H4 _]]].
  split; [exact H1 |].
  split; [apply (H2 "phone"); reflexivity |].
  split; [exact H3 |].
  rewrite (H4 "phone" "email" eq_refl eq_refl). vm_compute. reflexivity.
Defined.

(** ** Conversion to contacts *)

Lemma filter_map_swap {A B : Type} (f : A -> B) (p : B -> bool) (l : list A) :
  filter p (map f l) = map f (filter (fun x => p (f x)) l).
Proof.
  induction l as [| x t IH]; simpl; [reflexivity |].
  destruct (p (f x)); simpl; rewrite IH; reflexivity.
Qed.

Lemma to_contact_list_retained (df : DataFrame)
    (column_mappings : Dict.dict (option string)) :
  to_contact_list df column_mappings
  = map (contact_of_row (std_to_orig column_mappings))
        (filter (retained column_mappings) (rows df)).
Proof.
  unfold to_contact_list.
  exact (filter_map_swap
           (contact_of_row (std_to_orig column_mappings))
           (fun contact =>
              has_field contact "name" || has_field contact "phone")
           (rows df)).
Qed.

Lemma has_field_iff (contact : Contact) (field : string) :
  has_field contact field = true
  <-> exists v, Dict.get field contact = Some (Some v) /\ v <> "".
Proof.
  unfold has_field. destruct (Dict.get field contact) as [[v |] |].
  - destruct v as [| c t]; simpl; split.
    + discriminate.
    + intros [v [Hv Hne]]. injection Hv as <-. congruence.
    + intros _. eexists. split; [reflexivity | discriminate].
    + reflexivity.
  - split; [discriminate | intros [v [Hv _]]; discriminate].
  - split; [discriminate | intros [v [Hv _]]; discriminate].
Qed.

Lemma count_if_split {A : Type} (p : A -> bool) (l : list A) :
  count_if p l + count_if (fun x => negb (p x)) l = List.length l.
Proof.
  unfold count_if. induction l as [| x t IH]; simpl; [reflexivity |].
  destruct (p x); simpl; lia.
Qed.

Lemma set_cells_length (col : string) (rs : list Row) :
  forall vals, List.length (set_cells col rs vals) = List.length rs.
Proof.
  intros vals. rewrite <- (length_map label), set_cells_labels.
  apply length_map.
Qed.

Lemma apply_if_present_len (d : DataFrame) (col : string) (f : Cell -> Cell) :
  len (apply_if_present d col f) = len d.
Proof.
  unfold apply_if_present. destruct (getitem d col); [| reflexivity].
  unfold len, setitem. cbn [rows]. apply set_cells_length.
Qed.

Lemma cleaned_frame_len (df : DataFrame)
    (column_mappings : Dict.dict (option string)) (clean_phones : bool) :
  len (cleaned_frame df column_mappings clean_phones) = len df.
Proof.
  unfold cleaned_frame. cbv zeta. unfold len at 1. cbn [rows].
  rewrite length_map. fold (len (apply_if_present
    (apply_if_present
       (if clean_phones
        then apply_if_present (rename df (rename_map column_mappings))
               "phone" _clean_phone
        else rename df (rename_map column_mappings)) "email" _clean_email)
    "name" _clean_name)).
  rewrite !apply_if_present_len.
  destruct clean_phones; rewrite ?apply_if_present_len;
    unfold len, rename; cbn [rows]; apply length_map.
Qed.

Lemma drop_temp_columns_len (d : DataFrame) :
  len (drop_temp_columns d) = len d.
Proof.
  unfold drop_temp_columns, temp_columns. cbn [fold_left].
  assert (Hstep : forall d0 t, len (drop_if_present d0 t) = len d0).
  { intros d0 t. unfold drop_if_present. destruct (has_column d0 t);
      [| reflexivity].
    unfold len, drop_column. cbn [rows]. apply length_map. }
  rewrite !Hstep. reflexivity.
Qed.

(** The count that [deduplicate] returns is the number of rows it took
    away. *)
Lemma deduplicate_count (d0 : DataFrame)
    (column_mappings : Dict.dict (option string))
    (d' : DataFrame) (n : Z) (gs : list DuplicateGroup) :
  deduplicate d0 column_mappings = Ok (d', n, gs) ->
  n = (Z.of_nat (len d0) - Z.of_nat (len d'))%Z /\ len d' <= len d0.
Proof.
  unfold deduplicate. destruct (df_empty d0).
  - intros H. injection H as <- <- _. split; lia.
  - destruct (build_dedup_key d0 (std_to_orig column_mappings))
      as [st |] eqn:Hbuild; [| discriminate].
    cbn [bind].
    destruct (build_dedup_key_extends _ _ _ Hbuild) as [_ [Hlab Hnil]].
    assert (Hlen : len (fst st) = len d0).
    { unfold len. rewrite <- (length_map label), Hlab. apply length_map. }
    destruct (snd st) as [| c cols].
    + intros H. injection H as <- <- _. rewrite (Hnil eq_refl). split; lia.
    + destruct (groups_of_columns (fst st) (c :: cols)) as [all |];
        [| discriminate].
      cbn [bind]. intros H. injection H as <- <- _.
      rewrite Hlen. split; [reflexivity |].
      rewrite drop_temp_columns_len. unfold len, drop_duplicates.
      cbn [rows]. unfold len in Hlen. rewrite <- Hlen.
      apply keep_first_length.
Qed.

Lemma repeated_false (names : list string) :
  repeated names = false <-> NoDup names.
Proof.
  induction names as [| name rest IH]; cbn [repeated].
  - split; [constructor | reflexivity].
  - rewrite orb_false_iff, IH. split.
    + intros [Hmem Hrest]. constructor; [| exact Hrest].
      intros Hin. apply mem_string_In in Hin. congruence.
    + intros H. inversion H as [| x l Hnotin Hrest]; subst.
      split; [| exact Hrest].
      destruct (mem_string name rest) eqn:E; [| reflexivity].
      apply mem_string_In in E. contradiction.
Qed.

(** [clean_data] returns when the renaming leaves every column a name of
    its own. *)
Lemma clean_data_returns (df : DataFrame)
    (column_mappings : Dict.dict (option string)) (clean_phones : bool) :
  NoDup (map (renamed (rename_map column_mappings)) (columns df)) ->
  clean_data df column_mappings clean_phones
  = Returned (cleaned_frame df column_mappings clean_phones).
Proof.
  intros Hnd. unfold clean_data. cbv zeta. unfold rename at 1.
  cbn [columns]. rewrite (proj2 (repeated_false _) Hnd). reflexivity.
Qed.

(** C8.  The code departs from the claim on a spreadsheet whose headers are
    not the canonical names.  Every row of the dataset has a name and a
    phone, and so has every row of the DataFrame that [clean_data]
    returns, under the canonical names; [to_contact_list] reads the cells
    under the headers of the mapping, finds none in the renamed DataFrame,
    and retains no row: [process_spreadsheet] reports no contact and both
    rows as failed. *)
Theorem C8_named_rows_are_dropped :
  forallb (fun r => notna (row_get "Name" r) && notna (row_get "Phone" r))
          (rows df_headers_in_capitals) = true
  /\ (exists cleaned_df,
        clean_data df_headers_in_capitals capitals_mapping true
        = Returned cleaned_df
        /\ forallb (fun r =>
                      notna (row_get "name" r) && notna (row_get "phone" r))
                   (rows cleaned_df) = true
        /\ to_contact_list cleaned_df capitals_mapping = [])
  /\ process_spreadsheet df_headers_in_capitals capitals_mapping true false
     = Returned (mkSummary 2 0 2%Z 0%Z, [], []).
Proof.
  split; [vm_compute; reflexivity |]. split.
  - eexists. split; [vm_compute; reflexivity |].
    split; vm_compute; reflexivity.
  - vm_compute. reflexivity.
Qed.

(** * Further properties of the code *)

(** ** utils/phone_formatter.py *)

Lemma digit_not_space (c : ascii) : is_digit c = true -> is_space c = false.
Proof.
  unfold is_digit, is_space, between. intros H.
  apply andb_true_iff in H. destruct H as [H1 H2].
  apply Nat.leb_le in H1. apply Nat.leb_le in H2.
  repeat rewrite orb_false_iff. repeat split.
  - apply andb_false_iff. right. apply Nat.leb_gt. lia.
  - apply andb_false_iff. right. apply Nat.leb_gt. lia.
  - apply Nat.eqb_neq. lia.
Qed.

Lemma digit_not_plus (c : ascii) : is_digit c = true -> Ascii.eqb c "+" = false.
Proof.
  intros H. destruct (Ascii.eqb c "+") eqn:E; [| reflexivity].
  apply Ascii.eqb_eq in E. subst c. discriminate H.
Qed.

(** [strip] keeps a first character that is not white space. *)
Lemma strip_head (c : ascii) (t : string) :
  is_space c = false -> exists t', strip (String c t) = String c t'.
Proof.
  intros Hc. unfold strip. cbn [lstrip_by]. rewrite Hc. cbn [rstrip_by].
  rewrite Hc. destruct (rstrip_by is_space t); eexists; reflexivity.
Qed.

Lemma startswith_head (c a : ascii) (t : string) :
  startswith (String c t) (String a "") = Ascii.eqb a c.
Proof.
  unfold startswith. cbn [String.prefix].
  destruct (ascii_dec a c) as [-> | Hne].
  - rewrite Ascii.eqb_refl. destruct t; reflexivity.
  - symmetry. apply Ascii.eqb_neq. exact Hne.
Qed.

(** The cleaned number: the digits of the input, after a [+] when the
    input starts with one. *)
Lemma clean_phone_number_shape (phone : string) :
  clean_phone_number phone = sfilter is_digit phone
  \/ clean_phone_number phone = "+" ++ sfilter is_digit phone.
Proof.
  unfold clean_phone_number. destruct (truthy phone) eqn:E; cbn [negb].
  - destruct (startswith (strip phone) "+"); [right | left]; reflexivity.
  - destruct phone; [left; reflexivity | discriminate E].
Qed.

Lemma clean_of_digits (d : string) :
  sforall is_digit d = true -> clean_phone_number d = d.
Proof.
  intros Hd. destruct d as [| c t]; [reflexivity |].
  unfold clean_phone_number. cbn [truthy negb].
  rewrite (sfilter_all is_digit _ Hd).
  cbn [sforall] in Hd. apply andb_true_iff in Hd. destruct Hd as [Hc _].
  destruct (strip_head c t (digit_not_space c Hc)) as [t' ->].
  rewrite startswith_head, Ascii.eqb_sym, (digit_not_plus c Hc).
  reflexivity.
Qed.

Lemma clean_of_plus_digits (d : string) :
  sforall is_digit d = true -> clean_phone_number ("+" ++ d) = "+" ++ d.
Proof.
  intros Hd. unfold clean_phone_number.
  change (truthy ("+" ++ d)) with true. cbn [negb].
  destruct (strip_head "+" d eq_refl) as [t' Ht].
  change ("+" ++ d) with (String "+" d) at 1. rewrite Ht, startswith_head.
  cbn [Ascii.eqb Bool.eqb andb].
  rewrite sfilter_app. change (sfilter is_digit "+") with "".
  rewrite (sfilter_all is_digit d Hd). reflexivity.
Qed.

(** X1. [clean_phone_number] returns digits with at most one [+], in
    front, and cleaning a cleaned number changes nothing. *)
Theorem clean_phone_number_idempotent (phone : string) :
  digits_with_optional_plus (clean_phone_number phone) = true
  /\ clean_phone_number (clean_phone_number phone) = clean_phone_number phone.
Proof.
  pose proof (sforall_sfilter is_digit phone) as Hd.
  destruct (clean_phone_number_shape phone) as [-> | ->].
  - split; [| exact (clean_of_digits _ Hd)].
    destruct (sfilter is_digit phone) as [| c t]; [reflexivity |].
    cbn [digits_with_optional_plus sforall] in *.
    apply andb_true_iff in Hd. destruct Hd as [Hc Ht].
    rewrite Hc, Ht. reflexivity.
  - split; [| exact (clean_of_plus_digits _ Hd)].
    cbn [String.append digits_with_optional_plus]. rewrite Hd.
    reflexivity.
Qed.

Lemma format_by_digits (n : string) (icc : bool) :
  n <> "" ->
  format_malaysian_phone n icc
  = if acceptable_digits (national_digits n)
    then Some (display icc (national_digits n))
    else None.
Proof.
  intros Hne. unfold format_malaysian_phone.
  rewrite (truthy_nonempty n Hne). cbn [negb]. cbv zeta.
  fold (national_digits n). unfold acceptable_digits, display.
  set (d := national_digits n).
  destruct (String.length d <? 8); destruct (10 <? String.length d);
    destruct (any_prefix MOBILE_PREFIXES d);
    destruct (any_prefix LANDLINE_PREFIXES d);
    destruct icc; destruct (9 <=? String.length d);
    destruct (8 <=? String.length d); reflexivity.
Qed.

Lemma validate_by_digits (n : string) :
  n <> "" ->
  fst (validate_malaysian_phone n) = acceptable_digits (national_digits n).
Proof.
  intros Hne. rewrite (validate_unfold n Hne). cbv zeta.
  unfold acceptable_digits. set (d := national_digits n).
  destruct (String.length d <? 8); destruct (10 <? String.length d);
    destruct (any_prefix MOBILE_PREFIXES d);
    destruct (any_prefix LANDLINE_PREFIXES d); reflexivity.
Qed.

(** X2. [format_malaysian_phone] returns a number, in either style, exactly
    when [validate_malaysian_phone] accepts the input; the number is the
    display form of the digits that remain after the country code and the
    leading zero. *)
Theorem format_iff_validate (n : string) (icc : bool) :
  ((exists f, format_malaysian_phone n icc = Some f)
   <-> fst (validate_malaysian_phone n) = true)
  /\ (fst (validate_malaysian_phone n) = true ->
      format_malaysian_phone n icc = Some (display icc (national_digits n))).
Proof.
  destruct n as [| c t].
  - split; [split |]; [intros [f Hf]; discriminate Hf | discriminate
                       | discriminate].
  - assert (Hne : String c t <> "") by discriminate.
    rewrite (format_by_digits _ icc Hne), (validate_by_digits _ Hne).
    destruct (acceptable_digits (national_digits (String c t))).
    + split; [split |]; [reflexivity | eexists; reflexivity | reflexivity].
    + split; [split |]; [intros [f Hf]; discriminate Hf | discriminate
                         | discriminate].
Qed.

Lemma format_iff_validate_witness :
  format_malaysian_phone "03-1234 5678" false = Some "03-1234 5678".
Proof.
  rewrite (proj2 (format_iff_validate "03-1234 5678" false) eq_refl).
  reflexivity.
Defined.

Lemma digits_of_groups (d : string) (k : nat) :
  sforall is_digit d = true -> k <= 5 ->
  sfilter is_digit (take k d ++ "-" ++ slice k 5 d ++ " " ++ drop 5 d) = d
  /\ sfilter is_digit (take k d ++ "-" ++ drop k d) = d.
Proof.
  intros Hd Hk.
  assert (Ht : forall j s, sforall is_digit s = true ->
                           sfilter is_digit (take j s) = take j s)
    by (intros j s Hs; apply sfilter_all, sforall_take, Hs).
  assert (Hdr : forall j, sfilter is_digit (drop j d) = drop j d)
    by (intros j; apply sfilter_all, sforall_drop, Hd).
  split.
  - rewrite !sfilter_app, (Ht k d Hd), Hdr. unfold slice.
    rewrite (Ht (5 - k) (drop k d)) by (apply sforall_drop, Hd).
    change (sfilter is_digit "-") with "".
    change (sfilter is_digit " ") with "".
    cbn [String.append].
    replace (drop 5 d) with (drop (5 - k) (drop k d))
      by (rewrite drop_drop; f_equal; lia).
    rewrite take_drop, take_drop. reflexivity.
  - rewrite !sfilter_app, (Ht k d Hd), Hdr.
    change (sfilter is_digit "-") with "".
    cbn [String.append]. apply take_drop.
Qed.

Lemma digits_of_display (icc : bool) (d : string) :
  sforall is_digit d = true ->
  sfilter is_digit (display icc d) = (if icc then "60" else "0") ++ d.
Proof.
  intros Hd. unfold display. rewrite sfilter_app.
  destruct (digits_of_groups d 2 Hd ltac:(lia)) as [M9 M8].
  destruct (digits_of_groups d 1 Hd ltac:(lia)) as [L8 L7].
  assert (Hlead : sfilter is_digit (if icc then "+60 " else "0")
                  = if icc then "60" else "0")
    by (destruct icc; reflexivity).
  rewrite Hlead. f_equal.
  destruct (any_prefix MOBILE_PREFIXES d).
  - destruct (9 <=? String.length d); assumption.
  - destruct (8 <=? String.length d); assumption.
Qed.

Lemma display_nonempty (icc : bool) (d : string) : display icc d <> "".
Proof. unfold display. destruct icc; discriminate. Qed.

Lemma acceptable_not_zero (d : string) :
  acceptable_digits d = true -> startswith d "0" = false.
Proof.
  unfold acceptable_digits. intros H. apply andb_true_iff in H.
  destruct H as [_ H]. destruct d as [| a t]; [reflexivity |].
  rewrite startswith_head.
  destruct (Ascii.eqb "0" a) eqn:E; [| reflexivity].
  apply Ascii.eqb_eq in E. subst a. discriminate H.
Qed.

(** The digits of a display form, as the functions read them back. *)
Lemma cleaned_digits_of_display (icc : bool) (d : string) :
  sforall is_digit d = true ->
  lstrip_plus (clean_phone_number (display icc d))
  = (if icc then "60" else "0") ++ d.
Proof.
  intros Hd. rewrite (cleaned_digits _ (display_nonempty icc d)).
  apply digits_of_display. exact Hd.
Qed.

Lemma national_digits_of_display (icc : bool) (d : string) :
  sforall is_digit d = true -> acceptable_digits d = true ->
  national_digits (display icc d) = d.
Proof.
  intros Hd Hok. unfold national_digits.
  rewrite (cleaned_digits_of_display icc d Hd).
  unfold strip_country_code, strip_leading_zero. destruct icc.
  - rewrite (startswith_append "60" d).
    change (drop 2 ("60" ++ d)) with d.
    rewrite (acceptable_not_zero d Hok). reflexivity.
  - change (startswith ("0" ++ d) "60") with false. cbv iota.
    rewrite (startswith_append "0" d). reflexivity.
Qed.

(** What a returned number tells about the input. *)
Lemma format_some_inv (n f : string) (icc : bool) :
  format_malaysian_phone n icc = Some f ->
  n <> "" /\ acceptable_digits (national_digits n) = true
  /\ sforall is_digit (national_digits n) = true
  /\ f = display icc (national_digits n).
Proof.
  intros Hf. assert (Hne : n <> "") by (intros ->; discriminate Hf).
  rewrite (format_by_digits n icc Hne) in Hf.
  destruct (acceptable_digits (national_digits n)); [| discriminate Hf].
  injection Hf as <-. repeat split; try assumption.
  apply national_digits_are_digits. exact Hne.
Qed.

(** X3. A number that [format_malaysian_phone] returns is accepted by
    [validate_malaysian_phone] and is its own format: formatting twice in
    the same style is formatting once. *)
Theorem format_is_a_fixed_point (n f : string) (icc : bool) :
  format_malaysian_phone n icc = Some f ->
  fst (validate_malaysian_phone f) = true
  /\ format_malaysian_phone f icc = Some f.
Proof.
  intros Hf. destruct (format_some_inv n f icc Hf) as [Hne [Hok [Hd ->]]].
  pose proof (display_nonempty icc (national_digits n)) as Hfne.
  rewrite (validate_by_digits _ Hfne), (format_by_digits _ icc Hfne).
  rewrite (national_digits_of_display icc _ Hd Hok), Hok.
  split; reflexivity.
Qed.

Lemma format_is_a_fixed_point_witness :
  format_malaysian_phone "+60 12-345 6789" true = Some "+60 12-345 6789".
Proof.
  apply (proj2 (format_is_a_fixed_point "0123456789" "+60 12-345 6789" true
                  eq_refl)).
Defined.

(** X4. Whatever the style, a formatted number normalizes to the country
    code followed by the digits that remain after the country code and the
    leading zero: the two display styles of one number compare equal. *)
Theorem formatted_normalizes_to_national (n f : string) (icc : bool) :
  format_malaysian_phone n icc = Some f ->
  normalize_phone_for_comparison f = "60" ++ national_digits n.
Proof.
  intros Hf. destruct (format_some_inv n f icc Hf) as [Hne [Hok [Hd ->]]].
  unfold normalize_phone_for_comparison.
  rewrite (truthy_nonempty _ (display_nonempty icc (national_digits n))).
  cbn [negb]. cbv zeta. rewrite (cleaned_digits_of_display icc _ Hd).
  destruct icc.
  - rewrite (startswith_append "60" (national_digits n)). reflexivity.
  - change (startswith ("0" ++ national_digits n) "60") with false.
    cbn [negb]. rewrite (startswith_append "0" (national_digits n)).
    reflexivity.
Qed.

Lemma formatted_normalizes_to_national_witness :
  normalize_phone_for_comparison "03-1234 5678" = "60312345678"
  /\ normalize_phone_for_comparison "+60 3-1234 5678" = "60312345678".
Proof.
  split.
  - apply (formatted_normalizes_to_national "+603 1234 5678" _ false).
    reflexivity.
  - apply (formatted_normalizes_to_national "+603 1234 5678" _ true).
    reflexivity.
Defined.

Lemma normalize_shape (n : string) :
  n <> "" ->
  exists t, normalize_phone_for_comparison n = "60" ++ t
            /\ sforall is_digit t = true.
Proof.
  intros Hne. unfold normalize_phone_for_comparison.
  rewrite (truthy_nonempty n Hne). cbn [negb]. cbv zeta.
  rewrite (cleaned_digits n Hne).
  pose proof (sforall_sfilter is_digit n) as Hd.
  set (c := sfilter is_digit n) in *.
  destruct (startswith c "60") eqn:E60; cbn [negb].
  - exists (drop 2 c). split.
    + symmetry. exact (startswith_split c "60" E60).
    + apply sforall_drop. exact Hd.
  - destruct (startswith c "0"); eexists; split; try reflexivity;
      [apply sforall_drop |]; exact Hd.
Qed.

(** X5. For every non-empty input the comparison form starts with the
    country code 60 and holds digits only; and normalizing a comparison
    form changes nothing, for every input. *)
Theorem normalize_is_canonical (n : string) :
  (n <> "" ->
   startswith (normalize_phone_for_comparison n) "60" = true
   /\ sforall is_digit (normalize_phone_for_comparison n) = true)
  /\ normalize_phone_for_comparison (normalize_phone_for_comparison n)
     = normalize_phone_for_comparison n.
Proof.
  destruct n as [| a s]; [split; [congruence | reflexivity] |].
  assert (Hne : String a s <> "") by discriminate.
  destruct (normalize_shape _ Hne) as [t [Ht Hd]]. rewrite Ht.
  assert (Hall : sforall is_digit ("60" ++ t) = true) by exact Hd.
  split.
  - intros _. split; [apply startswith_append | exact Hall].
  - unfold normalize_phone_for_comparison at 1.
    change (truthy ("60" ++ t)) with true. cbn [negb]. cbv zeta.
    rewrite (cleaned_digits ("60" ++ t)) by discriminate.
    rewrite (sfilter_all is_digit _ Hall), (startswith_append "60" t).
    reflexivity.
Qed.

Lemma normalize_is_canonical_witness :
  startswith (normalize_phone_for_comparison "(012) 345-6789") "60" = true
  /\ sforall is_digit (normalize_phone_for_comparison "(012) 345-6789") = true.
Proof.
  apply (proj1 (normalize_is_canonical "(012) 345-6789")). discriminate.
Defined.

(** X6. A number that [validate_malaysian_phone] accepts is recognised by
    [is_malaysian_number], with one exception: a landline number written
    without country code and without leading zero, which is valid and is
    not recognised. *)
Theorem valid_numbers_are_recognised (n : string) :
  fst (validate_malaysian_phone n) = true ->
  let c := lstrip_plus (clean_phone_number n) in
  is_malaysian_number n = true
  \/ (is_malaysian_number n = false
      /\ startswith c "60" = false /\ startswith c "0" = false
      /\ any_prefix MOBILE_PREFIXES c = false
      /\ any_prefix LANDLINE_PREFIXES c = true).
Proof.
  intros Hv c.
  assert (Hne : n <> "") by (intros ->; discriminate Hv).
  rewrite (validate_by_digits n Hne) in Hv.
  unfold acceptable_digits in Hv. apply andb_true_iff in Hv.
  destruct Hv as [_ Hp].
  unfold national_digits, strip_country_code, strip_leading_zero in Hp.
  fold c in Hp. unfold is_malaysian_number. fold c.
  destruct (startswith c "60") eqn:E60; [left; reflexivity |].
  destruct (startswith c "0") eqn:E0.
  - left. cbv zeta. rewrite Hp. reflexivity.
  - cbn [andb]. destruct (any_prefix MOBILE_PREFIXES c) eqn:Em.
    + left. reflexivity.
    + right. cbn [orb] in Hp. repeat split; assumption.
Qed.

Lemma valid_numbers_are_recognised_witness :
  is_malaysian_number "012-345 6789" = true
  /\ (fst (validate_malaysian_phone "312345678") = true
      /\ is_malaysian_number "312345678" = false).
Proof.
  split.
  - destruct (valid_numbers_are_recognised "012-345 6789" eq_refl)
      as [H | [H _]]; [exact H | discriminate H].
  - split; [reflexivity |].
    destruct (valid_numbers_are_recognised "312345678" eq_refl)
      as [H | [H _]]; [discriminate H | exact H].
Defined.

(** ** services/spreadsheet_service.py: what de-duplication leaves *)

Lemma key_seen_iff (key : Row -> list Cell) (r : Row) (before : list Row) :
  existsb (fun r' => tuple_eqb (key r) (key r')) before = true
  <-> In (key r) (map key before).
Proof.
  rewrite existsb_exists, in_map_iff. split.
  - intros [r' [Hin Heq]]. apply tuple_eqb_eq in Heq. exists r'.
    split; [symmetry; exact Heq | exact Hin].
  - intros [r' [Heq Hin]]. exists r'. split; [exact Hin |].
    apply tuple_eqb_eq. symmetry. exact Heq.
Qed.

Lemma first_occurrences_distinct (key : Row -> list Cell) (rs : list Row) :
  forall before,
    NoDup (map key (first_occurrences key before rs))
    /\ forall r', In r' (first_occurrences key before rs) ->
                  ~ In (key r') (map key before).
Proof.
  induction rs as [| r t IH]; intros before; cbn [first_occurrences].
  - split; [constructor | intros r' []].
  - destruct (IH (before ++ [r])%list) as [Hnd Hout].
    assert (Hweak : forall r', In r' (first_occurrences key (before ++ [r]) t)
                               -> ~ In (key r') (map key before)
                                  /\ key r' <> key r).
    { intros r' Hr'. specialize (Hout r' Hr').
      rewrite map_app, in_app_iff in Hout. cbn [map In] in Hout.
      split; [tauto |]. intros Heq. apply Hout. right. left.
      symmetry. exact Heq. }
    destruct (existsb (fun r' => tuple_eqb (key r) (key r')) before) eqn:E.
    + split; [exact Hnd |]. intros r' Hr'. exact (proj1 (Hweak r' Hr')).
    + split.
      * cbn [map]. constructor; [| exact Hnd].
        intros Hin. apply in_map_iff in Hin. destruct Hin as [r' [Heq Hr']].
        exact (proj2 (Hweak r' Hr') Heq).
      * intros r' [<- | Hr']; [| exact (proj1 (Hweak r' Hr'))].
        intros Hin. apply key_seen_iff in Hin. congruence.
Qed.

Lemma first_occurrences_represent (key : Row -> list Cell) (rs : list Row) :
  forall before r, In r rs ->
    In (key r) (map key before)
    \/ exists r', In r' (first_occurrences key before rs) /\ key r' = key r.
Proof.
  induction rs as [| r0 t IH]; intros before r Hin; [destruct Hin |].
  cbn [first_occurrences].
  destruct (existsb (fun r' => tuple_eqb (key r0) (key r')) before) eqn:E.
  - destruct Hin as [<- | Hin].
    + left. apply key_seen_iff. exact E.
    + destruct (IH (before ++ [r0])%list r Hin) as [Hb | Hr]; [| right; exact Hr].
      rewrite map_app, in_app_iff in Hb. cbn [map In] in Hb.
      destruct Hb as [Hb | [Hb | []]]; [left; exact Hb |].
      left. rewrite <- Hb. apply key_seen_iff. exact E.
  - destruct Hin as [<- | Hin].
    + right. exists r0. split; [left; reflexivity | reflexivity].
    + destruct (IH (before ++ [r0])%list r Hin) as [Hb | [r' [Hr' Heq]]].
      * rewrite map_app, in_app_iff in Hb. cbn [map In] in Hb.
        destruct Hb as [Hb | [Hb | []]]; [left; exact Hb |].
        right. exists r0. split; [left; reflexivity | exact Hb].
      * right. exists r'. split; [right; exact Hr' | exact Heq].
Qed.

Lemma first_occurrences_of_distinct (key : Row -> list Cell) (rs : list Row) :
  forall before,
    NoDup (map key (before ++ rs)) -> first_occurrences key before rs = rs.
Proof.
  induction rs as [| r t IH]; intros before Hnd; [reflexivity |].
  cbn [first_occurrences].
  destruct (existsb (fun r' => tuple_eqb (key r) (key r')) before) eqn:E.
  - exfalso. apply key_seen_iff in E.
    rewrite map_app in Hnd. cbn [map] in Hnd.
    apply NoDup_remove_2 in Hnd. apply Hnd. apply in_or_app. left. exact E.
  - f_equal. apply IH. rewrite <- app_assoc. exact Hnd.
Qed.

Lemma deduplicated_rows_incl (column_mappings : Dict.dict (option string))
    (rs : list Row) :
  incl (deduplicated_rows column_mappings rs) rs.
Proof.
  unfold deduplicated_rows. destruct (selected_keys column_mappings).
  - apply incl_refl.
  - intros r Hr. exact (first_occurrences_incl _ _ _ _ Hr).
Qed.

(** X7. On a dataset without temporary column names, under a mapping whose
    key columns are columns of it, the rows that [deduplicate] returns are
    rows of the input; when a key is selected no two of them have the same
    normalized key, the empty key of rows without phone or email included;
    and every row of the input has its normalized key on a returned row. *)
Theorem deduplicate_leaves_one_row_per_key (df : DataFrame)
    (column_mappings : Dict.dict (option string)) :
  no_temp_columns df ->
  key_columns_present df column_mappings ->
  exists out n gs,
    deduplicate df column_mappings = Ok (out, n, gs)
    /\ incl (rows out) (rows df)
    /\ (selected_keys column_mappings <> [] ->
        NoDup (map (dedup_key column_mappings) (rows out)))
    /\ forall r, In r (rows df) ->
         exists r', In r' (rows out)
                    /\ dedup_key column_mappings r'
                       = dedup_key column_mappings r.
Proof.
  intros Htemp Hpresent.
  destruct (deduplicate_ok df column_mappings Htemp Hpresent)
    as [gs [Hrun _]].
  do 3 eexists. split; [exact Hrun |]. cbn [rows].
  split; [apply deduplicated_rows_incl |].
  unfold deduplicated_rows.
  destruct (selected_keys column_mappings) as [| k ks] eqn:Hks.
  - split; [congruence |]. intros r Hr. exists r. split; [exact Hr | reflexivity].
  - split.
    + intros _.
      exact (proj1 (first_occurrences_distinct
                      (dedup_key column_mappings) (rows df) [])).
    + intros r Hr.
      destruct (first_occurrences_represent
                  (dedup_key column_mappings) (rows df) [] r Hr)
        as [[] | Hex].
      exact Hex.
Qed.

Lemma deduplicate_leaves_one_row_per_key_witness :
  exists out n gs,
    deduplicate df_three_phones phone_only = Ok (out, n, gs)
    /\ incl (rows out) (rows df_three_phones)
    /\ NoDup (map (dedup_key phone_only) (rows out)).
Proof.
  destruct (deduplicate_leaves_one_row_per_key df_three_phones phone_only
              (no_temp_columnsb_sound df_three_phones eq_refl)
              (key_columns_presentb_sound df_three_phones phone_only eq_refl))
    as [out [n [gs [Hrun [Hincl [Hnd _]]]]]].
  exists out, n, gs. split; [exact Hrun |]. split; [exact Hincl |].
  apply Hnd. discriminate.
Defined.

(** X8. De-duplicating the dataset that [deduplicate] returned, under the
    same mapping, returns that dataset again and counts no row as
    removed. *)
Theorem deduplicate_twice (df : DataFrame)
    (column_mappings : Dict.dict (option string))
    (out : DataFrame) (n : Z) (gs : list DuplicateGroup) :
  no_temp_columns df ->
  key_columns_present df column_mappings ->
  deduplicate df column_mappings = Ok (out, n, gs) ->
  exists gs', deduplicate out column_mappings = Ok (out, 0%Z, gs').
Proof.
  intros Htemp Hpresent Hrun.
  destruct (deduplicate_ok df column_mappings Htemp Hpresent)
    as [gs0 [Hrun0 _]].
  rewrite Hrun in Hrun0. injection Hrun0 as Hout _ _.
  assert (Hcols : columns out = columns df) by (rewrite Hout; reflexivity).
  assert (Hrows : rows out = deduplicated_rows column_mappings (rows df))
    by (rewrite Hout; reflexivity).
  assert (Htemp' : no_temp_columns out).
  { intros t Ht. destruct (Htemp t Ht) as [Hc Hr]. split.
    - unfold has_column in *. rewrite Hcols. exact Hc.
    - intros r Hin. apply Hr. rewrite Hrows in Hin.
      exact (deduplicated_rows_incl _ _ _ Hin). }
  assert (Hpresent' : key_columns_present out column_mappings).
  { intros field col Hf Hg. unfold has_column. rewrite Hcols.
    exact (Hpresent field col Hf Hg). }
  destruct (deduplicate_ok out column_mappings Htemp' Hpresent')
    as [gs' [Hrun' _]].
  exists gs'. rewrite Hrun'.
  assert (Hfix : deduplicated_rows column_mappings (rows out) = rows out).
  { rewrite Hrows. unfold deduplicated_rows.
    destruct (selected_keys column_mappings); [reflexivity |].
    apply first_occurrences_of_distinct. cbn [app].
    exact (proj1 (first_occurrences_distinct
                    (dedup_key column_mappings) (rows df) [])). }
  rewrite Hfix, frame_eta. unfold len. rewrite Z.sub_diag. reflexivity.
Qed.

Lemma deduplicate_twice_witness :
  exists out n gs gs',
    deduplicate df_three_phones phone_only = Ok (out, n, gs)
    /\ n = 1%Z
    /\ deduplicate out phone_only = Ok (out, 0%Z, gs').
Proof.
  destruct (deduplicate df_three_phones phone_only) as [[[out n] gs] |] eqn:E;
    [| vm_compute in E; discriminate E].
  destruct (deduplicate_twice df_three_phones phone_only out n gs
              (no_temp_columnsb_sound df_three_phones eq_refl)
              (key_columns_presentb_sound df_three_phones phone_only eq_refl)
              E) as [gs' Hrun].
  exists out, n, gs, gs'. split; [reflexivity |]. split; [| exact Hrun].
  vm_compute in E. injection E as _ <- _. reflexivity.
Defined.

Lemma groups_of_series_wellformed (col : string) (s : Series)
    (g : DuplicateGroup) :
  In g (groups_of_series col s) ->
  key g = replace "_" "" (replace "_normalized" "" col)
  /\ value g <> "" /\ 2 <= count g
  /\ count g = List.length (row_numbers g).
Proof.
  unfold groups_of_series. cbv zeta. intros Hg.
  apply in_flat_map in Hg. destruct Hg as [v [_ Hg]].
  destruct (1 <? List.length _) eqn:Hlen; [| destruct Hg].
  destruct (truthy v) eqn:Hv; [| destruct Hg].
  destruct Hg as [<- | []]. cbn [key value count row_numbers].
  apply Nat.ltb_lt in Hlen.
  repeat split.
  - intros ->. discriminate Hv.
  - exact Hlen.
  - rewrite length_map. reflexivity.
Qed.

Lemma groups_of_columns_wellformed (d : DataFrame) (cols : list string) :
  forall gs,
    groups_of_columns d cols = Ok gs ->
    forall g, In g gs ->
      (exists col, In col cols
                   /\ key g = replace "_" "" (replace "_normalized" "" col))
      /\ value g <> "" /\ 2 <= count g
      /\ count g = List.length (row_numbers g).
Proof.
  induction cols as [| col rest IH]; intros gs; cbn [groups_of_columns].
  - intros H. injection H as <-. intros g [].
  - unfold groups_of_column.
    destruct (getitem d col) as [s |]; [| discriminate].
    cbn [bind].
    destruct (groups_of_columns d rest) as [gs' |]; [| discriminate].
    cbn [bind]. intros H. injection H as <-. intros g Hg.
    apply in_app_or in Hg. destruct Hg as [Hg | Hg].
    + destruct (groups_of_series_wellformed col s g Hg) as [Hk Hrest].
      split; [exists col; split; [left; reflexivity | exact Hk] | exact Hrest].
    + destruct (IH gs' eq_refl g Hg) as [[c [Hc Hk]] Hrest].
      split; [exists c; split; [right; exact Hc | exact Hk] | exact Hrest].
Qed.

Lemma key_block_columns (std : Dict.dict string) (field new_col : string)
    (f : string -> string) (st st' : DataFrame * list string) :
  In new_col temp_columns ->
  incl (snd st) temp_columns ->
  key_block std field new_col f st = Ok st' ->
  incl (snd st') temp_columns.
Proof.
  intros Hnew Hst. unfold key_block.
  destruct (Dict.get field std) as [col |].
  - destruct (add_key_column (fst st) col new_col f) as [d |];
      [| discriminate].
    cbn [bind]. intros H. injection H as <-. cbn [snd].
    intros c Hc. apply in_app_or in Hc.
    destruct Hc as [Hc | [<- | []]]; [exact (Hst c Hc) | exact Hnew].
  - intros H. injection H as <-. exact Hst.
Qed.

Lemma build_dedup_key_columns (df : DataFrame) (std : Dict.dict string)
    (st : DataFrame * list string) :
  build_dedup_key df std = Ok st -> incl (snd st) temp_columns.
Proof.
  unfold build_dedup_key.
  destruct (key_block std "phone" "_phone_normalized"
              normalize_phone_for_comparison (df, [])) as [st1 |] eqn:E1;
    [| discriminate].
  cbn [bind].
  assert (H1 : incl (snd st1) temp_columns).
  { refine (key_block_columns std _ _ _ _ _ _ _ E1);
      [simpl; tauto | intros c []]. }
  destruct (key_block std "email" "_email_normalized" lower_strip st1)
    as [st2 |] eqn:E2; [| discriminate].
  cbn [bind].
  assert (H2 : incl (snd st2) temp_columns).
  { refine (key_block_columns std _ _ _ _ _ _ H1 E2). simpl; tauto. }
  destruct (snd st2) eqn:Hs.
  - intros E3. refine (key_block_columns std _ _ _ _ _ _ _ E3);
      [simpl; tauto | rewrite Hs; intros c []].
  - intros H. injection H as <-. rewrite Hs. exact H2.
Qed.

(** X9. Every duplicate group that [deduplicate] reports is named phone,
    email or name, has a value that is not empty, counts at least two rows
    and lists as many row numbers as it counts; at most 50 groups are
    reported. *)
Theorem duplicate_groups_are_wellformed (df : DataFrame)
    (column_mappings : Dict.dict (option string))
    (out : DataFrame) (n : Z) (gs : list DuplicateGroup) :
  deduplicate df column_mappings = Ok (out, n, gs) ->
  List.length gs <= 50
  /\ forall g, In g gs ->
       In (key g) ["phone"; "email"; "name"]
       /\ value g <> "" /\ 2 <= count g
       /\ count g = List.length (row_numbers g).
Proof.
  unfold deduplicate. destruct (df_empty df).
  - intros H. injection H as _ _ <-. split; [simpl; lia | intros g []].
  - destruct (build_dedup_key df (std_to_orig column_mappings))
      as [st |] eqn:Hbuild; [| discriminate].
    cbn [bind].
    pose proof (build_dedup_key_columns _ _ _ Hbuild) as Hcols.
    destruct (snd st) as [| c cols] eqn:Hsnd.
    + intros H. injection H as _ _ <-. split; [simpl; lia | intros g []].
    + destruct (groups_of_columns (fst st) (c :: cols)) as [all |] eqn:Hall;
        [| discriminate].
      cbn [bind]. intros H.
      assert (Hgs : gs = firstn 50 all) by (injection H as _ _ <-; reflexivity).
      subst gs. split; [apply firstn_le_length |].
      intros g Hg. apply firstn_incl in Hg.
      destruct (groups_of_columns_wellformed _ _ _ Hall g Hg)
        as [[col [Hc Hk]] Hrest].
      split; [| exact Hrest].
      rewrite Hk. specialize (Hcols col Hc).
      unfold temp_columns in Hcols. simpl in Hcols.
      decompose [or] Hcols; subst; try contradiction;
        vm_compute; tauto.
Qed.

Lemma duplicate_groups_are_wellformed_witness :
  exists out n gs,
    deduplicate df_same_phone_two_emails phone_and_email = Ok (out, n, gs)
    /\ List.length gs <= 50
    /\ forall g, In g gs -> value g <> "" /\ 2 <= count g.
Proof.
  destruct (deduplicate df_same_phone_two_emails phone_and_email)
    as [[[out n] gs] |] eqn:E; [| vm_compute in E; discriminate E].
  destruct (duplicate_groups_are_wellformed _ _ _ _ _ E) as [Hlen Hg].
  exists out, n, gs. split; [reflexivity |]. split; [exact Hlen |].
  intros g Hin. destruct (Hg g Hin) as [_ [Hv [Hc _]]]. split; assumption.
Defined.

Lemma keep_first_nonempty (key : Row -> list Cell) (r : Row) (t : list Row) :
  keep_first key [] (r :: t) <> [].
Proof. cbn [keep_first existsb]. discriminate. Qed.

(** X10. The count that [deduplicate] returns is the number of rows of the
    input less the number of rows of the output; it is never negative, and
    a dataset that has rows keeps at least one of them. *)
Theorem deduplicate_counts_removed_rows (df : DataFrame)
    (column_mappings : Dict.dict (option string))
    (out : DataFrame) (n : Z) (gs : list DuplicateGroup) :
  deduplicate df column_mappings = Ok (out, n, gs) ->
  n = (Z.of_nat (len df) - Z.of_nat (len out))%Z
  /\ (0 <= n)%Z
  /\ (0 < len df -> 0 < len out).
Proof.
  intros Hrun. destruct (deduplicate_count _ _ _ _ _ Hrun) as [Hn Hle].
  split; [exact Hn |]. split; [lia |].
  intros Hpos. revert Hrun. unfold deduplicate. destruct (df_empty df).
  - intros H. injection H as <- _ _. exact Hpos.
  - destruct (build_dedup_key df (std_to_orig column_mappings))
      as [st |] eqn:Hbuild; [| discriminate].
    cbn [bind].
    destruct (build_dedup_key_extends _ _ _ Hbuild) as [_ [Hlab Hnil]].
    destruct (snd st) as [| c cols].
    + intros H. injection H as <- _ _. rewrite (Hnil eq_refl). exact Hpos.
    + destruct (groups_of_columns (fst st) (c :: cols)) as [all |];
        [| discriminate].
      cbn [bind]. intros H. injection H as <- _ _.
      rewrite drop_temp_columns_len. unfold len, drop_duplicates.
      cbn [rows].
      assert (Hlen : List.length (rows (fst st)) = List.length (rows df)).
      { rewrite <- (length_map label), Hlab. apply length_map. }
      unfold len in Hpos. rewrite <- Hlen in Hpos.
      destruct (rows (fst st)) as [| r t]; [simpl in Hpos; lia |].
      pose proof (keep_first_nonempty (key_tuple (c :: cols)) r t) as Hne.
      destruct (keep_first (key_tuple (c :: cols)) [] (r :: t));
        [congruence | simpl; lia].
Qed.

Lemma deduplicate_counts_removed_rows_witness :
  exists out gs,
    deduplicate df_three_phones phone_only = Ok (out, 1%Z, gs)
    /\ len out = 2.
Proof.
  destruct (deduplicate df_three_phones phone_only) as [[[out n] gs] |] eqn:E;
    [| vm_compute in E; discriminate E].
  destruct (deduplicate_counts_removed_rows _ _ _ _ _ E) as [Hn _].
  assert (Hout : len out = 2)
    by (vm_compute in E; injection E as <- _ _; reflexivity).
  exists out, gs. split; [| exact Hout].
  rewrite Hn, Hout. reflexivity.
Defined.

(** ** services/spreadsheet_service.py: the counters of the quality report *)

Lemma getitem_length (df : DataFrame) (col : string) (s : Series) :
  getitem df col = Ok s -> List.length s = len df.
Proof.
  unfold getitem. destruct (has_column df col); [| discriminate].
  intros H. injection H as <-. apply length_map.
Qed.

Lemma missing_name_issues_length (col : string) (s : Series) :
  List.length (missing_name_issues col s) = count_na s.
Proof.
  unfold count_na, count_if.
  induction s as [| [idx c] t IH]; [reflexivity |].
  cbn [missing_name_issues filter snd]. destruct (isna c); simpl; lia.
Qed.

Lemma invalid_phone_issues_length (col : string) (s : Series) :
  List.length (invalid_phone_issues col s) + count_na s <= List.length s.
Proof.
  unfold count_na, count_if.
  induction s as [| [idx c] t IH]; [simpl; lia |].
  cbn [invalid_phone_issues filter snd]. destruct c as [v |].
  - destruct (validate_malaysian_phone v) as [ok msg].
    destruct ok; simpl; lia.
  - simpl. lia.
Qed.

Lemma invalid_email_issues_length (col : string) (s : Series) :
  List.length (invalid_email_issues col s) + count_na s <= List.length s.
Proof.
  unfold count_na, count_if.
  induction s as [| [idx c] t IH]; [simpl; lia |].
  cbn [invalid_email_issues filter snd]. destruct c as [v |].
  - destruct (match_to_end email_pattern (strip v)); simpl; lia.
  - simpl. lia.
Qed.

(** X11. In the report of [validate_data] the number of issues is the sum of
    the missing names, the invalid phones and the invalid emails; at most
    the first 100 issues are listed; the valid rows are the rows without a
    missing name and are never negative; missing phones are counted and
    give no issue, and the missing and the invalid phones together are at
    most the rows. *)
Theorem validate_data_counts (df : DataFrame)
    (column_mappings : Dict.dict (option string)) (report : Report) :
  validate_data df column_mappings = Ok report ->
  total_rows report = len df
  /\ issues_count report
     = missing_name_count report + invalid_phone_count report
       + invalid_email_count report
  /\ List.length (issues report) = Nat.min 100 (issues_count report)
  /\ valid_rows report
     = Z.of_nat (total_rows report - missing_name_count report)
  /\ missing_phone_count report + invalid_phone_count report
     <= total_rows report
  /\ invalid_email_count report <= total_rows report.
Proof.
  unfold validate_data. cbv zeta.
  set (std := std_to_orig column_mappings).
  assert (Hname : forall np,
    match Dict.get "name" std with
    | Some name_col =>
        s <- getitem df name_col ;;
        Ok (count_na s, missing_name_issues name_col s)
    | None => Ok (0, [])
    end = Ok np ->
    List.length (snd np) = fst np /\ fst np <= len df).
  { intros np. destruct (Dict.get "name" std) as [c |].
    - destruct (getitem df c) as [s |] eqn:E; [| discriminate].
      cbn [bind]. intros H. injection H as <-. cbn [fst snd].
      split; [apply missing_name_issues_length |].
      rewrite <- (getitem_length _ _ _ E).
      apply filter_length_le.
    - intros H. injection H as <-. simpl. lia. }
  assert (Hphone : forall pp,
    match Dict.get "phone" std with
    | Some phone_col =>
        s <- getitem df phone_col ;;
        Ok (count_na s, invalid_phone_issues phone_col s)
    | None => Ok (0, [])
    end = Ok pp ->
    List.length (snd pp) + fst pp <= len df).
  { intros pp. destruct (Dict.get "phone" std) as [c |].
    - destruct (getitem df c) as [s |] eqn:E; [| discriminate].
      cbn [bind]. intros H. injection H as <-. cbn [fst snd].
      rewrite <- (getitem_length _ _ _ E).
      apply invalid_phone_issues_length.
    - intros H. injection H as <-. simpl. lia. }
  assert (Hemail : forall ei,
    match Dict.get "email" std with
    | Some email_col =>
        s <- getitem df email_col ;;
        Ok (invalid_email_issues email_col s)
    | None => Ok []
    end = Ok ei ->
    List.length ei <= len df).
  { intros ei. destruct (Dict.get "email" std) as [c |].
    - destruct (getitem df c) as [s |] eqn:E; [| discriminate].
      cbn [bind]. intros H. injection H as <-.
      rewrite <- (getitem_length _ _ _ E).
      pose proof (invalid_email_issues_length c s). lia.
    - intros H. injection H as <-. simpl. lia. }
  destruct (match Dict.get "name" std with
            | Some name_col => _ | None => _ end) as [np |];
    [| discriminate].
  cbn [bind].
  destruct (match Dict.get "phone" std with
            | Some phone_col => _ | None => _ end) as [pp |];
    [| discriminate].
  cbn [bind].
  destruct (match Dict.get "email" std with
            | Some email_col => _ | None => _ end) as [ei |];
    [| discriminate].
  cbn [bind]. intros H.
  match type of H with
  | Ok ?r = Ok _ => assert (Hr : report = r) by congruence
  end.
  rewrite Hr.
  cbn [total_rows issues_count issues valid_rows missing_phone_count
       missing_name_count invalid_phone_count invalid_email_count].
  destruct (Hname np eq_refl) as [Hn1 Hn2].
  pose proof (Hphone pp eq_refl) as Hp.
  pose proof (Hemail ei eq_refl) as He.
  repeat split.
  - rewrite !length_app. lia.
  - apply length_firstn.
  - lia.
  - lia.
  - exact He.
Qed.

Lemma validate_data_counts_witness :
  exists report,
    validate_data df_quality quality_mapping = Ok report
    /\ issues_count report
       = missing_name_count report + invalid_phone_count report
         + invalid_email_count report.
Proof.
  destruct (validate_data df_quality quality_mapping) as [report |] eqn:E;
    [| vm_compute in E; discriminate E].
  exists report. split; [reflexivity |].
  exact (proj1 (proj2 (validate_data_counts _ _ _ E))).
Defined.

(** ** routers/spreadsheet.py: the analysis of a spreadsheet that was read *)

Lemma In_set {V : Type} (k k' : string) (v v' : V) (d : Dict.dict V) :
  In (k, v) (Dict.set k' v' d) -> In (k, v) d \/ (k = k' /\ v = v').
Proof.
  induction d as [| [a b] t IH]; cbn [Dict.set].
  - intros [H | []]. injection H as <- <-. right; split; reflexivity.
  - destruct (String.eqb k' a) eqn:E.
    + apply String.eqb_eq in E. subst a.
      intros [H | H]; [injection H as <- <-; right; split; reflexivity |].
      left; right; exact H.
    + intros [H | H]; [left; left; exact H |].
      destruct (IH H) as [H' | H']; [left; right; exact H' | right; exact H'].
Qed.

Lemma get_In {V : Type} (k : string) (v : V) (d : Dict.dict V) :
  Dict.get k d = Some v -> In (k, v) d.
Proof.
  induction d as [| [a b] t IH]; cbn [Dict.get]; [discriminate |].
  destruct (String.eqb k a) eqn:E.
  - apply String.eqb_eq in E. subst a. intros H. injection H as <-.
    left; reflexivity.
  - intros H. right. exact (IH H).
Qed.

(** An original column of the reverse mapping is a key of the mapping. *)
Lemma std_to_orig_keys (column_mappings : Dict.dict (option string))
    (std orig : string) :
  In (std, orig) (std_to_orig column_mappings) ->
  In orig (map fst column_mappings).
Proof.
  unfold std_to_orig.
  assert (H : forall (m : Dict.dict (option string)) (acc : Dict.dict string),
    In (std, orig)
       (fold_left
          (fun d item =>
             match mapped (snd item) with
             | Some std => Dict.set std (fst item) d
             | None => d
             end) m acc) ->
    In (std, orig) acc \/ In orig (map fst m)).
  { induction m as [| item m IH]; intros acc; cbn [fold_left map].
    - tauto.
    - intros Hin. destruct (IH _ Hin) as [Hacc | Hm];
        [| right; right; exact Hm].
      destruct (mapped (snd item)); [| left; exact Hacc].
      destruct (In_set _ _ _ _ _ Hacc) as [H' | [_ H']];
        [left; exact H' | right; left; symmetry; exact H']. }
  intros Hin. destruct (H _ _ Hin) as [[] | Hm]. exact Hm.
Qed.

(** The keys of [mapping_dict] are original names of the mappings. *)
Lemma mapping_dict_keys (ms : list ColumnMapping) (k : string) :
  In k (map fst (mapping_dict ms)) -> In k (map original_name ms).
Proof.
  unfold mapping_dict.
  assert (H : forall (l : list ColumnMapping)
                     (acc : Dict.dict (option string)),
    In k (map fst
            (fold_left
               (fun d m => Dict.set (original_name m) (mapped_to m) d)
               l acc)) ->
    In k (map fst acc) \/ In k (map original_name l)).
  { induction l as [| m l IH]; intros acc; cbn [fold_left map].
    - tauto.
    - intros Hin. destruct (IH _ Hin) as [Hacc | Hl];
        [| right; right; exact Hl].
      apply in_map_iff in Hacc. destruct Hacc as [[a b] [Ha Hab]].
      cbn [fst] in Ha. subst a.
      destruct (In_set _ _ _ _ _ Hab) as [H' | [H' _]].
      + left. apply in_map_iff. exists (k, b). split; [reflexivity | exact H'].
      + right; left. symmetry; exact H'. }
  intros Hin. destruct (H _ _ Hin) as [[] | Hl]. exact Hl.
Qed.

Lemma detect_column_original_name (col : string) (column : list Cell) :
  original_name (detect_column col column) = col.
Proof.
  unfold detect_column. cbv zeta.
  destruct (match_by_name (strip (lower col)) COLUMN_MAPPINGS)
    as [[field conf] |].
  - cbn [with_field mapped_to]. reflexivity.
  - cbn [mapped_to]. destruct (samples column) as [| s0 rest] eqn:E;
      [reflexivity |].
    apply detect_by_content_original_name.
Qed.

Lemma detected_key_is_column (df : DataFrame) (std orig : string) :
  Dict.get std (std_to_orig (mapping_dict (detect_columns df))) = Some orig ->
  has_column df orig = true.
Proof.
  intros H. apply get_In, std_to_orig_keys, mapping_dict_keys in H.
  unfold detect_columns in H. rewrite map_map in H.
  apply in_map_iff in H. destruct H as [col [Hcol Hin]].
  rewrite detect_column_original_name in Hcol. subst col.
  unfold has_column. apply mem_string_In. exact Hin.
Qed.

(** X12. [analyze_spreadsheet] refuses an empty DataFrame with status 400
    and otherwise answers with the detected mappings and a quality report
    for all the rows: the validation of a DataFrame against the mappings
    detected on it never raises [KeyError]. *)
Theorem analyze_spreadsheet_never_fails (df : DataFrame) :
  exists report,
    validate_data df (mapping_dict (detect_columns df)) = Ok report
    /\ total_rows report = len df
    /\ analyze_spreadsheet df
       = if df_empty df then BadRequest "Spreadsheet is empty"
         else Success (detect_columns df, report).
Proof.
  assert (Hrun : exists report,
    validate_data df (mapping_dict (detect_columns df)) = Ok report
    /\ total_rows report = len df).
  { unfold validate_data. cbv zeta.
    set (std := std_to_orig (mapping_dict (detect_columns df))).
    assert (Hcol : forall f c, Dict.get f std = Some c ->
                     exists s, getitem df c = Ok s).
    { intros f c Hc. unfold getitem.
      rewrite (detected_key_is_column df f c Hc). eexists; reflexivity. }
    destruct (Dict.get "name" std) as [nc |] eqn:En;
      [destruct (Hcol _ _ En) as [sn ->] |];
      (destruct (Dict.get "phone" std) as [pc |] eqn:Ep;
       [destruct (Hcol _ _ Ep) as [sp ->] |]);
      (destruct (Dict.get "email" std) as [ec |] eqn:Ee;
       [destruct (Hcol _ _ Ee) as [se ->] |]);
      cbn [bind]; eexists; split; reflexivity. }
  destruct Hrun as [report [Hrun Hrows]].
  exists report. split; [exact Hrun |]. split; [exact Hrows |].
  unfold analyze_spreadsheet. cbv zeta. rewrite Hrun. reflexivity.
Qed.

(** ** services/spreadsheet_service.py: what cleaning leaves *)

Lemma rstrip_by_cons (p : ascii -> bool) (c : ascii) (r : string) :
  rstrip_by p (String c r)
  = match rstrip_by p r with
    | EmptyString => if p c then EmptyString else String c EmptyString
    | String a b => String c (String a b)
    end.
Proof. reflexivity. Qed.

Lemma rstrip_by_idempotent (p : ascii -> bool) (s : string) :
  rstrip_by p (rstrip_by p s) = rstrip_by p s.
Proof.
  induction s as [| c r IH]; [reflexivity |].
  rewrite rstrip_by_cons. destruct (rstrip_by p r) as [| a b].
  - destruct (p c) eqn:Hc; [reflexivity |].
    rewrite rstrip_by_cons. cbn [rstrip_by]. rewrite Hc. reflexivity.
  - rewrite rstrip_by_cons, IH. reflexivity.
Qed.

Lemma lstrip_by_shape (p : ascii -> bool) (s : string) :
  lstrip_by p s = EmptyString
  \/ exists c r, lstrip_by p s = String c r /\ p c = false.
Proof.
  induction s as [| c r IH]; [left; reflexivity |].
  cbn [lstrip_by]. destruct (p c) eqn:Hc; [exact IH |].
  right. exists c, r. split; [reflexivity | exact Hc].
Qed.

Lemma lstrip_rstrip (p : ascii -> bool) (c : ascii) (r : string) :
  p c = false ->
  lstrip_by p (rstrip_by p (String c r)) = rstrip_by p (String c r).
Proof.
  intros Hc. rewrite rstrip_by_cons.
  destruct (rstrip_by p r); rewrite ?Hc; cbn [lstrip_by]; rewrite Hc;
    reflexivity.
Qed.

Lemma strip_idempotent (s : string) : strip (strip s) = strip s.
Proof.
  unfold strip.
  destruct (lstrip_by_shape is_space s) as [-> | [c [r [-> Hc]]]];
    [reflexivity |].
  rewrite (lstrip_rstrip is_space c r Hc). apply rstrip_by_idempotent.
Qed.

Lemma apply_if_present_columns (d : DataFrame) (col : string)
    (f : Cell -> Cell) :
  columns (apply_if_present d col f) = columns d.
Proof.
  unfold apply_if_present, getitem.
  destruct (has_column d col) eqn:E; [| reflexivity].
  unfold setitem. cbn [columns]. rewrite E. reflexivity.
Qed.

Lemma apply_if_present_labels (d : DataFrame) (col : string)
    (f : Cell -> Cell) :
  map label (rows (apply_if_present d col f)) = map label (rows d).
Proof.
  unfold apply_if_present. destruct (getitem d col); [| reflexivity].
  unfold setitem. cbn [rows]. apply set_cells_labels.
Qed.

Lemma get_map_cells (g : Cell -> Cell) (col : string) (d : Dict.dict Cell) :
  Dict.get col (map (fun item => (fst item, g (snd item))) d)
  = option_map g (Dict.get col d).
Proof.
  induction d as [| [k v] t IH]; [reflexivity |].
  cbn [map Dict.get fst snd]. destruct (String.eqb col k);
    [reflexivity | exact IH].
Qed.

Lemma cleaned_frame_shape (df : DataFrame)
    (column_mappings : Dict.dict (option string)) (clean_phones : bool) :
  let cleaned_df := cleaned_frame df column_mappings clean_phones in
  columns cleaned_df
  = map (renamed (rename_map column_mappings)) (columns df)
  /\ map label (rows cleaned_df) = map label (rows df)
  /\ forall r col v,
       In r (rows cleaned_df) -> row_get col r = Some v -> strip v = v.
Proof.
  cbv zeta. unfold cleaned_frame. cbv zeta. cbn [columns rows].
  repeat split.
  - rewrite !apply_if_present_columns.
    destruct clean_phones; rewrite ?apply_if_present_columns; reflexivity.
  - rewrite map_map. cbn [label].
    rewrite !apply_if_present_labels.
    destruct clean_phones; rewrite ?apply_if_present_labels;
      unfold rename; cbn [rows]; rewrite map_map; reflexivity.
  - intros r col v Hin. apply in_map_iff in Hin.
    destruct Hin as [r0 [<- _]].
    unfold row_get. cbn [cells]. rewrite get_map_cells.
    destruct (Dict.get col (cells r0)) as [[x |] |]; cbn [option_map strip_cell];
      try discriminate.
    intros H. injection H as <-. apply strip_idempotent.
Qed.

(** X13. When the renaming leaves every column a name of its own,
    [clean_data] returns a DataFrame: its columns are those of the input
    renamed by the mapping, none added and none dropped; it has the rows
    with their index labels; and no cell of it has white space in front or
    at the end. *)
Theorem clean_data_shape (df : DataFrame)
    (column_mappings : Dict.dict (option string)) (clean_phones : bool) :
  NoDup (map (renamed (rename_map column_mappings)) (columns df)) ->
  exists cleaned_df,
    clean_data df column_mappings clean_phones = Returned cleaned_df
    /\ columns cleaned_df
       = map (renamed (rename_map column_mappings)) (columns df)
    /\ map label (rows cleaned_df) = map label (rows df)
    /\ forall r col v,
         In r (rows cleaned_df) -> row_get col r = Some v -> strip v = v.
Proof.
  intros Hnd. exists (cleaned_frame df column_mappings clean_phones).
  split; [exact (clean_data_returns df column_mappings clean_phones Hnd) |].
  exact (cleaned_frame_shape df column_mappings clean_phones).
Qed.

Lemma clean_data_shape_witness :
  exists cleaned_df,
    clean_data df_quality quality_mapping true = Returned cleaned_df
    /\ columns cleaned_df = ["name"; "phone"; "email"]
    /\ map label (rows cleaned_df) = [0; 1; 2].
Proof.
  destruct (clean_data_shape df_quality quality_mapping true)
    as [cleaned_df [Hrun [Hcols [Hlabels _]]]].
  - apply repeated_false. vm_compute. reflexivity.
  - exists cleaned_df. split; [exact Hrun |].
    split; [exact Hcols | exact Hlabels].
Defined.

Lemma rstrip_by_all (p : ascii -> bool) (s : string) :
  sforall (fun c => negb (p c)) s = true -> rstrip_by p s = s.
Proof.
  induction s as [| c r IH]; [reflexivity |].
  cbn [sforall]. intros H. apply andb_true_iff in H. destruct H as [Hc Hr].
  rewrite rstrip_by_cons, (IH Hr). apply negb_true_iff in Hc. rewrite Hc.
  destruct r; reflexivity.
Qed.

Lemma rstrip_keep (p : ascii -> bool) (a b : string) :
  b <> "" -> rstrip_by p b = b -> rstrip_by p (a ++ b) = a ++ b.
Proof.
  intros Hne Hb. induction a as [| c a IH]; [exact Hb |].
  cbn [append]. rewrite rstrip_by_cons, IH.
  destruct (a ++ b) as [| x y] eqn:E; [| reflexivity].
  apply append_eq_nil in E. destruct E as [_ E]. contradiction.
Qed.

Lemma append_nonempty_r (a b : string) : b <> "" -> a ++ b <> "".
Proof.
  intros Hne E. apply append_eq_nil in E. destruct E as [_ E]. contradiction.
Qed.

Lemma drop_nonempty (k : nat) :
  forall s, k < String.length s -> drop k s <> "".
Proof.
  induction k as [| k IH]; intros [| c s]; simpl; intros H;
    try lia; try discriminate.
  apply IH. lia.
Qed.

Lemma sforall_imp (p q : ascii -> bool) (s : string) :
  (forall c, p c = true -> q c = true) ->
  sforall p s = true -> sforall q s = true.
Proof.
  intros Hpq. induction s as [| c r IH]; [reflexivity |].
  cbn [sforall]. intros H. apply andb_true_iff in H. destruct H as [Hc Hr].
  rewrite (Hpq c Hc), (IH Hr). reflexivity.
Qed.

Lemma sfilter_sfilter (p q : ascii -> bool) (s : string) :
  (forall c, p c = true -> q c = true) ->
  sfilter p (sfilter q s) = sfilter p s.
Proof.
  intros Hpq. induction s as [| c r IH]; [reflexivity |].
  cbn [sfilter]. destruct (q c) eqn:Hq.
  - cbn [sfilter]. rewrite IH. reflexivity.
  - destruct (p c) eqn:Hp; [| exact IH].
    rewrite (Hpq c Hp) in Hq. discriminate Hq.
Qed.

Lemma sfilter_length (p : ascii -> bool) (s : string) :
  String.length (sfilter p s) <= String.length s.
Proof.
  induction s as [| c r IH]; [simpl; lia |].
  cbn [sfilter]. destruct (p c); simpl; lia.
Qed.

Lemma string_length_app (a b : string) :
  String.length (a ++ b) = String.length a + String.length b.
Proof. induction a as [| c a IH]; simpl; [| rewrite IH]; reflexivity. Qed.

Lemma strip_no_space (s : string) :
  sforall (fun c => negb (is_space c)) s = true -> strip s = s.
Proof.
  intros H. destruct s as [| c r]; [reflexivity |].
  unfold strip. cbn [lstrip_by].
  assert (Hc : is_space c = false).
  { cbn [sforall] in H. apply andb_true_iff in H.
    apply negb_true_iff. tauto. }
  rewrite Hc. apply rstrip_by_all. exact H.
Qed.

Lemma digits_no_space (s : string) :
  sforall is_digit s = true -> rstrip_by is_space s = s.
Proof.
  intros H. apply rstrip_by_all.
  refine (sforall_imp is_digit _ s _ H).
  intros c Hc. rewrite (digit_not_space c Hc). reflexivity.
Qed.

Lemma acceptable_length (d : string) :
  acceptable_digits d = true -> 8 <= String.length d.
Proof.
  unfold acceptable_digits. intros H. apply andb_true_iff in H.
  destruct H as [H _]. apply negb_true_iff, orb_false_iff in H.
  destruct H as [H _]. apply Nat.ltb_ge in H. exact H.
Qed.

Lemma strip_of_display (d : string) :
  sforall is_digit d = true -> acceptable_digits d = true ->
  strip (display true d) = display true d.
Proof.
  intros Hd Hok. pose proof (acceptable_length d Hok) as Hlen.
  assert (Htail : forall k, k <= 5 ->
            drop k d <> "" /\ rstrip_by is_space (drop k d) = drop k d).
  { intros k Hk. split; [apply drop_nonempty; lia |].
    apply digits_no_space, sforall_drop. exact Hd. }
  assert (Hr : rstrip_by is_space (display true d) = display true d).
  { unfold display.
    destruct (Htail 5 ltac:(lia)) as [N5 R5].
    destruct (Htail 2 ltac:(lia)) as [N2 R2].
    destruct (Htail 1 ltac:(lia)) as [N1 R1].
    destruct (any_prefix MOBILE_PREFIXES d);
      [destruct (9 <=? String.length d) | destruct (8 <=? String.length d)];
      repeat (apply rstrip_keep; [repeat apply append_nonempty_r |]);
      assumption. }
  unfold strip.
  change (lstrip_by is_space (display true d)) with (display true d).
  exact Hr.
Qed.

Lemma clean_phone_result (phone : Cell) (s : string) :
  _clean_phone phone = Some s ->
  8 <= String.length s /\ strip s = s /\ _clean_phone (Some s) = Some s.
Proof.
  destruct phone as [v |]; [| discriminate].
  unfold _clean_phone at 1. cbv zeta.
  destruct (format_malaysian_phone (strip v) true) as [f |] eqn:Hf.
  - intros H. injection H as <-.
    destruct (format_some_inv _ _ _ Hf) as [Hne [Hok [Hd ->]]].
    set (d := national_digits (strip v)) in *.
    pose proof (strip_of_display d Hd Hok) as Hstrip.
    split.
    { pose proof (sfilter_length is_digit (display true d)) as Hle.
      rewrite (digits_of_display true d Hd), string_length_app in Hle.
      pose proof (acceptable_length d Hok).
      change (String.length "60") with 2 in Hle. lia. }
    split; [exact Hstrip |].
    unfold _clean_phone. cbv zeta. rewrite Hstrip.
    rewrite (format_by_digits (display true d) true (display_nonempty true d)).
    rewrite (national_digits_of_display true d Hd Hok), Hok. reflexivity.
  - set (q := fun c : ascii => is_digit c || Ascii.eqb c "+").
    set (cleaned := sfilter q (strip v)).
    destruct (8 <=? String.length cleaned) eqn:Hlen; [| discriminate].
    intros H. injection H as <-.
    pose proof (proj1 (Nat.leb_le _ _) Hlen) as Hlen'.
    assert (Hstrip : strip cleaned = cleaned).
    { apply strip_no_space.
      refine (sforall_imp q _ cleaned _ (sforall_sfilter q (strip v))).
      intros c Hc. unfold q in Hc. apply orb_true_iff in Hc.
      destruct Hc as [Hc | Hc].
      - rewrite (digit_not_space c Hc). reflexivity.
      - apply Ascii.eqb_eq in Hc. subst c. reflexivity. }
    assert (Hne : cleaned <> "")
      by (intros E; rewrite E in Hlen'; simpl in Hlen'; lia).
    assert (Hne' : strip v <> "")
      by (intros E; apply Hne; unfold cleaned; rewrite E; reflexivity).
    split; [exact Hlen' |]. split; [exact Hstrip |].
    unfold _clean_phone. cbv zeta. rewrite Hstrip.
    rewrite (format_depends_on_digits cleaned (strip v) true Hne Hne'), Hf.
    + fold q. unfold cleaned at 1 2. rewrite sfilter_idempotent.
      fold cleaned. rewrite Hlen. reflexivity.
    + rewrite (cleaned_digits _ Hne), (cleaned_digits _ Hne').
      apply sfilter_sfilter. intros c Hc. unfold q. rewrite Hc. reflexivity.
Qed.

(** X14. A phone that [_clean_phone] returns has at least 8 characters and
    no white space around it, and cleaning it again returns it unchanged. *)
Theorem clean_phone_is_stable (phone : Cell) (s : string) :
  _clean_phone phone = Some s ->
  8 <= String.length s /\ strip s = s /\ _clean_phone (Some s) = Some s.
Proof. exact (clean_phone_result phone s). Qed.

Lemma clean_phone_is_stable_witness :
  _clean_phone (Some " 012-345 6789 ") = Some "+60 12-345 6789"
  /\ _clean_phone (Some "+60 12-345 6789") = Some "+60 12-345 6789".
Proof.
  assert (H : _clean_phone (Some " 012-345 6789 ") = Some "+60 12-345 6789")
    by (vm_compute; reflexivity).
  split; [exact H |].
  exact (proj2 (proj2 (clean_phone_is_stable _ _ H))).
Defined.

Lemma is_space_to_lower (c : ascii) : is_space (to_lower c) = is_space c.
Proof. destruct c as [[] [] [] [] [] [] [] []]; vm_compute; reflexivity. Qed.

Lemma is_space_to_upper (c : ascii) : is_space (to_upper c) = is_space c.
Proof. destruct c as [[] [] [] [] [] [] [] []]; vm_compute; reflexivity. Qed.

Lemma to_lower_idempotent (c : ascii) : to_lower (to_lower c) = to_lower c.
Proof. destruct c as [[] [] [] [] [] [] [] []]; vm_compute; reflexivity. Qed.

Lemma lower_idempotent (s : string) : lower (lower s) = lower s.
Proof.
  unfold lower. induction s as [| c r IH]; [reflexivity |].
  cbn [smap]. rewrite to_lower_idempotent, IH. reflexivity.
Qed.

Lemma lstrip_by_smap (p : ascii -> bool) (f : ascii -> ascii) (s : string) :
  (forall c, p (f c) = p c) ->
  lstrip_by p (smap f s) = smap f (lstrip_by p s).
Proof.
  intros Hf. induction s as [| c r IH]; [reflexivity |].
  cbn [smap lstrip_by]. rewrite Hf. destruct (p c); [exact IH | reflexivity].
Qed.

Lemma rstrip_by_smap (p : ascii -> bool) (f : ascii -> ascii) (s : string) :
  (forall c, p (f c) = p c) ->
  rstrip_by p (smap f s) = smap f (rstrip_by p s).
Proof.
  intros Hf. induction s as [| c r IH]; [reflexivity |].
  cbn [smap]. rewrite !rstrip_by_cons, IH, Hf.
  destruct (rstrip_by p r); [destruct (p c) |]; reflexivity.
Qed.

Lemma strip_lower (s : string) : strip (lower s) = lower (strip s).
Proof.
  unfold strip, lower.
  rewrite (lstrip_by_smap is_space to_lower s is_space_to_lower).
  apply rstrip_by_smap. exact is_space_to_lower.
Qed.

Lemma clean_email_result (email : Cell) (s : string) :
  _clean_email email = Some s ->
  match_to_end email_pattern s = true /\ lower s = s /\ strip s = s.
Proof.
  destruct email as [v |]; [| discriminate].
  unfold _clean_email. cbv zeta.
  destruct (match_to_end email_pattern (lower (strip v))) eqn:Hm;
    [| discriminate].
  intros H. injection H as <-.
  split; [exact Hm |]. split; [apply lower_idempotent |].
  rewrite strip_lower, strip_idempotent. reflexivity.
Qed.

(** X15. An address that [_clean_email] returns is in lower case and has no
    white space around it; cleaning it again returns it unchanged, and the
    email check of [validate_data] raises no issue for it. *)
Theorem clean_email_is_stable (email : Cell) (s : string) :
  _clean_email email = Some s ->
  lower s = s /\ strip s = s
  /\ _clean_email (Some s) = Some s
  /\ forall email_col idx,
       invalid_email_issues email_col [(idx, Some s)] = [].
Proof.
  intros H. destruct (clean_email_result email s H) as [Hm [Hl Hs]].
  split; [exact Hl |]. split; [exact Hs |]. split.
  - unfold _clean_email. cbv zeta. rewrite Hs, Hl, Hm. reflexivity.
  - intros email_col idx. cbn [invalid_email_issues].
    rewrite Hs, Hm. reflexivity.
Qed.

Lemma clean_email_is_stable_witness :
  _clean_email (Some " Ali@Example.COM ") = Some "ali@example.com"
  /\ _clean_email (Some "ali@example.com") = Some "ali@example.com".
Proof.
  assert (H : _clean_email (Some " Ali@Example.COM ")
              = Some "ali@example.com")
    by (vm_compute; reflexivity).
  split; [exact H |].
  exact (proj1 (proj2 (proj2 (clean_email_is_stable _ _ H)))).
Defined.

Lemma rev_string_forall (p : ascii -> bool) (s : string) :
  forall acc,
    sforall p (rev_string acc s) = sforall p acc && sforall p s.
Proof.
  induction s as [| c r IH]; intros acc; cbn [rev_string sforall].
  - rewrite andb_true_r. reflexivity.
  - rewrite IH. cbn [sforall].
    destruct (p c), (sforall p acc), (sforall p r); reflexivity.
Qed.

Lemma rev_string_nonempty (s : string) :
  forall acc, rev_string acc s = "" -> acc = "" /\ s = "".
Proof.
  induction s as [| c r IH]; intros acc; cbn [rev_string].
  - intros ->. split; reflexivity.
  - intros H. apply IH in H. destruct H as [H _]. discriminate H.
Qed.

Lemma flush_words (cur w : string) :
  sforall no_space cur = true -> In w (flush cur) -> is_word w.
Proof.
  destruct cur as [| a cur]; cbn [flush]; [intros _ [] |].
  intros H [<- | []]. split.
  - intros E. apply rev_string_nonempty in E. destruct E as [_ E].
    discriminate E.
  - rewrite rev_string_forall. exact H.
Qed.

Lemma split_from_words (s : string) :
  forall cur w,
    sforall no_space cur = true -> In w (split_from cur s) -> is_word w.
Proof.
  induction s as [| c r IH]; intros cur w Hcur; cbn [split_from].
  - apply flush_words. exact Hcur.
  - destruct (is_space c) eqn:E.
    + intros Hin. apply in_app_or in Hin. destruct Hin as [Hin | Hin].
      * exact (flush_words cur w Hcur Hin).
      * exact (IH "" w eq_refl Hin).
    + apply IH. cbn [sforall]. unfold no_space at 1. rewrite E. exact Hcur.
Qed.

Lemma split_from_nil (s : string) :
  forall cur,
    split_from cur s = [] <-> cur = "" /\ sforall is_space s = true.
Proof.
  induction s as [| c r IH]; intros cur; cbn [split_from sforall].
  - destruct cur; cbn [flush]; split; try tauto; try discriminate.
    intros [H _]. discriminate H.
  - destruct (is_space c).
    + cbn [andb]. split.
      * intros H. apply app_eq_nil in H. destruct H as [Hf Hr].
        destruct cur; [| discriminate Hf]. split; [reflexivity |].
        apply (IH "") in Hr. tauto.
      * intros [-> Hr]. cbn [flush app]. apply (IH "").
        split; [reflexivity | exact Hr].
    + cbn [andb]. rewrite IH. split; [intros [H _]; discriminate H |].
      intros [_ H]. discriminate H.
Qed.

Lemma title_from_word (w : string) :
  forall b, is_word w -> is_word (title_from b w).
Proof.
  intros b [Hne Hw]. split.
  - destruct w as [| c r]; [contradiction |]. cbn [title_from].
    destruct (is_lower c); [discriminate |].
    destruct (is_upper c); discriminate.
  - clear Hne. revert b Hw.
    induction w as [| c r IH]; intros b; [reflexivity |].
    cbn [sforall title_from]. intros H. apply andb_true_iff in H.
    destruct H as [Hc Hr].
    assert (Hu : no_space (to_upper c) = true)
      by (unfold no_space in *; rewrite is_space_to_upper; exact Hc).
    assert (Hl : no_space (to_lower c) = true)
      by (unfold no_space in *; rewrite is_space_to_lower; exact Hc).
    destruct (is_lower c); [| destruct (is_upper c)]; cbn [sforall];
      rewrite (IH _ Hr); destruct b; rewrite ?Hc, ?Hu, ?Hl; reflexivity.
Qed.

Lemma clean_word_word (w : string) : is_word w -> is_word (clean_word w).
Proof.
  intros H. unfold clean_word. cbv zeta.
  destruct (mem_string (lower w) honorifics || isupper w); [exact H |].
  apply title_from_word. exact H.
Qed.

Lemma join_words (ws : list string) :
  ws <> [] -> Forall is_word ws ->
  join " " ws <> ""
  /\ rstrip_by is_space (join " " ws) = join " " ws
  /\ exists c t, join " " ws = String c t /\ is_space c = false.
Proof.
  unfold join. induction ws as [| w rest IH]; [contradiction |].
  intros _ Hall. inversion Hall as [| w0 rest0 [Hne Hw] Hrest]; subst.
  assert (Hhead : exists c t, w = String c t /\ is_space c = false).
  { destruct w as [| c t]; [contradiction |]. exists c, t.
    split; [reflexivity |]. cbn [sforall] in Hw.
    apply andb_true_iff in Hw. destruct Hw as [Hc _].
    apply negb_true_iff. exact Hc. }
  assert (Hrw : rstrip_by is_space w = w) by (apply rstrip_by_all; exact Hw).
  destruct rest as [| w' rest'].
  - change (String.concat " " [w]) with w.
    split; [exact Hne |]. split; [exact Hrw | exact Hhead].
  - change (String.concat " " (w :: w' :: rest'))
      with (w ++ " " ++ String.concat " " (w' :: rest')).
    destruct (IH ltac:(discriminate) Hrest) as [Hn [Hr _]].
    split; [apply append_nonempty_r, append_nonempty_r; exact Hn |].
    split.
    + apply rstrip_keep; [apply append_nonempty_r; exact Hn |].
      apply rstrip_keep; assumption.
    + destruct Hhead as [c [t [-> Hc]]]. exists c. eexists.
      split; [reflexivity | exact Hc].
Qed.

Lemma lstrip_by_all (p : ascii -> bool) (s : string) :
  lstrip_by p s = "" <-> sforall p s = true.
Proof.
  induction s as [| c r IH]; cbn [lstrip_by sforall]; [tauto |].
  destruct (p c); [exact IH |]. split; discriminate.
Qed.

Lemma strip_blank (v : string) :
  sforall is_space (strip v) = true <-> sforall is_space v = true.
Proof.
  unfold strip. split.
  - destruct (lstrip_by_shape is_space v) as [E | [c [r [E Hc]]]].
    + intros _. apply lstrip_by_all. exact E.
    + rewrite E, rstrip_by_cons.
      destruct (rstrip_by is_space r); rewrite ?Hc; cbn [sforall];
        rewrite Hc; discriminate.
  - intros H. apply lstrip_by_all in H. rewrite H. reflexivity.
Qed.

Lemma clean_name_result (name : Cell) (s : string) :
  _clean_name name = Some s -> s <> "" /\ strip s = s.
Proof.
  destruct name as [v |]; [| discriminate].
  unfold _clean_name. cbv zeta.
  destruct (map clean_word (split (strip v))) as [| w ws] eqn:E;
    [discriminate |].
  intros H.
  assert (Hs : s = join " " (w :: ws)) by congruence. subst s. clear H.
  assert (Hall : Forall is_word (w :: ws)).
  { rewrite <- E. apply Forall_forall. intros x Hx.
    apply in_map_iff in Hx. destruct Hx as [y [<- Hy]].
    apply clean_word_word.
    exact (split_from_words (strip v) "" y eq_refl Hy). }
  destruct (join_words (w :: ws) ltac:(discriminate) Hall)
    as [Hne [Hr [c [t [Hj Hc]]]]].
  split; [exact Hne |].
  unfold strip. rewrite Hj. cbn [lstrip_by]. rewrite Hc, <- Hj. exact Hr.
Qed.

(** X16. [_clean_name] returns null for a name that is nothing but white
    space, and for no other name; a name that it returns is not empty and
    has no white space around it. *)
Theorem clean_name_is_null_or_a_name :
  (forall v, _clean_name (Some v) = None <-> sforall is_space v = true)
  /\ (forall name s, _clean_name name = Some s -> s <> "" /\ strip s = s).
Proof.
  split; [| exact clean_name_result].
  intros v. rewrite <- strip_blank.
  unfold _clean_name. cbv zeta.
  assert (Hnil : split (strip v) = [] <-> sforall is_space (strip v) = true).
  { unfold split. rewrite split_from_nil. tauto. }
  rewrite <- Hnil.
  destruct (split (strip v)) as [| w ws]; cbn [map].
  - tauto.
  - split; discriminate.
Qed.

Lemma clean_name_is_null_or_a_name_witness :
  _clean_name (Some "  ali bin abu ") = Some "Ali Bin Abu"
  /\ "Ali Bin Abu" <> ""
  /\ strip "Ali Bin Abu" = "Ali Bin Abu".
Proof.
  assert (H : _clean_name (Some "  ali bin abu ") = Some "Ali Bin Abu")
    by (vm_compute; reflexivity).
  split; [exact H |].
  exact (proj2 clean_name_is_null_or_a_name _ _ H).
Defined.

Lemma apply_if_present_cell (d : DataFrame) (col : string) (f : Cell -> Cell)
    (r' : Row) :
  In r' (rows (apply_if_present d col f)) ->
  exists r,
    In r (rows d)
    /\ (forall c, c <> col -> row_get c r' = row_get c r)
    /\ (has_column d col = true -> row_get col r' = f (row_get col r)).
Proof.
  unfold apply_if_present, getitem. destruct (has_column d col) eqn:E.
  - unfold setitem. cbn [rows]. rewrite set_cells_apply. intros Hin.
    apply in_map_iff in Hin. destruct Hin as [r [<- Hr]].
    exists r. split; [exact Hr |]. unfold row_get. cbn [cells]. split.
    + intros c Hc. rewrite get_set_other; [reflexivity | congruence].
    + intros _. rewrite get_set_same. reflexivity.
  - intros Hin. exists r'. split; [exact Hin |].
    split; [reflexivity | discriminate].
Qed.

Lemma row_get_stripped (c : string) (r : Row) :
  row_get c
    (mkRow (label r)
       (map (fun item => (fst item, strip_cell (snd item))) (cells r)))
  = strip_cell (row_get c r).
Proof.
  unfold row_get. cbn [cells]. rewrite get_map_cells.
  destruct (Dict.get c (cells r)); reflexivity.
Qed.

Lemma cleaned_frame_cells (df : DataFrame)
    (column_mappings : Dict.dict (option string)) (clean_phones : bool)
    (r : Row) (v : string) :
  let cleaned_df := cleaned_frame df column_mappings clean_phones in
  In r (rows cleaned_df) ->
  (has_column cleaned_df "name" = true ->
   row_get "name" r = Some v -> v <> "")
  /\ (has_column cleaned_df "email" = true ->
      row_get "email" r = Some v -> match_to_end email_pattern v = true)
  /\ (clean_phones = true -> has_column cleaned_df "phone" = true ->
      row_get "phone" r = Some v -> 8 <= String.length v).
Proof.
  cbv zeta. unfold has_column.
  rewrite (proj1 (cleaned_frame_shape df column_mappings clean_phones)).
  unfold cleaned_frame. cbv zeta. cbn [rows].
  set (d0 := rename df (rename_map column_mappings)).
  set (d1 := if clean_phones then apply_if_present d0 "phone" _clean_phone
             else d0).
  set (d2 := apply_if_present d1 "email" _clean_email).
  assert (C0 : columns d0
               = map (renamed (rename_map column_mappings)) (columns df))
    by reflexivity.
  assert (C1 : columns d1 = columns d0)
    by (unfold d1; destruct clean_phones;
        [apply apply_if_present_columns | reflexivity]).
  assert (C2 : columns d2 = columns d1) by apply apply_if_present_columns.
  rewrite <- C0.
  intros Hin. apply in_map_iff in Hin. destruct Hin as [r3 [<- Hr3]].
  rewrite !row_get_stripped.
  destruct (apply_if_present_cell d2 "name" _clean_name r3 Hr3)
    as [r2 [Hr2 [N3 S3]]].
  destruct (apply_if_present_cell d1 "email" _clean_email r2 Hr2)
    as [r1 [Hr1 [N2 S2]]].
  unfold has_column in S3, S2. rewrite C2, C1 in S3. rewrite C1 in S2.
  split; [| split].
  - intros Hcol. rewrite (S3 Hcol).
    destruct (_clean_name (row_get "name" r2)) as [s |] eqn:E;
      [| discriminate].
    destruct (clean_name_result _ _ E) as [Hne Hs].
    cbn [strip_cell]. rewrite Hs. intros H. injection H as <-. exact Hne.
  - intros Hcol. rewrite (N3 "email" ltac:(discriminate)), (S2 Hcol).
    destruct (_clean_email (row_get "email" r1)) as [s |] eqn:E;
      [| discriminate].
    destruct (clean_email_result _ _ E) as [Hm [_ Hs]].
    cbn [strip_cell]. rewrite Hs. intros H. injection H as <-. exact Hm.
  - intros -> Hcol.
    rewrite (N3 "phone" ltac:(discriminate)), (N2 "phone" ltac:(discriminate)).
    destruct (apply_if_present_cell d0 "phone" _clean_phone r1 Hr1)
      as [r0 [_ [_ S1]]].
    rewrite (S1 Hcol).
    destruct (_clean_phone (row_get "phone" r0)) as [s |] eqn:E;
      [| discriminate].
    destruct (clean_phone_result _ _ E) as [Hlen [Hs _]].
    cbn [strip_cell]. rewrite Hs. intros H. injection H as <-. exact Hlen.
Qed.

(** X17. When the renaming leaves every column a name of its own,
    [clean_data] returns a DataFrame in which a name is null or not empty
    and an email is null or an address of the accepted shape; when phones
    are cleaned, a phone is null or has at least 8 characters.  Each holds
    for the column of that canonical name, when there is one. *)
Theorem cleaned_cells_are_null_or_clean (df : DataFrame)
    (column_mappings : Dict.dict (option string)) (clean_phones : bool) :
  NoDup (map (renamed (rename_map column_mappings)) (columns df)) ->
  exists cleaned_df,
    clean_data df column_mappings clean_phones = Returned cleaned_df
    /\ forall r v,
         In r (rows cleaned_df) ->
         (has_column cleaned_df "name" = true ->
          row_get "name" r = Some v -> v <> "")
         /\ (has_column cleaned_df "email" = true ->
             row_get "email" r = Some v ->
             match_to_end email_pattern v = true)
         /\ (clean_phones = true -> has_column cleaned_df "phone" = true ->
             row_get "phone" r = Some v -> 8 <= String.length v).
Proof.
  intros Hnd. exists (cleaned_frame df column_mappings clean_phones).
  split; [exact (clean_data_returns df column_mappings clean_phones Hnd) |].
  intros r v. exact (cleaned_frame_cells df column_mappings clean_phones r v).
Qed.

Lemma cleaned_cells_are_null_or_clean_witness :
  exists cleaned_df r,
    clean_data df_quality quality_mapping true = Returned cleaned_df
    /\ In r (rows cleaned_df)
    /\ row_get "phone" r = Some "+60 12-345 6789"
    /\ 8 <= String.length "+60 12-345 6789".
Proof.
  destruct (cleaned_cells_are_null_or_clean df_quality quality_mapping true)
    as [cleaned_df [Hrun Hcells]].
  - apply repeated_false. vm_compute. reflexivity.
  - assert (Hdf : cleaned_df = cleaned_frame df_quality quality_mapping true).
    { assert (E : clean_data df_quality quality_mapping true
                  = Returned (cleaned_frame df_quality quality_mapping true))
        by (vm_compute; reflexivity).
      rewrite E in Hrun. injection Hrun as <-. reflexivity. }
    assert (Hin : In (nth 0 (rows cleaned_df) (mkRow 0 [])) (rows cleaned_df))
      by (rewrite Hdf; vm_compute; left; reflexivity).
    assert (Hget : row_get "phone" (nth 0 (rows cleaned_df) (mkRow 0 []))
                   = Some "+60 12-345 6789")
      by (rewrite Hdf; vm_compute; reflexivity).
    exists cleaned_df, (nth 0 (rows cleaned_df) (mkRow 0 [])).
    split; [exact Hrun |]. split; [exact Hin |]. split; [exact Hget |].
    refine (proj2 (proj2 (Hcells _ _ Hin)) eq_refl _ Hget).
    rewrite Hdf. vm_compute. reflexivity.
Defined.

(** ** utils/phone_formatter.py: the spellings that one key stands for *)

Lemma normalize_by_digits (n : string) :
  n <> "" ->
  normalize_phone_for_comparison n
  = if startswith (sfilter is_digit n) "60" then sfilter is_digit n
    else if startswith (sfilter is_digit n) "0"
         then "60" ++ drop 1 (sfilter is_digit n)
         else "60" ++ sfilter is_digit n.
Proof.
  intros Hne. unfold normalize_phone_for_comparison.
  rewrite (truthy_nonempty n Hne). cbn [negb]. cbv zeta.
  rewrite (cleaned_digits n Hne).
  destruct (startswith (sfilter is_digit n) "60"); reflexivity.
Qed.

(** X18. [normalize_phone_for_comparison] looks at the digits only: two
    numbers with the same digits get the same key, whatever is written
    between them; and the local spelling with the trunk zero, the
    international spelling and the spelling with the bare country code of
    the same national digits get one key, the country code followed by
    those digits. *)
Theorem normalize_identifies_spellings :
  (forall a b,
      a <> "" -> b <> "" ->
      sfilter is_digit a = sfilter is_digit b ->
      normalize_phone_for_comparison a = normalize_phone_for_comparison b)
  /\ (forall d,
         sforall is_digit d = true ->
         normalize_phone_for_comparison ("0" ++ d) = "60" ++ d
         /\ normalize_phone_for_comparison ("+60" ++ d) = "60" ++ d
         /\ normalize_phone_for_comparison ("60" ++ d) = "60" ++ d).
Proof.
  split.
  - intros a b Ha Hb H.
    rewrite (normalize_by_digits a Ha), (normalize_by_digits b Hb), H.
    reflexivity.
  - intros d Hd.
    assert (H0 : sfilter is_digit ("0" ++ d) = "0" ++ d)
      by (rewrite sfilter_app, (sfilter_all is_digit d Hd); reflexivity).
    assert (H1 : sfilter is_digit ("+60" ++ d) = "60" ++ d)
      by (rewrite sfilter_app, (sfilter_all is_digit d Hd); reflexivity).
    assert (H2 : sfilter is_digit ("60" ++ d) = "60" ++ d)
      by (rewrite sfilter_app, (sfilter_all is_digit d Hd); reflexivity).
    repeat split.
    + rewrite normalize_by_digits by discriminate. rewrite H0.
      change (startswith ("0" ++ d) "60") with false. cbv iota.
      rewrite (startswith_append "0" d). reflexivity.
    + rewrite normalize_by_digits by discriminate. rewrite H1.
      rewrite (startswith_append "60" d). reflexivity.
    + rewrite normalize_by_digits by discriminate. rewrite H2.
      rewrite (startswith_append "60" d). reflexivity.
Qed.

Lemma normalize_identifies_spellings_witness :
  normalize_phone_for_comparison "0123456789" = "60123456789"
  /\ normalize_phone_for_comparison "+60123456789" = "60123456789"
  /\ normalize_phone_for_comparison "012-345 6789"
     = normalize_phone_for_comparison "(012) 3456789".
Proof.
  destruct (proj2 normalize_identifies_spellings "123456789" eq_refl)
    as [H0 [H1 _]].
  split; [exact H0 |]. split; [exact H1 |].
  apply (proj1 normalize_identifies_spellings);
    [discriminate | discriminate | vm_compute; reflexivity].
Defined.

(** ** services/spreadsheet_service.py: detection by the header *)

Lemma find_app {A : Type} (p : A -> bool) (l1 l2 : list A) :
  find p (l1 ++ l2)
  = match find p l1 with Some x => Some x | None => find p l2 end.
Proof.
  induction l1 as [| a l1 IH]; [reflexivity |].
  cbn [app find]. destruct (p a); [reflexivity | exact IH].
Qed.

Lemma match_keywords_first_match (col_lower field : string)
    (keywords : list string) :
  match_keywords col_lower keywords
  = match find (fun p => related col_lower (snd p))
               (map (pair field) keywords) with
    | Some (_, keyword) =>
        Some (if String.eqb col_lower keyword then 0.95%Q else 0.8%Q)
    | None => None
    end.
Proof.
  induction keywords as [| keyword rest IH]; [reflexivity |].
  cbn [match_keywords map find snd]. unfold related at 1.
  destruct (contains keyword col_lower || contains col_lower keyword);
    [reflexivity | exact IH].
Qed.

(** X19. The two loops of [detect_columns] over the keyword table stop at
    the first keyword, in the order of the table, that contains the header
    or is contained in it: the column gets the field of that keyword, with
    confidence 0.95 when the header is that keyword and 0.8 otherwise, and
    no field when there is no such keyword. *)
Theorem match_by_name_is_first_match (col_lower : string)
    (table : Dict.dict (list string)) :
  match_by_name col_lower table
  = match find (fun p => related col_lower (snd p)) (keyword_pairs table) with
    | Some (field_name, keyword) =>
        Some (field_name,
              if String.eqb col_lower keyword then 0.95%Q else 0.8%Q)
    | None => None
    end.
Proof.
  unfold keyword_pairs.
  induction table as [| [field_name keywords] rest IH]; [reflexivity |].
  cbn [match_by_name flat_map fst snd]. rewrite find_app.
  rewrite (match_keywords_first_match col_lower field_name keywords).
  assert (Hfield : forall p,
    find (fun p => related col_lower (snd p)) (map (pair field_name) keywords)
    = Some p -> fst p = field_name).
  { intros p Hp. apply find_some in Hp. destruct Hp as [Hp _].
    apply in_map_iff in Hp. destruct Hp as [kw [<- _]]. reflexivity. }
  destruct (find (fun p => related col_lower (snd p))
                 (map (pair field_name) keywords)) as [[f kw] |].
  - rewrite <- (Hfield (f, kw) eq_refl). reflexivity.
  - exact IH.
Qed.

(** X20. A header that, in lower case and stripped, contains the word name
    or is contained in it is mapped to the field name, whatever the column
    holds and whatever other keyword the header matches: name is the first
    keyword of the table.  That covers the blank header, which every
    keyword contains. *)
Theorem header_related_to_name_is_name (col : string) (column : list Cell) :
  related (strip (lower col)) "name" = true ->
  detect_column col column
  = mkMapping col (Some "name")
      (if String.eqb (strip (lower col)) "name" then 0.95%Q else 0.8%Q)
      (samples column).
Proof.
  intros H. unfold detect_column. cbv zeta.
  assert (Hm : match_by_name (strip (lower col)) COLUMN_MAPPINGS
               = Some ("name",
                       if String.eqb (strip (lower col)) "name"
                       then 0.95%Q else 0.8%Q)).
  { unfold COLUMN_MAPPINGS. cbn [match_by_name match_keywords].
    unfold related in H. rewrite H. reflexivity. }
  rewrite Hm. reflexivity.
Qed.

Lemma header_related_to_name_is_name_witness :
  detect_column "Company Name" [Some "Petronas"; Some "Maybank"]
  = mkMapping "Company Name" (Some "name") 0.8%Q ["Petronas"; "Maybank"].
Proof.
  exact (header_related_to_name_is_name "Company Name"
           [Some "Petronas"; Some "Maybank"] eq_refl).
Defined.

(** ** services/spreadsheet_service.py: rows without a key *)

Lemma count_if_nodup {A B : Type} (f : A -> B) (p : A -> bool) (l : list A) :
  NoDup (map f l) ->
  (forall x y, p x = true -> p y = true -> f x = f y) ->
  count_if p l <= 1.
Proof.
  unfold count_if. intros Hnd Hp.
  induction l as [| a t IH]; [simpl; lia |].
  cbn [map] in Hnd. inversion Hnd as [| b bs Hnotin Hnd']; subst.
  cbn [filter]. destruct (p a) eqn:Ha; [| exact (IH Hnd')].
  assert (Hnone : filter p t = []).
  { apply filter_drops_all. intros y Hy.
    destruct (p y) eqn:Hpy; [| reflexivity].
    exfalso. apply Hnotin. rewrite (Hp a y Ha Hpy).
    apply in_map. exact Hy. }
  rewrite Hnone. simpl. lia.
Qed.

Lemma key_missing_key (column_mappings : Dict.dict (option string))
    (r : Row) :
  key_missing column_mappings r = true ->
  dedup_key column_mappings r
  = map (fun _ => Some "") (selected_keys column_mappings).
Proof.
  unfold key_missing, dedup_key.
  induction (selected_keys column_mappings) as [| k ks IH];
    [reflexivity |].
  cbn [forallb map]. intros H. apply andb_true_iff in H.
  destruct H as [Hk Hks]. rewrite (IH Hks).
  destruct (row_get (source_column k) r); [discriminate Hk | reflexivity].
Qed.

(** X21. A row without a value in any key column gets the key of empty
    strings, so such rows count as duplicates of one another:
    [deduplicate] keeps at most one of them. *)
Theorem rows_without_key_collapse (df : DataFrame)
    (column_mappings : Dict.dict (option string)) :
  no_temp_columns df ->
  key_columns_present df column_mappings ->
  selected_keys column_mappings <> [] ->
  exists out n gs,
    deduplicate df column_mappings = Ok (out, n, gs)
    /\ count_if (key_missing column_mappings) (rows out) <= 1.
Proof.
  intros Htemp Hpresent Hkeys.
  destruct (deduplicate_ok df column_mappings Htemp Hpresent)
    as [gs [Hrun _]].
  do 3 eexists. split; [exact Hrun |]. cbn [rows].
  apply (count_if_nodup (dedup_key column_mappings)).
  - unfold deduplicated_rows.
    destruct (selected_keys column_mappings) as [| k ks] eqn:Hks;
      [congruence |].
    exact (proj1 (first_occurrences_distinct
                    (dedup_key column_mappings) (rows df) [])).
  - intros x y Hx Hy.
    rewrite (key_missing_key _ _ Hx), (key_missing_key _ _ Hy). reflexivity.
Qed.

Lemma rows_without_key_collapse_witness :
  count_if (key_missing phone_only) (rows df_two_missing_phones) = 2
  /\ exists out n gs,
       deduplicate df_two_missing_phones phone_only = Ok (out, n, gs)
       /\ count_if (key_missing phone_only) (rows out) <= 1.
Proof.
  split; [vm_compute; reflexivity |].
  apply (rows_without_key_collapse df_two_missing_phones phone_only
           (no_temp_columnsb_sound df_two_missing_phones eq_refl)
           (key_columns_presentb_sound df_two_missing_phones phone_only
              eq_refl)).
  discriminate.
Defined.

(** ** routers/spreadsheet.py: the headers that the pipeline looks up *)

Lemma cleaned_frame_not_empty (df : DataFrame)
    (column_mappings : Dict.dict (option string)) (clean_phones : bool) :
  df_empty df = false ->
  df_empty (cleaned_frame df column_mappings clean_phones) = false.
Proof.
  destruct (cleaned_frame_shape df column_mappings clean_phones)
    as [Hcols [Hlabels _]].
  unfold df_empty. rewrite Hcols.
  destruct (columns df) as [| c cs]; [discriminate |].
  destruct (rows df) as [| r rs]; [discriminate |].
  intros _. cbn [map].
  destruct (rows (cleaned_frame df column_mappings clean_phones));
    [discriminate Hlabels | reflexivity].
Qed.

Lemma deduplicate_missing_phone_column (df : DataFrame)
    (column_mappings : Dict.dict (option string)) (header : string) :
  df_empty df = false ->
  Dict.get "phone" (std_to_orig column_mappings) = Some header ->
  has_column df header = false ->
  deduplicate df column_mappings = KeyError header.
Proof.
  intros Hne Hphone Hcol. unfold deduplicate. rewrite Hne. cbv zeta.
  unfold build_dedup_key, key_block at 1. rewrite Hphone. cbn [fst].
  rewrite (add_key_column_missing _ _ _ _ Hcol). reflexivity.
Qed.

(** X22. [deduplicate] looks the phone up under the header that the mapping
    gives for it and raises [KeyError] with that header when the DataFrame
    has no such column.  [process_spreadsheet] passes it the DataFrame that
    [clean_data] has renamed: when the renaming leaves every column a name
    of its own and the header of the phone is not among those names,
    processing with de-duplication fails with that [KeyError]. *)
Theorem deduplicate_needs_the_original_header :
  (forall df column_mappings header,
      df_empty df = false ->
      Dict.get "phone" (std_to_orig column_mappings) = Some header ->
      has_column df header = false ->
      deduplicate df column_mappings = KeyError header)
  /\ (forall df mappings clean_phones header,
         df_empty df = false ->
         NoDup (map (renamed (rename_map mappings)) (columns df)) ->
         Dict.get "phone" (std_to_orig mappings) = Some header ->
         ~ In header (map (renamed (rename_map mappings)) (columns df)) ->
         process_spreadsheet df mappings clean_phones true
         = RaisedKeyError header).
Proof.
  split; [exact deduplicate_missing_phone_column |].
  intros df mappings clean_phones header Hne Hnd Hphone Hcol.
  unfold process_spreadsheet.
  rewrite (clean_data_returns df mappings clean_phones Hnd).
  rewrite (deduplicate_missing_phone_column
             (cleaned_frame df mappings clean_phones) mappings header).
  - reflexivity.
  - apply cleaned_frame_not_empty. exact Hne.
  - exact Hphone.
  - unfold has_column.
    rewrite (proj1 (cleaned_frame_shape df mappings clean_phones)).
    destruct (mem_string header
                (map (renamed (rename_map mappings)) (columns df))) eqn:E;
      [| reflexivity].
    apply mem_string_In in E. contradiction.
Qed.

Lemma deduplicate_needs_the_original_header_witness :
  process_spreadsheet df_headers_in_capitals capitals_mapping true true
  = RaisedKeyError "Phone".
Proof.
  apply (proj2 deduplicate_needs_the_original_header).
  - reflexivity.
  - apply repeated_false. vm_compute. reflexivity.
  - reflexivity.
  - vm_compute. intros [H | [H | []]]; discriminate H.
Defined.

(** ** services/spreadsheet_service.py: the fields of a contact *)

Lemma get_None_keys {V : Type} (k : string) (d : Dict.dict V) :
  Dict.get k d = None <-> ~ In k (map fst d).
Proof.
  induction d as [| [a b] t IH]; cbn [Dict.get map fst In].
  - tauto.
  - destruct (String.eqb k a) eqn:E.
    + apply String.eqb_eq in E. subst a. split; [discriminate | tauto].
    + apply String.eqb_neq in E. rewrite IH. split.
      * intros H [H' | H']; [congruence | contradiction].
      * tauto.
Qed.

Lemma set_absent {V : Type} (k : string) (v : V) (d : Dict.dict V) :
  ~ In k (map fst d) -> Dict.set k v d = (d ++ [(k, v)])%list.
Proof.
  induction d as [| [a b] t IH]; cbn [Dict.set map fst In app];
    [reflexivity |].
  intros H. destruct (String.eqb k a) eqn:E.
  - apply String.eqb_eq in E. subst a. tauto.
  - rewrite IH; [reflexivity | tauto].
Qed.

Lemma set_present_keys {V : Type} (k : string) (v : V) (d : Dict.dict V) :
  In k (map fst d) -> map fst (Dict.set k v d) = map fst d.
Proof.
  induction d as [| [a b] t IH]; cbn [Dict.set map fst In]; [tauto |].
  intros H. destruct (String.eqb k a) eqn:E; [reflexivity |].
  apply String.eqb_neq in E. cbn [map fst]. rewrite IH; [reflexivity |].
  destruct H as [H | H]; [congruence | exact H].
Qed.

Lemma set_keys_nodup {V : Type} (k : string) (v : V) (d : Dict.dict V) :
  NoDup (map fst d) -> NoDup (map fst (Dict.set k v d)).
Proof.
  intros Hnd. destruct (in_dec string_dec k (map fst d)) as [Hin | Hout].
  - rewrite (set_present_keys k v d Hin). exact Hnd.
  - rewrite (set_absent k v d Hout), map_app. cbn [map fst].
    apply NoDup_app; [exact Hnd | repeat constructor; intros [] |].
    intros x Hx [<- | []]. contradiction.
Qed.

Lemma std_to_orig_nodup (column_mappings : Dict.dict (option string)) :
  NoDup (map fst (std_to_orig column_mappings)).
Proof.
  unfold std_to_orig.
  assert (H : forall (m : Dict.dict (option string)) (acc : Dict.dict string),
    NoDup (map fst acc) ->
    NoDup (map fst
             (fold_left
                (fun d item =>
                   match mapped (snd item) with
                   | Some std => Dict.set std (fst item) d
                   | None => d
                   end) m acc))).
  { induction m as [| item m IH]; intros acc Hacc; cbn [fold_left];
      [exact Hacc |].
    apply IH. destruct (mapped (snd item)); [| exact Hacc].
    apply set_keys_nodup. exact Hacc. }
  apply H. constructor.
Qed.

Lemma contact_of_row_fields (std : Dict.dict string) (row : Row) :
  NoDup (map fst std) ->
  contact_of_row std row
  = map (fun item => (fst item, row_get (snd item) row)) std.
Proof.
  unfold contact_of_row.
  assert (H : forall (l : Dict.dict string) (acc : Contact),
    NoDup (map fst acc ++ map fst l) ->
    fold_left
      (fun contact item =>
         let value := row_get (snd item) row in
         Dict.set (fst item) value contact) l acc
    = (acc ++ map (fun item => (fst item, row_get (snd item) row)) l)%list).
  { induction l as [| item l IH]; intros acc Hnd; cbn [fold_left map].
    - rewrite app_nil_r. reflexivity.
    - cbv zeta. cbn [map] in Hnd.
      assert (Hout : ~ In (fst item) (map fst acc)).
      { intros Hin. apply NoDup_remove_2 in Hnd. apply Hnd.
        apply in_or_app. left. exact Hin. }
      rewrite (set_absent _ _ _ Hout), IH.
      + rewrite <- app_assoc. reflexivity.
      + rewrite map_app, <- app_assoc. exact Hnd. }
  intros Hnd. exact (H std [] Hnd).
Qed.

Lemma get_map_values {A B : Type} (g : A -> B) (k : string)
    (d : Dict.dict A) :
  Dict.get k (map (fun item => (fst item, g (snd item))) d)
  = option_map g (Dict.get k d).
Proof.
  induction d as [| [a b] t IH]; [reflexivity |].
  cbn [map Dict.get fst snd]. destruct (String.eqb k a);
    [reflexivity | exact IH].
Qed.

(** X23. Every contact of [to_contact_list] has exactly the canonical
    fields of the mapping, each once and in one order for all contacts;
    the value of a field is the cell of some row of the DataFrame under the
    header that the mapping gives for that field, the same row for all the
    fields; and the contact has a name or a phone that is not empty. *)
Theorem contacts_have_the_mapped_fields (df : DataFrame)
    (column_mappings : Dict.dict (option string)) (contact : Contact) :
  In contact (to_contact_list df column_mappings) ->
  map fst contact = map fst (std_to_orig column_mappings)
  /\ NoDup (map fst contact)
  /\ (exists row,
        In row (rows df)
        /\ forall std_field orig_col,
             Dict.get std_field (std_to_orig column_mappings) = Some orig_col ->
             Dict.get std_field contact = Some (row_get orig_col row))
  /\ has_field contact "name" || has_field contact "phone" = true.
Proof.
  unfold to_contact_list. cbv zeta. intros Hin.
  apply filter_In in Hin. destruct Hin as [Hin Hkeep].
  apply in_map_iff in Hin. destruct Hin as [row [Hc Hrow]].
  pose proof (std_to_orig_nodup column_mappings) as Hnd.
  rewrite (contact_of_row_fields _ row Hnd) in Hc. subst contact.
  assert (Hkeys : map fst
                    (map (fun item => (fst item, row_get (snd item) row))
                         (std_to_orig column_mappings))
                  = map fst (std_to_orig column_mappings))
    by (rewrite map_map; reflexivity).
  split; [exact Hkeys |]. split; [exact (eq_ind_r _ Hnd Hkeys) |].
  split; [| exact Hkeep].
  exists row. split; [exact Hrow |].
  intros std_field orig_col Hget.
  rewrite (get_map_values (fun orig => row_get orig row)), Hget. reflexivity.
Qed.

Lemma contacts_have_the_mapped_fields_witness :
  let contact := [("name", Some "Ali bin Abu");
                  ("phone", Some "012-345 6789");
                  ("email", Some "ali@example.com")] in
  In contact (to_contact_list df_quality quality_mapping)
  /\ map fst contact = map fst (std_to_orig quality_mapping).
Proof.
  cbv zeta.
  assert (Hin : In [("name", Some "Ali bin Abu");
                    ("phone", Some "012-345 6789");
                    ("email", Some "ali@example.com")]
                   (to_contact_list df_quality quality_mapping))
    by (vm_compute; left; reflexivity).
  split; [exact Hin |].
  exact (proj1 (contacts_have_the_mapped_fields _ _ _ Hin)).
Defined.

(** ** routers/spreadsheet.py: processing without de-duplication *)

Lemma set_keys {V : Type} (k c : string) (v : V) (d : Dict.dict V) :
  In k (map fst (Dict.set c v d)) -> In k (map fst d) \/ k = c.
Proof.
  intros H. apply in_map_iff in H. destruct H as [[a b] [Ha Hin]].
  cbn [fst] in Ha. subst a.
  destruct (In_set _ _ _ _ _ Hin) as [H | [H _]]; [left | right; exact H].
  apply in_map_iff. exists (k, b). split; [reflexivity | exact H].
Qed.

Lemma frame_within (header : list string) (data : list (list Cell)) :
  rows_within_columns (frame header data).
Proof.
  unfold rows_within_columns, frame. cbn [rows columns].
  assert (H : forall i r k,
             In r (records_from i header data) ->
             In k (map fst (cells r)) -> In k header).
  { induction data as [| d t IH]; intros i r k; cbn [records_from];
      [intros [] |].
    intros [<- | Hin]; [| exact (IH (S i) r k Hin)].
    cbn [cells]. intros Hk. apply in_map_iff in Hk.
    destruct Hk as [[a b] [Ha Hab]]. cbn [fst] in Ha. subst a.
    exact (in_combine_l _ _ _ _ Hab). }
  intros r k. apply H.
Qed.

Lemma rename_within (df : DataFrame) (names : Dict.dict string) :
  rows_within_columns df -> rows_within_columns (rename df names).
Proof.
  unfold rows_within_columns, rename. cbn [rows columns].
  intros Hdf r k Hr Hk. apply in_map_iff in Hr.
  destruct Hr as [r0 [<- Hr0]]. cbn [cells] in Hk. rewrite map_map in Hk.
  cbn [fst] in Hk. apply in_map_iff in Hk. destruct Hk as [item [<- Hitem]].
  apply in_map. apply (Hdf r0); [exact Hr0 |]. apply in_map. exact Hitem.
Qed.

Lemma apply_if_present_within (d : DataFrame) (col : string)
    (f : Cell -> Cell) :
  rows_within_columns d -> rows_within_columns (apply_if_present d col f).
Proof.
  unfold rows_within_columns. intros Hd r k.
  rewrite apply_if_present_columns.
  unfold apply_if_present, getitem. destruct (has_column d col) eqn:E;
    [| apply Hd].
  unfold setitem. cbn [rows]. rewrite set_cells_apply. intros Hr Hk.
  apply in_map_iff in Hr. destruct Hr as [r0 [<- Hr0]]. cbn [cells] in Hk.
  destruct (set_keys _ _ _ _ Hk) as [H | ->]; [exact (Hd r0 k Hr0 H) |].
  apply mem_string_In. exact E.
Qed.

Lemma cleaned_frame_within (df : DataFrame)
    (column_mappings : Dict.dict (option string)) (clean_phones : bool) :
  rows_within_columns df ->
  rows_within_columns (cleaned_frame df column_mappings clean_phones).
Proof.
  intros Hdf. unfold cleaned_frame. cbv zeta.
  set (d0 := rename df (rename_map column_mappings)).
  assert (H0 : rows_within_columns d0) by (apply rename_within; exact Hdf).
  set (d1 := if clean_phones then apply_if_present d0 "phone" _clean_phone
             else d0).
  assert (H1 : rows_within_columns d1)
    by (unfold d1; destruct clean_phones;
        [apply apply_if_present_within |]; exact H0).
  set (d3 := apply_if_present (apply_if_present d1 "email" _clean_email)
               "name" _clean_name).
  assert (H3 : rows_within_columns d3)
    by (apply apply_if_present_within, apply_if_present_within; exact H1).
  unfold rows_within_columns. cbn [rows columns]. intros r k Hr Hk.
  apply in_map_iff in Hr. destruct Hr as [r0 [<- Hr0]]. cbn [cells] in Hk.
  rewrite map_map in Hk. cbn [fst] in Hk. exact (H3 r0 k Hr0 Hk).
Qed.

Lemma row_get_outside (d : DataFrame) (r : Row) (col : string) :
  rows_within_columns d -> In r (rows d) -> ~ In col (columns d) ->
  row_get col r = None.
Proof.
  intros Hd Hr Hcol. unfold row_get.
  assert (H : Dict.get col (cells r) = None).
  { apply get_None_keys. intros Hk. exact (Hcol (Hd r col Hr Hk)). }
  rewrite H. reflexivity.
Qed.

(** X24. [to_contact_list], too, reads the cells under the headers of the
    mapping, on the DataFrame that [clean_data] has renamed.  When the
    renaming leaves every column a name of its own and neither the header
    mapped to name nor the header mapped to phone is among those names,
    processing without de-duplication succeeds with no contact at all:
    every row is counted as failed. *)
Theorem renamed_headers_give_no_contact (df : DataFrame)
    (mappings : Dict.dict (option string)) (clean_phones : bool) :
  rows_within_columns df ->
  NoDup (map (renamed (rename_map mappings)) (columns df)) ->
  (forall std_field orig_col,
      In std_field ["name"; "phone"] ->
      Dict.get std_field (std_to_orig mappings) = Some orig_col ->
      ~ In orig_col (map (renamed (rename_map mappings)) (columns df))) ->
  process_spreadsheet df mappings clean_phones false
  = Returned (mkSummary (len df) 0 (Z.of_nat (len df)) 0, [], []).
Proof.
  intros Hdf Hnd Hheaders. unfold process_spreadsheet.
  rewrite (clean_data_returns df mappings clean_phones Hnd). cbv zeta.
  set (cleaned := cleaned_frame df mappings clean_phones).
  assert (Hwithin : rows_within_columns cleaned)
    by (apply cleaned_frame_within; exact Hdf).
  assert (Hcols : columns cleaned
                  = map (renamed (rename_map mappings)) (columns df))
    by apply (proj1 (cleaned_frame_shape df mappings clean_phones)).
  assert (Hfield : forall r std_field,
            In r (rows cleaned) -> In std_field ["name"; "phone"] ->
            has_field (contact_of_row (std_to_orig mappings) r) std_field
            = false).
  { intros r std_field Hr Hf. unfold has_field.
    rewrite (contact_of_row_fields _ r (std_to_orig_nodup mappings)).
    rewrite (get_map_values (fun orig => row_get orig r)).
    destruct (Dict.get std_field (std_to_orig mappings)) as [orig |] eqn:E;
      [| reflexivity].
    cbn [option_map].
    rewrite (row_get_outside cleaned r orig Hwithin Hr); [reflexivity |].
    rewrite Hcols. exact (Hheaders std_field orig Hf E). }
  assert (Hnone : to_contact_list cleaned mappings = []).
  { unfold to_contact_list. cbv zeta. apply filter_drops_all.
    intros contact Hc. apply in_map_iff in Hc. destruct Hc as [r [<- Hr]].
    rewrite (Hfield r "name" Hr), (Hfield r "phone" Hr);
      [reflexivity | simpl; tauto | simpl; tauto]. }
  rewrite Hnone. cbn [List.length]. rewrite Z.sub_0_r. reflexivity.
Qed.

Lemma renamed_headers_give_no_contact_witness :
  process_spreadsheet df_headers_in_capitals capitals_mapping true false
  = Returned (mkSummary 2 0 2%Z 0%Z, [], []).
Proof.
  apply (renamed_headers_give_no_contact
           df_headers_in_capitals capitals_mapping true).
  - apply frame_within.
  - apply repeated_false. vm_compute. reflexivity.
  - intros std_field orig_col [<- | [<- | []]] Hget;
      vm_compute in Hget; injection Hget as <-;
      vm_compute; intros [H | [H | []]]; discriminate H.
Defined.

(** ** utils/phone_formatter.py: the numbers that extraction returns *)

Lemma search_sound {A : Type} (p : pattern) :
  forall (s : string) (k : string -> option A) (x : A),
    search p s k = Some x ->
    exists s1 s2, s = s1 ++ s2 /\ matches p s1 /\ k s2 = Some x.
Proof.
  induction p as [| a | a IHa b IHb | a IHa]; intros s k x; cbn [search].
  - intros H. exists "", s. repeat split; [constructor | exact H].
  - destruct s as [| c t]; [discriminate |].
    destruct (accepts a c) eqn:E; [| discriminate].
    intros H. exists (String c ""), t.
    repeat split; [constructor; exact E | exact H].
  - intros H. apply IHa in H. destruct H as [s1 [s' [-> [Ha H]]]].
    apply IHb in H. destruct H as [s2 [s3 [-> [Hb H]]]].
    exists (s1 ++ s2), s3. split; [| split; [constructor; assumption | exact H]].
    clear. induction s1 as [| c s1 IH]; [reflexivity |].
    cbn [append]. rewrite IH. reflexivity.
  - destruct (search a s k) as [y |] eqn:E.
    + intros H. injection H as ->. apply IHa in E.
      destruct E as [s1 [s2 [-> [Ha H]]]].
      exists s1, s2. repeat split; [apply matches_some; exact Ha | exact H].
    + intros H. exists "", s. repeat split; [apply matches_none | exact H].
Qed.

Lemma take_app (m rest : string) :
  take (String.length (m ++ rest) - String.length rest) (m ++ rest) = m.
Proof.
  rewrite string_length_app.
  replace (String.length m + String.length rest - String.length rest)
    with (String.length m) by lia.
  induction m as [| c m IH]; cbn [append String.length take].
  - destruct rest; reflexivity.
  - rewrite IH. reflexivity.
Qed.

Lemma findall_matches (p : pattern) (s : string) :
  forall skip m, In m (findall_from p skip s) -> matches p m.
Proof.
  induction s as [| c t IH]; intros skip m; cbn [findall_from]; [intros [] |].
  destruct skip as [| n]; [| apply IH].
  destruct (match_at p (String c t)) as [rest |] eqn:E; [| apply IH].
  cbv zeta. intros [<- | Hin]; [| exact (IH _ m Hin)].
  unfold match_at in E. apply search_sound in E.
  destruct E as [s1 [s2 [Hs [Hm Hk]]]]. injection Hk as ->.
  rewrite Hs, take_app. exact Hm.
Qed.

Lemma separator_not_digit (c : ascii) :
  is_space c || Ascii.eqb c "-" = true -> is_digit c = false.
Proof.
  intros H. destruct (is_digit c) eqn:E; [| reflexivity].
  rewrite (digit_not_space c E) in H. cbn [orb] in H.
  apply Ascii.eqb_eq in H. subst c. discriminate E.
Qed.

Lemma matches_digits (p : pattern) (m : string) :
  matches p m ->
  least_digits p <= String.length (sfilter is_digit m) <= most_digits p.
Proof.
  induction 1 as [| a c Hc | a b s1 s2 _ IHa _ IHb | a s _ IH | a].
  - simpl. lia.
  - destruct a as [x | |]; cbn [accepts] in Hc;
      cbn [least_digits most_digits sfilter].
    + apply Ascii.eqb_eq in Hc. subst x. destruct (is_digit c); simpl; lia.
    + rewrite Hc. simpl. lia.
    + rewrite (separator_not_digit c Hc). simpl. lia.
  - cbn [least_digits most_digits]. rewrite sfilter_app, string_length_app.
    lia.
  - cbn [least_digits most_digits]. lia.
  - simpl. lia.
Qed.

Lemma clean_phone_number_digits (phone : string) :
  digits_with_optional_plus (clean_phone_number phone) = true
  /\ sfilter is_digit (clean_phone_number phone) = sfilter is_digit phone.
Proof.
  pose proof (sforall_sfilter is_digit phone) as Hd.
  destruct (clean_phone_number_shape phone) as [-> | ->].
  - split; [| apply sfilter_idempotent].
    destruct (sfilter is_digit phone) as [| c t]; [reflexivity |].
    cbn [digits_with_optional_plus sforall] in *.
    apply andb_true_iff in Hd. destruct Hd as [Hc Ht].
    rewrite Hc, Ht. reflexivity.
  - split.
    + cbn [String.append digits_with_optional_plus]. rewrite Hd.
      reflexivity.
    + rewrite sfilter_app, sfilter_idempotent. reflexivity.
Qed.

(** X25. The numbers that [extract_phone_numbers] returns are pairwise
    different; each is digits with at most one [+], in front, is
    recognised by [is_malaysian_number], and has from 9 to 12 digits. *)
Theorem extracted_numbers_are_malaysian (text : string) :
  NoDup (extract_phone_numbers text)
  /\ forall phone, In phone (extract_phone_numbers text) ->
       is_malaysian_number phone = true
       /\ digits_with_optional_plus phone = true
       /\ 9 <= String.length (sfilter is_digit phone) <= 12.
Proof.
  set (good := fun phone =>
         is_malaysian_number phone = true
         /\ digits_with_optional_plus phone = true
         /\ 9 <= String.length (sfilter is_digit phone) <= 12).
  set (inv := fun l : list string => NoDup l /\ forall x, In x l -> good x).
  assert (Hstep : forall ms l,
            (forall m, In m ms ->
               9 <= String.length (sfilter is_digit m) <= 12) ->
            inv l -> inv (fold_left add_match ms l)).
  { induction ms as [| m ms IH]; intros l Hms Hl; cbn [fold_left];
      [exact Hl |].
    apply IH; [intros x Hx; apply Hms; right; exact Hx |].
    unfold add_match. cbv zeta.
    destruct (is_malaysian_number (clean_phone_number m)) eqn:Emy;
      cbn [andb]; [| exact Hl].
    destruct (mem_string (clean_phone_number m) l) eqn:Emem;
      cbn [negb]; [exact Hl |].
    destruct Hl as [Hnd Hgood]. split.
    - apply NoDup_app; [exact Hnd | repeat constructor; intros [] |].
      intros x Hx [<- | []]. apply mem_string_In in Hx. congruence.
    - intros x Hx. apply in_app_or in Hx.
      destruct Hx as [Hx | [<- | []]]; [exact (Hgood x Hx) |].
      destruct (clean_phone_number_digits m) as [Hshape Hdigits].
      split; [exact Emy |]. split; [exact Hshape |].
      rewrite Hdigits. apply Hms. left; reflexivity. }
  assert (Hall : inv (extract_phone_numbers text)).
  { unfold extract_phone_numbers.
    destruct (negb (truthy text)); [split; [constructor | intros x []] |].
    assert (Hpat : forall ps l,
              (forall p, In p ps ->
                 9 <= least_digits p /\ most_digits p <= 12) ->
              inv l ->
              inv (fold_left
                     (fun phone_numbers pattern =>
                        fold_left add_match (findall pattern text)
                                  phone_numbers) ps l)).
    { induction ps as [| p ps IH]; intros l Hps Hl; cbn [fold_left];
        [exact Hl |].
      apply IH; [intros q Hq; apply Hps; right; exact Hq |].
      apply Hstep; [| exact Hl].
      intros m Hm. apply findall_matches in Hm.
      pose proof (matches_digits p m Hm) as Hb.
      destruct (Hps p ltac:(left; reflexivity)) as [Hlo Hhi]. lia. }
    apply Hpat; [| split; [constructor | intros x []]].
    intros p Hp. unfold patterns in Hp.
    destruct Hp as [<- | [<- | [<- | []]]]; vm_compute; split; lia. }
  exact Hall.
Qed.

Lemma extracted_numbers_are_malaysian_witness :
  extract_phone_numbers "Call 012-345 6789 or +60 3-1234 5678"
  = ["+60312345678"; "0123456789"]
  /\ is_malaysian_number "+60312345678" = true.
Proof.
  assert (E : extract_phone_numbers "Call 012-345 6789 or +60 3-1234 5678"
              = ["+60312345678"; "0123456789"])
    by (vm_compute; reflexivity).
  split; [exact E |].
  refine (proj1 (proj2 (extracted_numbers_are_malaysian
                          "Call 012-345 6789 or +60 3-1234 5678")
                   "+60312345678" _)).
  rewrite E. left. reflexivity.
Defined.

(** ** services/spreadsheet_service.py: cleaned values and detection *)

Lemma sforall_app (p : ascii -> bool) (a b : string) :
  sforall p (a ++ b) = sforall p a && sforall p b.
Proof.
  induction a as [| c a IH]; [reflexivity |].
  cbn [append sforall]. rewrite IH. apply andb_assoc.
Qed.

Lemma lang_star_cls (p : ascii -> bool) (s : string) :
  sforall p s = true -> Re.lang (Re.Star (Re.Cls p)) s.
Proof.
  induction s as [| c t IH]; [constructor |].
  cbn [sforall]. intros H. apply andb_true_iff in H. destruct H as [Hc Ht].
  change (String c t) with (String c "" ++ t).
  constructor; [constructor; exact Hc | exact (IH Ht)].
Qed.

Lemma lang_at_least_cls (p : ascii -> bool) (n : nat) :
  forall s,
    n <= String.length s -> sforall p s = true ->
    Re.lang (Re.AtLeast n (Re.Cls p)) s.
Proof.
  induction n as [| n IH]; intros s Hlen Hs; cbn [Re.AtLeast].
  - apply lang_star_cls. exact Hs.
  - destruct s as [| c t]; [simpl in Hlen; lia |].
    cbn [sforall] in Hs. apply andb_true_iff in Hs. destruct Hs as [Hc Ht].
    change (String c t) with (String c "" ++ t).
    constructor; [constructor; exact Hc |].
    apply IH; [simpl in Hlen; lia | exact Ht].
Qed.

Lemma display_characters (d : string) :
  sforall is_digit d = true ->
  sforall (fun c => is_digit c || is_space c || one_of "-+()" c)
          (display true d) = true.
Proof.
  intros Hd.
  set (q := fun c : ascii => is_digit c || is_space c || one_of "-+()" c).
  assert (Hq : forall s, sforall is_digit s = true -> sforall q s = true).
  { intros s Hs. refine (sforall_imp is_digit q s _ Hs).
    intros c Hc. unfold q. rewrite Hc. reflexivity. }
  assert (Ht : forall k, sforall q (take k d) = true)
    by (intros k; apply Hq, sforall_take; exact Hd).
  assert (Hr : forall k, sforall q (drop k d) = true)
    by (intros k; apply Hq, sforall_drop; exact Hd).
  assert (Hs : forall a b, sforall q (slice a b d) = true)
    by (intros a b; apply Hq; unfold slice;
        apply sforall_take, sforall_drop; exact Hd).
  unfold display.
  destruct (any_prefix MOBILE_PREFIXES d);
    [destruct (9 <=? String.length d) | destruct (8 <=? String.length d)];
    rewrite !sforall_app, ?Ht, ?Hr, ?Hs; reflexivity.
Qed.

(** X26. What the cleaners return, the detection by content recognises: a
    phone that [_clean_phone] returns has the shape that
    [_detect_by_content] counts as a phone, and an address that
    [_clean_email] returns the shape that it counts as an email. *)
Theorem cleaned_values_are_detected :
  (forall phone s, _clean_phone phone = Some s -> phone_shaped s = true)
  /\ (forall email s, _clean_email email = Some s -> email_shaped s = true).
Proof.
  split.
  - intros phone s H.
    destruct (clean_phone_result phone s H) as [Hlen [Hstrip _]].
    set (q := fun c : ascii => is_digit c || is_space c || one_of "-+()" c).
    assert (Hq : sforall q s = true).
    { destruct phone as [v |]; [| discriminate H].
      unfold _clean_phone in H. cbv zeta in H.
      destruct (format_malaysian_phone (strip v) true) as [f |] eqn:Hf.
      - injection H as <-.
        destruct (format_some_inv _ _ _ Hf) as [_ [_ [Hd ->]]].
        apply display_characters. exact Hd.
      - destruct (8 <=? String.length _); [| discriminate H].
        injection H as <-.
        refine (sforall_imp _ q _ _ (sforall_sfilter _ (strip v))).
        intros c Hc. unfold q. apply orb_true_iff in Hc.
        destruct Hc as [Hc | Hc]; [rewrite Hc; reflexivity |].
        apply Ascii.eqb_eq in Hc. subst c. reflexivity. }
    assert (Hm : match_to_end (Re.AtLeast 8 (Re.Cls q)) s = true).
    { apply match_to_end_lang. left.
      apply lang_at_least_cls; assumption. }
    unfold phone_shaped, phone_patterns. rewrite Hstrip.
    cbn [existsb]. fold q. rewrite Hm, !orb_true_r. reflexivity.
  - intros email s H.
    destruct (clean_email_result email s H) as [Hm _].
    unfold email_shaped. apply match_prefix_lang.
    apply match_to_end_lang in Hm.
    destruct Hm as [Hm | [s' [-> Hm]]].
    + exists s, "". split; [symmetry; apply append_nil_r | exact Hm].
    + exists s', (String "010" ""). split; [reflexivity | exact Hm].
Qed.

Lemma cleaned_values_are_detected_witness :
  _clean_phone (Some "012-345 6789") = Some "+60 12-345 6789"
  /\ phone_shaped "+60 12-345 6789" = true.
Proof.
  assert (H : _clean_phone (Some "012-345 6789") = Some "+60 12-345 6789")
    by (vm_compute; reflexivity).
  split; [exact H |].
  exact (proj1 cleaned_values_are_detected _ _ H).
Defined.

(** ** routers/spreadsheet.py: processing with the detected mapping *)

Lemma fold_set_fresh {A V : Type} (key : A -> string) (val : A -> V)
    (l : list A) :
  forall acc : Dict.dict V,
    NoDup (map fst acc ++ map key l) ->
    fold_left (fun d x => Dict.set (key x) (val x) d) l acc
    = (acc ++ map (fun x => (key x, val x)) l)%list.
Proof.
  induction l as [| x l IH]; intros acc Hnd; cbn [fold_left map].
  - rewrite app_nil_r. reflexivity.
  - cbn [map] in Hnd.
    assert (Hout : ~ In (key x) (map fst acc)).
    { intros Hin. apply NoDup_remove_2 in Hnd. apply Hnd.
      apply in_or_app. left. exact Hin. }
    rewrite (set_absent _ _ _ Hout), IH.
    + rewrite <- app_assoc. reflexivity.
    + rewrite map_app, <- app_assoc. exact Hnd.
Qed.

Lemma mapping_dict_of_detected (df : DataFrame) :
  NoDup (columns df) ->
  mapping_dict (detect_columns df)
  = map (fun col =>
           (col, mapped_to (detect_column col (column_cells df col))))
        (columns df).
Proof.
  intros Hnd. unfold mapping_dict.
  rewrite (fold_set_fresh original_name mapped_to (detect_columns df) []).
  - unfold detect_columns. cbn [app]. rewrite map_map.
    apply map_ext. intros col. rewrite detect_column_original_name.
    reflexivity.
  - cbn [map app]. unfold detect_columns. rewrite map_map.
    rewrite (map_ext _ (fun col => col)); [rewrite map_id; exact Hnd |].
    intros col. apply detect_column_original_name.
Qed.

Lemma rename_map_keeps (c : string)
    (m : Dict.dict (option string)) :
  forall acc : Dict.dict string,
    ~ In c (map fst m) ->
    Dict.get c
      (fold_left
         (fun d item =>
            match mapped (snd item) with
            | Some std => Dict.set (fst item) std d
            | None => d
            end) m acc)
    = Dict.get c acc.
Proof.
  induction m as [| item m IH]; intros acc Hout; cbn [fold_left];
    [reflexivity |].
  cbn [map In] in Hout. rewrite IH by tauto.
  destruct (mapped (snd item)); [| reflexivity].
  apply get_set_other. tauto.
Qed.

Lemma rename_map_get (m : Dict.dict (option string)) (c f : string)
    (v : option string) :
  NoDup (map fst m) -> In (c, v) m -> mapped v = Some f ->
  Dict.get c (rename_map m) = Some f.
Proof.
  unfold rename_map. generalize (@nil (string * string)).
  induction m as [| item m IH]; intros acc Hnd Hin Hv; [destruct Hin |].
  cbn [map] in Hnd. inversion Hnd as [| k ks Hout Hnd']; subst.
  cbn [fold_left]. destruct Hin as [-> | Hin].
  - cbn [fst snd] in *. rewrite Hv.
    rewrite (rename_map_keeps c m _ Hout). apply get_set_same.
  - exact (IH _ Hnd' Hin Hv).
Qed.

Lemma repeated_image (g : string -> string) (l : list string)
    (a b : string) :
  In a l -> In b l -> a <> b -> g a = g b -> repeated (map g l) = true.
Proof.
  intros Ha Hb Hne Hg.
  destruct (repeated (map g l)) eqn:E; [reflexivity |].
  apply repeated_false in E. exfalso. apply Hne.
  clear Hne. induction l as [| x l IH]; [destruct Ha |].
  cbn [map] in E. inversion E as [| y ys Hout Hnd]; subst.
  destruct Ha as [-> | Ha], Hb as [-> | Hb].
  - reflexivity.
  - exfalso. apply Hout. rewrite Hg. apply in_map. exact Hb.
  - exfalso. apply Hout. rewrite <- Hg. apply in_map. exact Ha.
  - exact (IH Ha Hb Hnd).
Qed.

Lemma detected_as_name (col : string) (column : list Cell) :
  related (strip (lower col)) "name" = true ->
  mapped_to (detect_column col column) = Some "name".
Proof.
  intros H. unfold detect_column. cbv zeta.
  assert (Hm : match_by_name (strip (lower col)) COLUMN_MAPPINGS
               = Some ("name",
                       if String.eqb (strip (lower col)) "name"
                       then 0.95%Q else 0.8%Q)).
  { unfold COLUMN_MAPPINGS. cbn [match_by_name match_keywords].
    unfold related in H. rewrite H. reflexivity. }
  rewrite Hm. reflexivity.
Qed.

(** X27. The mapping that [detect_columns] proposes can make
    [process_spreadsheet] fail.  When two columns of a DataFrame that has
    rows each have a header that contains the word name or is contained
    in it, both are detected as name; processing with the detected mapping
    renames both to name, and [clean_data] raises [ValueError] on the
    name column, whatever the two switches. *)
Theorem detected_names_collide (df : DataFrame)
    (clean_phones remove_duplicates : bool) (c1 c2 : string) :
  NoDup (columns df) ->
  In c1 (columns df) -> In c2 (columns df) -> c1 <> c2 ->
  rows df <> [] ->
  related (strip (lower c1)) "name" = true ->
  related (strip (lower c2)) "name" = true ->
  process_spreadsheet df (mapping_dict (detect_columns df))
    clean_phones remove_duplicates
  = RaisedValueError.
Proof.
  intros Hnd H1 H2 Hne Hrows Hc1 Hc2.
  set (m := mapping_dict (detect_columns df)).
  assert (Hkeys : NoDup (map fst m)).
  { unfold m. rewrite (mapping_dict_of_detected df Hnd), map_map.
    cbn [fst]. rewrite map_id. exact Hnd. }
  assert (Hname : forall c, In c (columns df) ->
            related (strip (lower c)) "name" = true ->
            renamed (rename_map m) c = "name").
  { intros c Hc Hrel. unfold renamed.
    rewrite (rename_map_get m c "name" (Some "name") Hkeys);
      [reflexivity | | reflexivity].
    unfold m. rewrite (mapping_dict_of_detected df Hnd).
    apply in_map_iff. exists c. split; [| exact Hc].
    rewrite (detected_as_name c _ Hrel). reflexivity. }
  assert (Hrep : repeated (map (renamed (rename_map m)) (columns df)) = true).
  { apply (repeated_image _ _ c1 c2 H1 H2 Hne).
    rewrite (Hname c1 H1 Hc1), (Hname c2 H2 Hc2). reflexivity. }
  unfold process_spreadsheet, clean_data. cbv zeta.
  unfold rename at 1 2. cbn [columns]. rewrite Hrep.
  unfold len. cbn [rows]. rewrite length_map.
  destruct (rows df) as [| r rs]; [congruence | reflexivity].
Qed.

Lemma detected_names_collide_witness :
  map mapped_to (detect_columns df_name_and_company_name)
  = [Some "name"; Some "name"]
  /\ process_spreadsheet df_name_and_company_name
       (mapping_dict (detect_columns df_name_and_company_name)) true true
     = RaisedValueError.
Proof.
  split; [vm_compute; reflexivity |].
  apply (detected_names_collide df_name_and_company_name true true
           "Name" "Company Name").
  - apply repeated_false. vm_compute. reflexivity.
  - left. reflexivity.
  - right. left. reflexivity.
  - discriminate.
  - discriminate.
  - vm_compute. reflexivity.
  - vm_compute. reflexivity.
Defined.
